(** * download-docker-image.py: registry resolution and image assembly

    A shallow embedding of [scripts/docker/download-docker-image.py] and the
    properties of its specification.

    - Python [str] values are Rocq strings (sequences of code points below
      256); the string methods the script calls are the functions of
      [Module Py].
    - Decoded JSON documents are values of [json]; the dynamic checks of
      Python ([.get] on a non-dict, subscripting, iteration, truth value)
      are written out and raise the exception Python raises.  JSON numbers
      with a fraction or an exponent (Python floats) are not represented.
    - The registry and the local disk are the environment: a [world] answers
      the n-th external call (an HTTP request or a filesystem operation), and
      the program threads a [state] holding the call counter and the
      filesystem.  Printing is not modelled.
    - Exceptions and [return] statements are results of the monad [M]. *)

From Stdlib Require Import Ascii.
From stdpp Require Import base list strings gmap pretty.

#[local] Set Warnings "-register-all,-clear-no-such-hyp".

(** ** Python strings *)

Module Py.

(** The double quote character. *)
Definition dquote : ascii := Ascii.ascii_of_nat 34.

(** [s.startswith(p)] *)
Fixpoint startswith (s p : string) : bool :=
  match p, s with
  | "", _ => true
  | String _ _, "" => false
  | String a p', String b s' => if decide (a = b) then startswith s' p' else false
  end.

(** [sub in s] for two strings *)
Fixpoint contains (s sub : string) : bool :=
  match s with
  | "" => startswith "" sub
  | String _ s' => startswith s sub || contains s' sub
  end.

(** [s.count(c)] for a one-character [c] *)
Fixpoint count (c : ascii) (s : string) : nat :=
  match s with
  | "" => 0
  | String a s' => (if decide (a = c) then 1 else 0) + count c s'
  end.

(** [s.split(c)] for a one-character separator [c] *)
Fixpoint split (c : ascii) (s : string) : list string :=
  match s with
  | "" => [""]
  | String a s' =>
      if decide (a = c) then "" :: split c s'
      else match split c s' with
           | h :: t => String a h :: t
           | [] => [String a ""]
           end
  end.

(** [s.rsplit(c, 1)] when [c] occurs in [s]: the parts before and after the
    last occurrence; [None] when [c] does not occur. *)
Fixpoint rsplit1 (c : ascii) (s : string) : option (string * string) :=
  match s with
  | "" => None
  | String a s' =>
      match rsplit1 c s' with
      | Some (h, t) => Some (String a h, t)
      | None => if decide (a = c) then Some ("", s') else None
      end
  end.

(** [s.replace(c, d)] for one-character [c] and [d] *)
Fixpoint replace (c d : ascii) (s : string) : string :=
  match s with
  | "" => ""
  | String a s' => String (if decide (a = c) then d else a) (replace c d s')
  end.

(** [str.isspace] on one character: TAB..CR, FS..US, space, NEL, NBSP. *)
Definition isspace (a : ascii) : bool :=
  let n := Ascii.nat_of_ascii a in
  ((9 <=? n) && (n <=? 13) || (28 <=? n) && (n <=? 32)
   || (n =? 133) || (n =? 160))%nat.

Fixpoint lstrip (s : string) : string :=
  match s with
  | "" => ""
  | String a s' => if isspace a then lstrip s' else s
  end.

Fixpoint rstrip (s : string) : string :=
  match s with
  | "" => ""
  | String a s' =>
      match rstrip s' with
      | "" => if isspace a then "" else String a ""
      | r => String a r
      end
  end.

(** [s.strip()] *)
Definition strip (s : string) : string := rstrip (lstrip s).

(** [str.lower] on one character: A..Z and the Latin-1 capitals. *)
Definition lower_char (a : ascii) : ascii :=
  let n := Ascii.nat_of_ascii a in
  if ((65 <=? n) && (n <=? 90)
      || (192 <=? n) && (n <=? 222) && negb (n =? 215))%nat
  then Ascii.ascii_of_nat (n + 32) else a.

(** [s.lower()] *)
Fixpoint lower (s : string) : string :=
  match s with
  | "" => ""
  | String a s' => String (lower_char a) (lower s')
  end.

(** [sep.join(l)] *)
Fixpoint join (sep : string) (l : list string) : string :=
  match l with
  | [] => ""
  | [x] => x
  | x :: l' => x +:+ sep +:+ join sep l'
  end.

(** [s.endswith(c)] for a one-character [c] *)
Fixpoint endswith_char (s : string) (c : ascii) : bool :=
  match s with
  | "" => false
  | String a "" => bool_decide (a = c)
  | String _ s' => endswith_char s' c
  end.

(** [os.path.join(a, b)] (posixpath) *)
Definition path_join (a b : string) : string :=
  if startswith b "/" then b
  else if decide (a = "") then b
  else if endswith_char a "/" then a +:+ b
  else a +:+ "/" +:+ b.

(** [repr] of a string: single quotes unless the string has a single quote
    and no double quote; backslash, the quote character and unprintable
    characters are escaped. *)
Definition hex_digit (n : nat) : ascii :=
  default "0"%char (String.get n "0123456789abcdef").

Definition printable (a : ascii) : bool :=
  let n := Ascii.nat_of_ascii a in
  ((32 <=? n) && (n <=? 126) || (161 <=? n) && negb (n =? 173))%nat.

Definition repr_char (quote a : ascii) : string :=
  let n := Ascii.nat_of_ascii a in
  if decide (a = quote) then String "\" (String a "")
  else if decide (a = "\"%char) then "\\"
  else if (n =? 9)%nat then "\t"
  else if (n =? 10)%nat then "\n"
  else if (n =? 13)%nat then "\r"
  else if printable a then String a ""
  else String "\" (String "x" (String (hex_digit (n / 16))
                                 (String (hex_digit (n mod 16)) ""))).

Fixpoint repr_chars (quote : ascii) (s : string) : string :=
  match s with
  | "" => ""
  | String a s' => repr_char quote a +:+ repr_chars quote s'
  end.

Definition repr_str (s : string) : string :=
  let quote :=
    if ((0 <? count "'" s) && (count dquote s =? 0))%nat then dquote else "'"%char in
  String quote (repr_chars quote s) +:+ String quote "".

End Py.

(** ** Decoded JSON values and the Python operations applied to them *)

Inductive json :=
| JNull
| JBool (b : bool)
| JInt (n : Z)
| JStr (s : string)
| JList (items : list json)
| JDict (entries : list (string * json)).

(** The exceptions the script can meet.  [RequestException] stands for the
    transport errors of [requests] (connection failure, timeout, a body that
    breaks off); [HTTPError] is what [raise_for_status] raises. *)
Inductive exn :=
| AttributeError
| TypeError
| KeyError (key : string)
| ValueError
| OverflowError
| JSONDecodeError
| RequestException
| HTTPError (status : Z)
| OSError.

(** The result of running statements: a value, a [return] statement that is
    leaving the function, or an exception that is propagating. *)
Inductive result (A : Type) :=
| Val (a : A)
| Return (b : bool)
| Raise (e : exn).
Arguments Val {A} a.
Arguments Return {A} b.
Arguments Raise {A} e.

(** The result of evaluating an expression: its value, or the exception it
    raises. *)
Inductive value (A : Type) :=
| Ok (a : A)
| Err (e : exn).
Arguments Ok {A} a.
Arguments Err {A} e.

Definition vbind {A B} (v : value A) (k : A -> value B) : value B :=
  match v with
  | Ok a => k a
  | Err e => Err e
  end.

Notation "'let?' x ':=' r 'in' k" := (vbind r (fun x => k))
  (at level 10, x binder, r at level 100, k at level 200).

(** Lookup in a dict, whose entries are kept in insertion order. *)
Fixpoint dict_get (entries : list (string * json)) (key : string) : option json :=
  match entries with
  | [] => None
  | (k, v) :: rest => if decide (k = key) then Some v else dict_get rest key
  end.

(** [d.get(key, default)] *)
Definition py_get (d : json) (key : string) (dflt : json) : value json :=
  match d with
  | JDict entries => Ok (default dflt (dict_get entries key))
  | _ => Err AttributeError
  end.

(** [d[key]] for a string [key] *)
Definition py_getitem (d : json) (key : string) : value json :=
  match d with
  | JDict entries =>
      match dict_get entries key with
      | Some v => Ok v
      | None => Err (KeyError key)
      end
  | _ => Err TypeError
  end.

(** [v == s] for a string [s] *)
Definition py_eq_str (v : json) (s : string) : bool :=
  match v with
  | JStr s' => bool_decide (s' = s)
  | _ => false
  end.

(** [s in v] for a string [s]: substring of a string, element of a list,
    key of a dict. *)
Definition py_in (s : string) (v : json) : value bool :=
  match v with
  | JStr s' => Ok (Py.contains s' s)
  | JList items => Ok (existsb (fun x => py_eq_str x s) items)
  | JDict entries => Ok (bool_decide (is_Some (dict_get entries s)))
  | _ => Err TypeError
  end.

(** Truth value of [v] in a condition *)
Definition py_bool (v : json) : bool :=
  match v with
  | JNull => false
  | JBool b => b
  | JInt n => negb (n =? 0)%Z
  | JStr s => negb (bool_decide (s = ""))
  | JList items => negb (bool_decide (items = []))
  | JDict entries => negb (bool_decide (entries = []))
  end.

(** The items [for x in v] goes through *)
Definition py_iter (v : json) : value (list json) :=
  match v with
  | JList items => Ok items
  | JStr s => Ok (map (fun a => JStr (String a "")) (String.list_ascii_of_string s))
  | JDict entries => Ok (map (fun kv => JStr kv.1) entries)
  | _ => Err TypeError
  end.

(** [len(v)] *)
Definition py_len (v : json) : value nat :=
  let? items := py_iter v in Ok (length items).

(** [v / (1024 * 1024)]: a float for an int or a bool, [OverflowError] when
    the rounded quotient does not fit a double, [TypeError] otherwise.  The
    quotient itself is only printed. *)
Definition float_overflow_bound : Z := 2 ^ 1044 - 2 ^ 990.

Definition py_size_in_mb (v : json) : value unit :=
  match v with
  | JInt n => if (Z.abs n <? float_overflow_bound)%Z then Ok tt else Err OverflowError
  | JBool _ => Ok tt
  | _ => Err TypeError
  end.

(** [repr(v)] and [str(v)], as an f-string formats [v] *)
Fixpoint py_repr (v : json) : string :=
  match v with
  | JNull => "None"
  | JBool true => "True"
  | JBool false => "False"
  | JInt n => pretty n
  | JStr s => Py.repr_str s
  | JList items => "[" +:+ Py.join ", " (map py_repr items) +:+ "]"
  | JDict entries =>
      "{" +:+ Py.join ", " (map (fun kv => Py.repr_str kv.1 +:+ ": " +:+ py_repr kv.2) entries)
          +:+ "}"
  end.

Definition py_str (v : json) : string :=
  match v with
  | JStr s => s
  | _ => py_repr v
  end.

(** ** The environment: registry and local disk *)

(** What a file holds: the bytes written to it, the text [json.dump] wrote,
    or a tar archive with its members by name. *)
Inductive fdata :=
| Bytes (content : string)
| JsonText (doc : json)
| TarFile (members : list (string * fdata)).

(** Paths are compared as strings: [.], [..], doubled separators and
    symbolic links are not resolved. *)
Record state := {
  clock : nat;
  dirs : gset string;
  files : gmap string fdata
}.

Inductive fs_op :=
| Makedirs (path : string)
| OpenW (path : string)
| FWrite (path chunk : string)
| JsonDump (path : string) (doc : json)
| TarOpen (path : string)
| TarAdd (path dir : string)
| Rmtree (path : string).

Record request := {
  url : string;
  headers : list (string * string);
  timeout : option nat;
  stream : bool
}.

(** A response: [json_body] is what [.json()] decodes ([None] when it
    raises); [chunks] is what [iter_content] yields, and [truncated] tells
    that the transfer breaks off after them. *)
Record response := {
  status_code : Z;
  json_body : option json;
  chunks : list string;
  truncated : bool
}.

(** The n-th external call is answered by the world: [http] gives the
    response to a request ([None] for a transport error) and [fs_fault]
    tells whether a filesystem operation fails with [OSError]. *)
Record world := {
  platform_machine : string;
  http : nat -> request -> option response;
  fs_fault : nat -> fs_op -> bool
}.

(** [q] lies below the directory [p]. *)
Definition below (p q : string) : bool := Py.startswith q (p +:+ "/").

(** The directories on the way to [path]: its non-empty prefixes that end
    right before a separator. *)
Fixpoint parents_from (seen rest : string) : list string :=
  match rest with
  | "" => []
  | String a rest' =>
      (if bool_decide (a = "/"%char) && negb (bool_decide (seen = "")) then [seen] else [])
      ++ parents_from (seen +:+ String a "") rest'
  end.
Definition parents (path : string) : list string := parents_from "" path.

(** The part of [q] after the prefix [p]. *)
Fixpoint strip_prefix (p q : string) : option string :=
  match p, q with
  | "", _ => Some q
  | String _ _, "" => None
  | String a p', String b q' => if decide (a = b) then strip_prefix p' q' else None
  end.

(** The members [tar.add(dir, arcname=".")] writes: every file below [dir],
    named from the archive root, in no particular order; the entries for the
    directories themselves are left out. *)
Definition tar_members (fs : gmap string fdata) (dir : string) : list (string * fdata) :=
  omap (fun kv => rel ← strip_prefix (dir +:+ "/") kv.1; Some ("./" +:+ rel, kv.2))
       (map_to_list fs).

Definition tick (st : state) : state :=
  {| clock := S (clock st); dirs := dirs st; files := files st |}.

Definition set_dirs (f : gset string -> gset string) (st : state) : state :=
  {| clock := clock st; dirs := f (dirs st); files := files st |}.

Definition set_files (f : gmap string fdata -> gmap string fdata) (st : state) : state :=
  {| clock := clock st; dirs := dirs st; files := f (files st) |}.

(** The effect of each filesystem operation when it succeeds. *)
Definition fs_effect (op : fs_op) (st : state) : state :=
  match op with
  | Makedirs path => set_dirs (fun d => {[path]} ∪ list_to_set (parents path) ∪ d) st
  | OpenW path => set_files (fun f => <[path := Bytes ""]> f) st
  | FWrite path chunk =>
      set_files (fun f => <[path := match f !! path with
                                    | Some (Bytes b) => Bytes (b +:+ chunk)
                                    | _ => Bytes chunk
                                    end]> f) st
  | JsonDump path doc => set_files (fun f => <[path := JsonText doc]> f) st
  | TarOpen path => set_files (fun f => <[path := TarFile []]> f) st
  | TarAdd path dir => set_files (fun f => <[path := TarFile (tar_members f dir)]> f) st
  | Rmtree path =>
      set_files (filter (fun kv => negb (below path kv.1)))
        (set_dirs (filter (fun d => d ≠ path ∧ negb (below path d))) st)
  end.

(** ** The monad of the script's statements *)

Definition M (A : Type) : Type := state -> result A * state.

Definition ret {A} (a : A) : M A := fun st => (Val a, st).
Definition raise {A} (e : exn) : M A := fun st => (Raise e, st).
Definition return_ {A} (b : bool) : M A := fun st => (Return b, st).
Definition lift {A} (v : value A) : M A :=
  fun st => (match v with Ok a => Val a | Err e => Raise e end, st).

Definition bind {A B} (m : M A) (k : A -> M B) : M B :=
  fun st =>
    match m st with
    | (Val a, st') => k a st'
    | (Return b, st') => (Return b, st')
    | (Raise e, st') => (Raise e, st')
    end.

Notation "'let*' x ':=' m 'in' k" := (bind m (fun x => k))
  (at level 10, x binder, m at level 100, k at level 200).

(** [try: body except Exception as e: handler] *)
Definition try_except {A} (body : M A) (handler : exn -> M A) : M A :=
  fun st =>
    match body st with
    | (Raise e, st') => handler e st'
    | r => r
    end.

Section Environment.
Variable w : world.

(** A filesystem operation: it raises [OSError] and leaves the disk as it
    was when the world makes it fail, and has its effect otherwise.  What a
    failing operation has already done is not represented. *)
Definition fs_call (op : fs_op) : M unit :=
  fun st =>
    if fs_fault w (clock st) op then (Raise OSError, tick st)
    else (Val tt, fs_effect op (tick st)).

(** [os.makedirs(path, exist_ok=True)] *)
Definition makedirs (path : string) : M unit := fs_call (Makedirs path).

(** [open(path, "wb")] and [open(path, "w")]: the file is created or
    emptied. *)
Definition open_w (path : string) : M unit := fs_call (OpenW path).

(** [f.write(chunk)] on the file opened at [path] *)
Definition f_write (path : string) (chunk : string) : M unit :=
  fs_call (FWrite path chunk).

(** [json.dump(doc, f, indent=2)] on the file opened at [path] *)
Definition json_dump (path : string) (doc : json) : M unit :=
  fs_call (JsonDump path doc).

(** [shutil.rmtree(path)] *)
Definition rmtree (path : string) : M unit := fs_call (Rmtree path).

(** [with tarfile.open(path, "w") as tar: tar.add(dir, arcname=".")] *)
Definition tar_create (path dir : string) : M unit :=
  let* _ := fs_call (TarOpen path) in
  fs_call (TarAdd path dir).

(** [requests.get(url, headers=..., timeout=..., stream=..., verify=False)] *)
Definition requests_get (req : request) : M response :=
  fun st =>
    match http w (clock st) req with
    | Some resp => (Val resp, tick st)
    | None => (Raise RequestException, tick st)
    end.

End Environment.

(** [response.raise_for_status()] *)
Definition raise_for_status (resp : response) : M unit :=
  if (400 <=? status_code resp)%Z && (status_code resp <? 600)%Z
  then raise (HTTPError (status_code resp)) else ret tt.

(** [response.json()] *)
Definition response_json (resp : response) : M json :=
  match json_body resp with
  | Some doc => ret doc
  | None => raise JSONDecodeError
  end.

(** ** The script *)

(** [get_platform()], lines 11-17; [platform.machine()] is read from the
    world. *)
Definition get_platform (w : world) : string * string :=
  let machine := Py.lower (platform_machine w) in
  if bool_decide (machine ∈ ["amd64"; "x86_64"]) then ("linux", "amd64")
  else if bool_decide (machine ∈ ["aarch64"; "xarm64"]) then ("linux", "arm64")
  else ("linux", "amd64").

(** Lines 21-24: the name the registry is asked for. *)
Definition normalize (image_name : string) : string :=
  if negb (Py.contains image_name "/") then
    let official_images := ["postgres"; "redis"; "mysql"; "nginx"; "ubuntu"] in
    if bool_decide (image_name ∈ official_images) then "library/" +:+ image_name
    else image_name
  else image_name.

(** Lines 29-32: the explicit platform string, split and unpacked into two
    names, or the platform of the host. *)
Definition select_platform (w : world) (target_platform : option string)
  : value (string * string) :=
  match target_platform with
  | Some tp =>
      if negb (bool_decide (tp = "")) then
        match Py.split "/" tp with
        | [os_name; arch] => Ok (os_name, arch)
        | _ => Err ValueError
        end
      else Ok (get_platform w)
  | None => Ok (get_platform w)
  end.

(** Lines 74-80: the loop over the entries of an index; [JNull] is the
    initial [None] of [target_manifest]. *)
Fixpoint select_manifest (manifests : list json) (os_name arch : string) : value json :=
  match manifests with
  | [] => Ok JNull
  | m :: rest =>
      let? plat := py_get m "platform" (JDict []) in
      let? os := py_get plat "os" JNull in
      let? found :=
        if py_eq_str os os_name then
          let? a := py_get plat "architecture" JNull in Ok (py_eq_str a arch)
        else Ok false in
      if found then Ok m else select_manifest rest os_name arch
  end.

(** Line 71: ["index" in media_type or "manifest.list" in media_type] *)
Definition is_index (media_type : json) : value bool :=
  let? c := py_in "index" media_type in
  if c then Ok true else py_in "manifest.list" media_type.

Definition registry : string := "registry-1.docker.io".

Definition accept_header : string :=
  Py.join ", "
    [ "application/vnd.docker.distribution.manifest.v2+json";
      "application/vnd.docker.distribution.manifest.list.v2+json";
      "application/vnd.oci.image.manifest.v1+json";
      "application/vnd.oci.image.index.v1+json" ].

Definition token_url (repo : string) : string :=
  "https://auth.docker.io/token?service=registry.docker.io&scope=repository:"
    +:+ repo +:+ ":pull".

Definition manifest_url (repo reference : string) : string :=
  "https://" +:+ registry +:+ "/v2/" +:+ repo +:+ "/manifests/" +:+ reference.

Definition blob_url (repo digest : string) : string :=
  "https://" +:+ registry +:+ "/v2/" +:+ repo +:+ "/blobs/" +:+ digest.

Definition auth_headers (token : json) : list (string * string) :=
  [ ("Authorization", "Bearer " +:+ py_str token); ("Accept", accept_header) ].

Definition layer_filename (idx : nat) : string :=
  "layer-" +:+ pretty idx +:+ ".tar.gz".

(** The list written to [manifest.json], lines 154-156. *)
Definition podman_manifest (repo tag : string) (layer_files : list string) : json :=
  JList [ JDict [ ("Config", JStr "config.json");
                  ("RepoTags", JList [JStr (repo +:+ ":" +:+ tag)]);
                  ("Layers", JList (map JStr layer_files)) ] ].

Definition temp_dir_name (image_name tag arch : string) : string :=
  Py.replace "/" "_" image_name +:+ "_" +:+ tag +:+ "_" +:+ arch +:+ "_temp".

Definition images_base_dir : string := "images".

Definition output_dir (image_name tag arch : string) : string :=
  Py.path_join images_base_dir (temp_dir_name image_name tag arch).

Definition tar_filename (image_name tag arch : string) : string :=
  Py.path_join images_base_dir
    (Py.replace "/" "_" image_name +:+ "_" +:+ tag +:+ "_" +:+ arch +:+ ".tar").

Section Script.
Variable w : world.

(** [for chunk in response.iter_content(chunk_size=8192): f.write(chunk)] *)
Fixpoint write_chunks (path : string) (cs : list string) : M unit :=
  match cs with
  | [] => ret tt
  | chunk :: cs' => let* _ := f_write w path chunk in write_chunks path cs'
  end.

(** [with open(path, "wb") as f:] followed by the loop over the chunks,
    lines 112-114 and 138-144. *)
Definition save_body (path : string) (resp : response) : M unit :=
  let* _ := open_w w path in
  let* _ := write_chunks path (chunks resp) in
  if truncated resp then raise RequestException else ret tt.

(** Lines 36-43: the bearer token. *)
Definition get_token (repo : string) : M json :=
  try_except
    (let* token_response :=
       requests_get w {| url := token_url repo; headers := [];
                         timeout := Some 30; stream := false |} in
     let* _ := raise_for_status token_response in
     let* body := response_json token_response in
     lift (py_getitem body "token"))
    (fun _ => return_ false).

(** Lines 57-66: the manifest for the tag. *)
Definition get_manifest (repo tag : string) (headers : list (string * string))
  : M json :=
  try_except
    (let* manifest_response :=
       requests_get w {| url := manifest_url repo tag; headers := headers;
                         timeout := Some 30; stream := false |} in
     let* _ := raise_for_status manifest_response in
     response_json manifest_response)
    (fun _ => return_ false).

(** Lines 68-92: for an index, the manifest of the entry selected for the
    platform; otherwise the manifest itself. *)
Definition resolve_index (repo os_name arch : string)
    (headers : list (string * string)) (manifest : json) : M json :=
  let* media_type := lift (py_get manifest "mediaType" (JStr "")) in
  let* index := lift (is_index media_type) in
  if index then
    let* manifests := lift (py_get manifest "manifests" (JList [])) in
    let* entries := lift (py_iter manifests) in
    let* target_manifest := lift (select_manifest entries os_name arch) in
    if negb (py_bool target_manifest) then return_ false
    else
      let* platform_digest := lift (py_getitem target_manifest "digest") in
      let* platform_response :=
        requests_get w {| url := manifest_url repo (py_str platform_digest);
                          headers := headers; timeout := Some 30; stream := false |} in
      let* _ := raise_for_status platform_response in
      response_json platform_response
  else ret manifest.

(** Lines 36-92: gives the request headers and the manifest the assembly
    works on. *)
Definition fetch_manifest (repo tag os_name arch : string)
  : M (list (string * string) * json) :=
  let* token := get_token repo in
  let headers := auth_headers token in
  let* manifest := get_manifest repo tag headers in
  let* manifest := resolve_index repo os_name arch headers manifest in
  ret (headers, manifest).

(** Lines 103-115: the config blob, when the manifest has one. *)
Definition download_config (repo dir : string) (headers : list (string * string))
    (manifest : json) : M unit :=
  let* config := lift (py_get manifest "config" (JDict [])) in
  if py_bool config then
    let* config_digest := lift (py_getitem config "digest") in
    let* config_response :=
      requests_get w {| url := blob_url repo (py_str config_digest);
                        headers := headers; timeout := None; stream := true |} in
    let config_file := Py.path_join dir "config.json" in
    save_body config_file config_response
  else ret tt.

(** Lines 121-151: the loop over the layers, from index [idx] on. *)
Fixpoint download_layers (repo dir : string) (headers : list (string * string))
    (layers : list json) (idx : nat) (layer_files : list string) : M (list string) :=
  match layers with
  | [] => ret layer_files
  | layer :: rest =>
      let* layer_digest := lift (py_getitem layer "digest") in
      let* layer_size := lift (py_get layer "size" (JInt 0)) in
      let* _ := lift (py_size_in_mb layer_size) in
      let* layer_files :=
        try_except
          (let* response :=
             requests_get w {| url := blob_url repo (py_str layer_digest);
                               headers := headers; timeout := Some 300;
                               stream := true |} in
           let* _ := raise_for_status response in
           let filename := Py.path_join dir (layer_filename idx) in
           let* _ := save_body filename response in
           ret (layer_files ++ [layer_filename idx])%list)
          (fun _ => return_ false) in
      download_layers repo dir headers rest (S idx) layer_files
  end.

(** Lines 153-160: [manifest.json]. *)
Definition write_layout_manifest (repo tag dir : string) (layer_files : list string)
  : M unit :=
  let manifest_file := Py.path_join dir "manifest.json" in
  let* _ := open_w w manifest_file in
  json_dump w manifest_file (podman_manifest repo tag layer_files).

(** Lines 165-182: the archive, then the removal of the scratch
    directory. *)
Definition archive_and_cleanup (image_name tag arch : string) : M Empty_set :=
  let* _ := tar_create w (tar_filename image_name tag arch)
                         (output_dir image_name tag arch) in
  let* _ := rmtree w (output_dir image_name tag arch) in
  return_ true.

(** Lines 94-160: the scratch directory with the config blob, the layers
    and [manifest.json]. *)
Definition build_layout (image_name tag arch : string) (headers : list (string * string))
    (manifest : json) : M unit :=
  let repo := image_name in
  let* _ := makedirs w images_base_dir in
  let dir := output_dir image_name tag arch in
  let* _ := makedirs w dir in
  let* _ := download_config repo dir headers manifest in
  let* layers := lift (py_get manifest "layers" (JList [])) in
  let* _ := lift (py_len layers) in
  let* items := lift (py_iter layers) in
  let* layer_files := download_layers repo dir headers items 1 [] in
  write_layout_manifest repo tag dir layer_files.

(** Lines 94-182: everything after the manifest is known. *)
Definition assemble (image_name tag arch : string) (headers : list (string * string))
    (manifest : json) : M Empty_set :=
  let* _ := build_layout image_name tag arch headers manifest in
  archive_and_cleanup image_name tag arch.

(** The body of [download_image], lines 20-182. *)
Definition download_image_body (image_name tag : string)
    (target_platform : option string) : M Empty_set :=
  let image_name := normalize image_name in
  let repo := image_name in
  let* '(os_name, arch) := lift (select_platform w target_platform) in
  let* '(headers, manifest) := fetch_manifest repo tag os_name arch in
  assemble image_name tag arch headers manifest.

End Script.

(** How a call ends for the caller. *)
Inductive outcome :=
| Returns (b : bool)
| Raises (e : exn).

(** [download_image(image_name, tag, target_platform)] *)
Definition download_image (w : world) (image_name tag : string)
    (target_platform : option string) (st : state) : outcome * state :=
  match download_image_body w image_name tag target_platform st with
  | (Val a, _) => match a with end
  | (Return b, st') => (Returns b, st')
  | (Raise e, st') => (Raises e, st')
  end.

(** Lines 199-207: the loop over the lines of the batch file; an exception
    of [download_image] leaves the loop. *)
Fixpoint batch_loop (w : world) (lines : list string) (failed : list string)
    (st : state) : (exn + list string) * state :=
  match lines with
  | [] => (inr failed, st)
  | line :: rest =>
      let line := Py.strip line in
      if negb (bool_decide (line = "")) && negb (Py.startswith line "#") then
        let '(name, tag) := default (line, "latest") (Py.rsplit1 ":" line) in
        match download_image w name tag None st with
        | (Returns ok, st') =>
            batch_loop w rest (if ok then failed else (failed ++ [name +:+ ":" +:+ tag])%list) st'
        | (Raises e, st') => (inl e, st')
        end
      else batch_loop w rest failed st
  end.

(** How the process ends. *)
Inductive exit :=
| Exit (code : Z)
| Traceback (e : exn).

(** Lines 197-212: batch mode on the lines of the batch file; the list of
    failed entries is what line 210 prints. *)
Definition batch (w : world) (lines : list string) (st : state)
  : exit * list string * state :=
  match batch_loop w lines [] st with
  | (inr failed, st') =>
      (if negb (bool_decide (failed = [])) then Exit 1 else Exit 0, failed, st')
  | (inl e, st') => (Traceback e, [], st')
  end.

(** Lines 214-217: single-image mode. *)
Definition single (w : world) (image tag : string) (st : state) : exit * state :=
  match download_image w image tag None st with
  | (Returns success, st') => (Exit (if success then 0 else 1), st')
  | (Raises e, st') => (Traceback e, st')
  end.

(** ** Notions used to state the properties *)

Definition official_images : list string :=
  ["postgres"; "redis"; "mysql"; "nginx"; "ubuntu"].

(** An entry of an index as the data model has it: an object whose
    [platform], when there is one, is an object. *)
Definition is_index_entry (m : json) : bool :=
  match m with
  | JDict es =>
      match dict_get es "platform" with
      | None | Some (JDict _) => true
      | Some _ => false
      end
  | _ => false
  end.

(** The entry names the platform: its [os] and [architecture] are the
    strings asked for. *)
Definition entry_matches (os_name arch : string) (m : json) : bool :=
  match m with
  | JDict es =>
      match dict_get es "platform" with
      | Some (JDict ps) =>
          match dict_get ps "os", dict_get ps "architecture" with
          | Some (JStr o), Some (JStr a) =>
              bool_decide (o = os_name) && bool_decide (a = arch)
          | _, _ => false
          end
      | _ => false
      end
  | _ => false
  end.

Definition other_entry (os_name arch : string) (m : json) : Prop :=
  is_index_entry m = true ∧ entry_matches os_name arch m = false.

(** [m] leaves the function only by [return False]. *)
Definition returns_false_only {A} (m : M A) : Prop :=
  ∀ st b st', m st = (Return b, st') → b = false.

(** However [m] ends, the state it ends in is related by [R] to the state
    it started in. *)
Definition steps {A} (R : relation state) (m : M A) : Prop :=
  ∀ st r st', m st = (r, st') → R st st'.

(** No directory is removed. *)
Definition dirs_kept : relation state := λ st st', dirs st ⊆ dirs st'.

(** The file at [path] is not touched. *)
Definition file_kept (path : string) : relation state :=
  λ st st', files st' !! path = files st !! path.

(** The disk is not touched. *)
Definition disk_kept : relation state :=
  λ st st', dirs st' = dirs st ∧ files st' = files st.

(** A relation that holds along the steps of a run: it is a preorder and
    does not look at the clock. *)
Class Along (R : relation state) : Prop := {
  along_preorder :: PreOrder R;
  along_tick st : R st (tick st)
}.

(** The bytes [iter_content] yields for a response, one after the other. *)
Definition blob_bytes (resp : response) : string :=
  foldr String.append "" (chunks resp).

(** A response whose status [raise_for_status] accepts. *)
Definition accepted (resp : response) : Prop :=
  (400 <=? status_code resp)%Z && (status_code resp <? 600)%Z = false.

(** A layer the loop of lines 121-151 gets through: it has a digest, its
    size is absent or a number that can be shown in MB, and the registry
    serves its blob in full whenever it is asked. *)
Definition layer_served (w : world) (repo : string) (hdrs : list (string * string))
    (layer : json) : Prop :=
  ∃ digest size,
    py_getitem layer "digest" = Ok digest
    ∧ py_get layer "size" (JInt 0) = Ok size
    ∧ py_size_in_mb size = Ok tt
    ∧ ∀ n, ∃ resp,
        http w n {| url := blob_url repo (py_str digest); headers := hdrs;
                    timeout := Some 300; stream := true |} = Some resp
        ∧ accepted resp ∧ truncated resp = false.

(** The common part of the names of the scratch directory and the archive. *)
Definition image_base (image_name tag arch : string) : string :=
  "images/" +:+ Py.replace "/" "_" image_name +:+ "_" +:+ tag +:+ "_" +:+ arch.

(** ** Worlds used as examples *)

(** A host without network: every request fails in transport. *)
Definition offline : world :=
  {| platform_machine := "x86_64"; http := λ _ _, None; fs_fault := λ _ _, false |}.

Definition empty_disk : state := {| clock := 0; dirs := ∅; files := ∅ |}.

Definition json_response (status : Z) (doc : json) : response :=
  {| status_code := status; json_body := Some doc; chunks := []; truncated := false |}.

Definition blob_response (status : Z) (body : list string) : response :=
  {| status_code := status; json_body := None; chunks := body; truncated := false |}.

(** The answer of a registry to a URL it does not serve. *)
Definition not_found : response :=
  {| status_code := 404; json_body := Some (JDict [("errors", JList [])]);
     chunks := ["{errors}"]; truncated := false |}.

Fixpoint route (routes : list (string * response)) (u : string) : response :=
  match routes with
  | [] => not_found
  | (u', resp) :: rest => if decide (u' = u) then resp else route rest u
  end.

(** A registry that serves [routes] at any time, on an amd64 host whose disk
    fails on the operations [faulty]. *)
Definition serving (routes : list (string * response)) (faulty : fs_op → bool) : world :=
  {| platform_machine := "x86_64";
     http := λ _ req, Some (route routes (url req));
     fs_fault := λ _ op, faulty op |}.

Definition no_fault (op : fs_op) : bool := false.

Definition redis_manifest : json :=
  JDict [ ("mediaType", JStr "application/vnd.oci.image.manifest.v1+json");
          ("config", JDict [("digest", JStr "sha256:c0")]);
          ("layers", JList [ JDict [("digest", JStr "sha256:l1"); ("size", JInt 4)];
                             JDict [("digest", JStr "sha256:l2")] ]) ].

Definition redis_routes : list (string * response) :=
  [ (token_url "library/redis", json_response 200 (JDict [("token", JStr "t")]));
    (manifest_url "library/redis" "latest", json_response 200 redis_manifest);
    (blob_url "library/redis" "sha256:c0", blob_response 200 ["{cfg}"]);
    (blob_url "library/redis" "sha256:l1", blob_response 200 ["aa"; "bb"]);
    (blob_url "library/redis" "sha256:l2", blob_response 200 ["cc"]) ].

(** The registry of [redis] when it does not serve the config blob, and when
    it does not serve the second layer. *)
Definition redis_routes_without_config : list (string * response) :=
  [ (token_url "library/redis", json_response 200 (JDict [("token", JStr "t")]));
    (manifest_url "library/redis" "latest", json_response 200 redis_manifest);
    (blob_url "library/redis" "sha256:l1", blob_response 200 ["aa"; "bb"]);
    (blob_url "library/redis" "sha256:l2", blob_response 200 ["cc"]) ].

Definition redis_routes_without_layer : list (string * response) :=
  [ (token_url "library/redis", json_response 200 (JDict [("token", JStr "t")]));
    (manifest_url "library/redis" "latest", json_response 200 redis_manifest);
    (blob_url "library/redis" "sha256:c0", blob_response 200 ["{cfg}"]);
    (blob_url "library/redis" "sha256:l1", blob_response 200 ["aa"; "bb"]) ].

(** A disk on which writing the archive fails. *)
Definition archive_fails (op : fs_op) : bool :=
  match op with
  | TarAdd _ _ => true
  | _ => false
  end.

(** The end of a line of the batch file. *)
Definition newline : string := String (Ascii.ascii_of_nat 10) "".

Definition index_entry (os_name arch digest : string) : json :=
  JDict [ ("digest", JStr digest);
          ("platform", JDict [("architecture", JStr arch); ("os", JStr os_name)]) ].

Definition ubuntu_entries : list json :=
  [ index_entry "linux" "amd64" "sha256:amd"; index_entry "linux" "arm64" "sha256:arm" ].

Definition ubuntu_index : json :=
  JDict [ ("mediaType", JStr "application/vnd.oci.image.index.v1+json");
          ("manifests", JList ubuntu_entries) ].

(** The index of [ubuntu] is served, the manifests of its entries are not. *)
Definition ubuntu_routes : list (string * response) :=
  [ (token_url "library/ubuntu", json_response 200 (JDict [("token", JStr "t")]));
    (manifest_url "library/ubuntu" "latest", json_response 200 ubuntu_index) ].

(** The registry of [ubuntu] when it also serves the manifest of the arm64
    entry and its blobs. *)
Definition ubuntu_arm_manifest : json :=
  JDict [ ("mediaType", JStr "application/vnd.oci.image.manifest.v1+json");
          ("config", JDict [("digest", JStr "sha256:uc")]);
          ("layers", JList [ JDict [("digest", JStr "sha256:u1"); ("size", JInt 3)] ]) ].

Definition ubuntu_arm_routes : list (string * response) :=
  ubuntu_routes ++
  [ (manifest_url "library/ubuntu" "sha256:arm", json_response 200 ubuntu_arm_manifest);
    (blob_url "library/ubuntu" "sha256:uc", blob_response 200 ["{}"]);
    (blob_url "library/ubuntu" "sha256:u1", blob_response 200 ["u"; "u"; "u"]) ].

(** A manifest without [config], with one layer. *)
Definition nginx_manifest : json :=
  JDict [ ("mediaType", JStr "application/vnd.docker.distribution.manifest.v2+json");
          ("layers", JList [ JDict [("digest", JStr "sha256:n1"); ("size", JInt 2)] ]) ].

Definition nginx_routes : list (string * response) :=
  [ (token_url "library/nginx", json_response 200 (JDict [("token", JStr "t")]));
    (manifest_url "library/nginx" "latest", json_response 200 nginx_manifest);
    (blob_url "library/nginx" "sha256:n1", blob_response 200 ["nn"]) ].

(** The registry of [redis] when the tag is published anew, without config
    and with its first layer only, after the twelfth call: up to then it
    serves [redis_manifest] and not the second layer. *)
Definition redis_manifest_without_config : json :=
  JDict [ ("mediaType", JStr "application/vnd.oci.image.manifest.v1+json");
          ("layers", JList [ JDict [("digest", JStr "sha256:l1"); ("size", JInt 4)] ]) ].

Definition redis_routes_republished : list (string * response) :=
  [ (token_url "library/redis", json_response 200 (JDict [("token", JStr "t")]));
    (manifest_url "library/redis" "latest",
     json_response 200 redis_manifest_without_config);
    (blob_url "library/redis" "sha256:l1", blob_response 200 ["aa"; "bb"]) ].

Definition republishing : world :=
  {| platform_machine := "x86_64";
     http := λ n req,
       Some (route (if (n <? 12)%nat then redis_routes_without_layer
                    else redis_routes_republished) (url req));
     fs_fault := λ _ _, false |}.

(** ** Notions used to state further properties *)

(** The requests of lines 38, 59-61, 88-90, 108-110 and 129-131. *)
Definition token_request (repo : string) : request :=
  {| url := token_url repo; headers := []; timeout := Some 30; stream := false |}.

Definition manifest_request (repo reference : string)
    (hdrs : list (string * string)) : request :=
  {| url := manifest_url repo reference; headers := hdrs; timeout := Some 30;
     stream := false |}.

Definition config_request (repo digest : string) (hdrs : list (string * string))
  : request :=
  {| url := blob_url repo digest; headers := hdrs; timeout := None; stream := true |}.

Definition layer_request (repo digest : string) (hdrs : list (string * string))
  : request :=
  {| url := blob_url repo digest; headers := hdrs; timeout := Some 300;
     stream := true |}.

(** Lines 200-205: the image and the tag a line of the batch file asks for;
    [None] for the lines the loop passes over. *)
Definition batch_entry (line : string) : option (string * string) :=
  let line := Py.strip line in
  if negb (bool_decide (line = "")) && negb (Py.startswith line "#")
  then Some (default (line, "latest") (Py.rsplit1 ":" line))
  else None.

(** The calls of [download_image] a batch run makes, each with the way it
    ended, in their order; the run stops at the first call that raises. *)
Fixpoint batch_calls (w : world) (lines : list string) (st : state)
  : list (string * string * outcome) :=
  match lines with
  | [] => []
  | line :: rest =>
      match batch_entry line with
      | Some (name, tag) =>
          match download_image w name tag None st with
          | (Returns ok, st') => (name, tag, Returns ok) :: batch_calls w rest st'
          | (Raises e, _) => [(name, tag, Raises e)]
          end
      | None => batch_calls w rest st
      end
  end.

(** What line 207 records for a call. *)
Definition failed_key (call : string * string * outcome) : string :=
  call.1.1 +:+ ":" +:+ call.1.2.

Definition returned_false (call : string * string * outcome) : bool :=
  match call.2 with
  | Returns false => true
  | _ => false
  end.

Definition raised (call : string * string * outcome) : bool :=
  match call.2 with
  | Raises _ => true
  | _ => false
  end.

(** A layer entry the loop of lines 121-151 can announce: an object with a
    [digest] whose [size], when it has one, is a number that can be shown in
    MB. *)
Definition layer_described (layer : json) : Prop :=
  ∃ digest size,
    py_getitem layer "digest" = Ok digest
    ∧ py_get layer "size" (JInt 0) = Ok size
    ∧ py_size_in_mb size = Ok tt.

(** The files of the layout in the scratch directory [dir]. *)
Definition scratch_path (dir p : string) : Prop :=
  p = Py.path_join dir "config.json"
  ∨ p = Py.path_join dir "manifest.json"
  ∨ ∃ idx, p = Py.path_join dir (layer_filename idx).

(** The filesystem operations of lines 94-160, for the scratch directory
    [dir], and those of lines 165-180, for the archive [tar]. *)
Definition layout_op (dir : string) (op : fs_op) : Prop :=
  match op with
  | Makedirs p => p = images_base_dir ∨ p = dir
  | OpenW p | FWrite p _ | JsonDump p _ => scratch_path dir p
  | _ => False
  end.

Definition archive_op (dir tar : string) (op : fs_op) : Prop :=
  match op with
  | TarOpen p => p = tar
  | TarAdd p d => p = tar ∧ d = dir
  | Rmtree p => p = dir
  | _ => False
  end.

(** The directories at the end are those of the start, [images], [dir] and
    the directories on the way to [dir]; a directory that is neither [dir]
    nor below it is still there. *)
Definition dirs_bounded (dir : string) : relation state :=
  λ st st',
    (∀ q, q ∈ dirs st' →
          q ∈ dirs st ∨ q = images_base_dir ∨ q = dir ∨ q ∈ parents dir)
    ∧ (∀ q, q ∈ dirs st → q ≠ dir → below dir q = false → q ∈ dirs st').

(** A disk on which an earlier run has left a file in the scratch directory
    of [redis]. *)
Definition stale_disk : state :=
  {| clock := 0;
     dirs := {["images"; "images/library_redis_latest_amd64_temp"]};
     files := {[ "images/library_redis_latest_amd64_temp/layer-3.tar.gz.part"
                 := Bytes "stale" ]} |}.

(** The files below [dir] are the same in the two states. *)
Definition agree (dir : string) (st1 st2 : state) : Prop :=
  ∀ p, below dir p = true → files st1 !! p = files st2 !! p.

(** From two states that agree below [dir], [m] ends in the same way and in
    two states that agree below [dir]. *)
Definition alike {A} (dir : string) (m : M A) : Prop :=
  ∀ st1 st2, agree dir st1 st2 →
    (m st1).1 = (m st2).1 ∧ agree dir (m st1).2 (m st2).2.

(** A world that answers a call in the same way whenever it is made. *)
Definition steady (w : world) : Prop :=
  (∀ n m req, http w n req = http w m req)
  ∧ (∀ n m op, fs_fault w n op = fs_fault w m op).

(** Two layer entries that can be announced and name the same blob. *)
Definition same_blob (layer1 layer2 : json) : Prop :=
  py_getitem layer1 "digest" = py_getitem layer2 "digest"
  ∧ layer_described layer1 ∧ layer_described layer2.

(** * Properties *)

(** ** The Python operations on examples *)

Example startswith_comment : Py.startswith "# redis" "#" = true.
Proof. reflexivity. Qed.
Example split_platform : Py.split "/" "linux/arm64" = ["linux"; "arm64"].
Proof. reflexivity. Qed.
Example split_empty : Py.split "/" "" = [""].
Proof. reflexivity. Qed.
Example rsplit1_tag : Py.rsplit1 ":" "localhost:5000/redis:7" = Some ("localhost:5000/redis", "7").
Proof. reflexivity. Qed.
Example strip_line : Py.strip "  redis:7 " = "redis:7".
Proof. reflexivity. Qed.
Example lower_machine : Py.lower "AMD64" = "amd64".
Proof. reflexivity. Qed.
Example path_join_images : Py.path_join "images" "redis_7_amd64_temp" = "images/redis_7_amd64_temp".
Proof. reflexivity. Qed.
Example repr_str_plain : Py.repr_str "a\b" = "'a\\b'".
Proof. reflexivity. Qed.

Example py_str_list : py_str (JList [JInt (-3); JStr "a'b"; JNull]) = "[-3, " +:+ String Py.dquote "a'b" +:+ String Py.dquote ", None]".
Proof. reflexivity. Qed.
Example py_in_media_type :
  py_in "index" (JStr "application/vnd.oci.image.index.v1+json") = Ok true.
Proof. reflexivity. Qed.
Example py_getitem_missing : py_getitem (JDict [("size", JInt 3)]) "digest" = Err (KeyError "digest").
Proof. reflexivity. Qed.

(** ** The script on examples *)

Example redis_is_assembled :
  download_image (serving redis_routes no_fault) "redis" "latest" None empty_disk
  = (Returns true,
     {| clock := 19;
        dirs := {["images"]};
        files :=
          {[ "images/library_redis_latest_amd64.tar" :=
               TarFile
                 [ ("./config.json", Bytes "{cfg}");
                   ("./manifest.json",
                    JsonText (podman_manifest "library/redis" "latest"
                                ["layer-1.tar.gz"; "layer-2.tar.gz"]));
                   ("./layer-1.tar.gz", Bytes "aabb");
                   ("./layer-2.tar.gz", Bytes "cc") ] ]} |}).
Proof. vm_compute. reflexivity. Qed.

Example ubuntu_arm64_is_resolved :
  (download_image (serving ubuntu_arm_routes no_fault) "ubuntu" "latest"
     (Some "linux/arm64") empty_disk).1 = Returns true
  ∧ files (download_image (serving ubuntu_arm_routes no_fault) "ubuntu" "latest"
             (Some "linux/arm64") empty_disk).2
      !! "images/library_ubuntu_latest_arm64.tar"
    = Some (TarFile
              [ ("./config.json", Bytes "{}");
                ("./manifest.json",
                 JsonText (podman_manifest "library/ubuntu" "latest" ["layer-1.tar.gz"]));
                ("./layer-1.tar.gz", Bytes "uuu") ]).
Proof. split; vm_compute; reflexivity. Qed.

Example unknown_image_fails :
  download_image (serving redis_routes no_fault) "nonexistent/image" "latest" None
    empty_disk
  = (Returns false, tick empty_disk).
Proof. reflexivity. Qed.

Example batch_records_failure :
  (batch (serving redis_routes no_fault)
     [ "# images" +:+ newline; "redis:latest" +:+ newline; newline;
       "nonexistent/image:latest" +:+ newline ] empty_disk).1
  = (Exit 1, ["nonexistent/image:latest"]).
Proof. vm_compute. reflexivity. Qed.

(** ** Strings and paths *)

Section StringFacts.

Lemma sapp_cons a s t : String a s +:+ t = String a (s +:+ t).
Proof. reflexivity. Qed.

Lemma sapp_assoc s t u : (s +:+ t) +:+ u = s +:+ t +:+ u.
Proof. induction s as [|a s IH]; [reflexivity|]. rewrite !sapp_cons. by f_equal. Qed.

Lemma startswith_app p r : Py.startswith (p +:+ r) p = true.
Proof.
  induction p as [|a p IH]; [by destruct r|].
  rewrite sapp_cons. simpl. by rewrite decide_True.
Qed.

Lemma startswith_inv s p : Py.startswith s p = true → ∃ r, s = p +:+ r.
Proof.
  revert s. induction p as [|a p IH]; intros s H; [by exists s|].
  destruct s as [|b s]; [done|]. simpl in H.
  destruct (decide (a = b)) as [->|]; [|done].
  destruct (IH _ H) as [r ->]. by exists r.
Qed.

Lemma strip_prefix_Some p q r : strip_prefix p q = Some r ↔ q = p +:+ r.
Proof.
  revert q. induction p as [|a p IH]; intros q; simpl.
  - split; [by intros [= ->]|by intros ->].
  - destruct q as [|b q]; [by split|].
    rewrite sapp_cons. destruct (decide (a = b)) as [->|Hne].
    + rewrite IH. split; [by intros ->|by intros [= ->]].
    + split; [done|]. intros [= ? ?]. done.
Qed.

Lemma split_length c s : length (Py.split c s) = S (Py.count c s).
Proof.
  induction s as [|a s IH]; [done|]. simpl.
  destruct (decide (a = c)); simpl; [by rewrite IH|].
  destruct (Py.split c s); simpl in *; lia.
Qed.

Lemma split_no_sep c s : Py.count c s = 0 → Py.split c s = [s].
Proof.
  induction s as [|a s IH]; [done|]. simpl.
  destruct (decide (a = c)); [done|]. intros H. by rewrite IH.
Qed.

Lemma split_one_sep c a b :
  Py.count c a = 0 → Py.count c b = 0 → Py.split c (a +:+ String c b) = [a; b].
Proof.
  intros Ha Hb. induction a as [|x a IH].
  - change (Py.split c (String c b) = [""; b]). simpl.
    rewrite decide_True by done. by rewrite split_no_sep.
  - rewrite sapp_cons. simpl in *. destruct (decide (x = c)); [done|].
    by rewrite IH.
Qed.

Lemma endswith_char_snoc s a c :
  Py.endswith_char (s +:+ String a "") c = bool_decide (a = c).
Proof.
  induction s as [|x s IH]; [done|]. rewrite sapp_cons. simpl.
  rewrite IH. by destruct s.
Qed.

Lemma startswith_replace c d s r :
  c ≠ d → Py.startswith (Py.replace c d s +:+ String d r) (String c "") = false.
Proof.
  intros Hne. destruct s as [|a s].
  - change (Py.startswith (String d r) (String c "") = false). simpl.
    by destruct (decide (c = d)).
  - simpl Py.replace. rewrite sapp_cons. simpl.
    destruct (decide (a = c)) as [->|Hac].
    + by destruct (decide (c = d)).
    + by destruct (decide (c = a)).
Qed.

Lemma sapp_nil_r s : s +:+ "" = s.
Proof. induction s as [|a s IH]; [done|]. rewrite sapp_cons. by f_equal. Qed.

Lemma below_spec p q : below p q = true ↔ ∃ r, q = p +:+ "/" +:+ r.
Proof.
  unfold below. split.
  - intros [r ->]%startswith_inv. exists r. by rewrite sapp_assoc.
  - intros [r ->]. rewrite <- sapp_assoc. apply startswith_app.
Qed.

Lemma output_dir_eq n t a : output_dir n t a = image_base n t a +:+ "_temp".
Proof.
  unfold output_dir, temp_dir_name, images_base_dir, image_base, Py.path_join.
  change ("_" +:+ t +:+ "_" +:+ a +:+ "_temp")
    with (String "_" (t +:+ "_" +:+ a +:+ "_temp")).
  rewrite startswith_replace by done. simpl.
  change ("_" +:+ t +:+ "_" +:+ a) with (String "_" (t +:+ String "_" a)).
  change ("_" +:+ a +:+ "_temp") with (String "_" (a +:+ "_temp")).
  rewrite !sapp_assoc. rewrite !sapp_cons. by rewrite sapp_assoc.
Qed.

Lemma tar_filename_eq n t a : tar_filename n t a = image_base n t a +:+ ".tar".
Proof.
  unfold tar_filename, images_base_dir, image_base, Py.path_join.
  change ("_" +:+ t +:+ "_" +:+ a +:+ ".tar")
    with (String "_" (t +:+ "_" +:+ a +:+ ".tar")).
  rewrite startswith_replace by done. simpl.
  change ("_" +:+ t +:+ "_" +:+ a) with (String "_" (t +:+ String "_" a)).
  change ("_" +:+ a +:+ ".tar") with (String "_" (a +:+ ".tar")).
  rewrite !sapp_assoc. rewrite !sapp_cons. by rewrite sapp_assoc.
Qed.

Lemma scratch_file_eq n t a f :
  Py.startswith f "/" = false →
  Py.path_join (output_dir n t a) f = output_dir n t a +:+ "/" +:+ f.
Proof.
  intros Hf. unfold Py.path_join. rewrite Hf, output_dir_eq.
  change "_temp" with ("_tem" +:+ "p"). rewrite <- (sapp_assoc _ "_tem").
  rewrite endswith_char_snoc. by simpl.
Qed.

Lemma tar_not_below n t a : below (output_dir n t a) (tar_filename n t a) = false.
Proof.
  apply not_true_is_false. intros [r Hr]%below_spec.
  rewrite output_dir_eq, tar_filename_eq, sapp_assoc in Hr.
  by apply String.app_inj in Hr.
Qed.

Lemma tar_not_scratch_file n t a f :
  tar_filename n t a ≠ output_dir n t a +:+ "/" +:+ f.
Proof.
  intros Hr. rewrite output_dir_eq, tar_filename_eq, sapp_assoc in Hr.
  by apply String.app_inj in Hr.
Qed.

Lemma sapp_length s t :
  String.length (s +:+ t) = String.length s + String.length t.
Proof. induction s as [|c s IH]; [done|]. rewrite sapp_cons. simpl. by rewrite IH. Qed.

Lemma sapp_inj_r s s' t : s +:+ t = s' +:+ t → s = s'.
Proof.
  revert s'. induction s as [|c s IH]; intros [|c' s'] H; [done| | |].
  - apply (f_equal String.length) in H. rewrite !sapp_length in H. simpl in H. lia.
  - apply (f_equal String.length) in H. rewrite !sapp_length in H. simpl in H. lia.
  - rewrite !sapp_cons in H. injection H as -> H. f_equal. by apply IH.
Qed.

Lemma path_join_inj a f g :
  Py.startswith f "/" = false → Py.startswith g "/" = false →
  Py.path_join a f = Py.path_join a g → f = g.
Proof.
  unfold Py.path_join. intros -> ->. destruct (decide (a = "")); [done|].
  destruct (Py.endswith_char a "/"); intros H; apply String.app_inj in H; [done|].
  by apply String.app_inj in H.
Qed.

Lemma layer_filename_relative i : Py.startswith (layer_filename i) "/" = false.
Proof. reflexivity. Qed.

Lemma layer_filename_inj i j : layer_filename i = layer_filename j → i = j.
Proof.
  unfold layer_filename. intros H. apply String.app_inj in H.
  apply sapp_inj_r in H. by apply pretty_nat_inj in H.
Qed.

Lemma layer_paths_differ dir i j :
  i ≠ j → Py.path_join dir (layer_filename i) ≠ Py.path_join dir (layer_filename j).
Proof.
  intros Hne H. apply path_join_inj in H; [|done..]. by apply layer_filename_inj in H.
Qed.

Lemma scratch_file_below n t a f :
  below (output_dir n t a) (output_dir n t a +:+ "/" +:+ f) = true.
Proof. apply below_spec. by exists f. Qed.

End StringFacts.

(** ** Name normalisation and platform resolution *)

(** C6. A name of the known official set becomes [library/<name>]; a name
    that contains a separator, or is not in the set, is left as it is. *)
Theorem normalize_official_or_unchanged (name : string) :
  (name ∈ official_images → normalize name = "library/" +:+ name)
  ∧ (Py.contains name "/" = true ∨ name ∉ official_images → normalize name = name).
Proof.
  unfold normalize, official_images. split.
  - intros H. rewrite (bool_decide_eq_true_2 _ H).
    repeat (apply elem_of_cons in H as [->|H]; [reflexivity|]).
    by apply elem_of_nil in H.
  - intros [H|H].
    + by rewrite H.
    + rewrite (bool_decide_eq_false_2 _ H). by destruct (negb _).
Qed.

Lemma normalize_official_or_unchanged_witness :
  normalize "redis" = "library/redis"
  ∧ normalize "bitnami/redis" = "bitnami/redis"
  ∧ normalize "alpine" = "alpine".
Proof.
  split; [|split].
  - apply (proj1 (normalize_official_or_unchanged "redis")).
    by apply (bool_decide_unpack _).
  - apply (proj2 (normalize_official_or_unchanged "bitnami/redis")).
    left. reflexivity.
  - apply (proj2 (normalize_official_or_unchanged "alpine")).
    right. by apply (bool_decide_unpack _).
Defined.

(** C5, as the code has it: the machine string is lower-cased before it is
    compared, so the four names are recognised in any letter case; every
    machine string whose lower-case form is none of them gives
    [(linux, amd64)]; an explicit [os/architecture] string is split at its
    separator and the two parts are used as they are, whatever the host. *)
Theorem platform_resolution (w : world) :
  (Py.lower (platform_machine w) ∈ ["x86_64"; "amd64"] →
     get_platform w = ("linux", "amd64"))
  ∧ (Py.lower (platform_machine w) ∈ ["aarch64"; "xarm64"] →
     get_platform w = ("linux", "arm64"))
  ∧ (Py.lower (platform_machine w) ∉ ["x86_64"; "amd64"; "aarch64"; "xarm64"] →
     get_platform w = ("linux", "amd64"))
  ∧ (∀ os_name arch,
       Py.count "/" os_name = 0 → Py.count "/" arch = 0 →
       select_platform w (Some (os_name +:+ "/" +:+ arch)) = Ok (os_name, arch))
  ∧ select_platform w None = Ok (get_platform w).
Proof.
  unfold get_platform. repeat split.
  - intros H. repeat (apply elem_of_cons in H as [->|H]; [reflexivity|]).
    by apply elem_of_nil in H.
  - intros H. repeat (apply elem_of_cons in H as [->|H]; [reflexivity|]).
    by apply elem_of_nil in H.
  - intros H. case_bool_decide as H1; [done|].
    case_bool_decide as H2; [|done]. exfalso. apply H.
    repeat (apply elem_of_cons in H2 as [->|H2]; [by apply (bool_decide_unpack _)|]).
    by apply elem_of_nil in H2.
  - intros os_name arch Hos Harch. unfold select_platform.
    rewrite bool_decide_eq_false_2 by (by destruct os_name).
    simpl negb. cbv iota.
    change (os_name +:+ "/" +:+ arch) with (os_name +:+ String "/" arch).
    by rewrite split_one_sep.
Qed.

Lemma platform_resolution_witness :
  get_platform {| platform_machine := "X86_64"; http := λ _ _, None;
                  fs_fault := λ _ _, false |} = ("linux", "amd64")
  ∧ get_platform {| platform_machine := "aarch64"; http := λ _ _, None;
                    fs_fault := λ _ _, false |} = ("linux", "arm64")
  ∧ get_platform {| platform_machine := "riscv64"; http := λ _ _, None;
                    fs_fault := λ _ _, false |} = ("linux", "amd64")
  ∧ select_platform {| platform_machine := "x86_64"; http := λ _ _, None;
                       fs_fault := λ _ _, false |} (Some ("linux" +:+ "/" +:+ "arm64"))
    = Ok ("linux", "arm64").
Proof.
  split; [|split; [|split]].
  - apply (proj1 (platform_resolution _)). by apply (bool_decide_unpack _).
  - apply (proj1 (proj2 (platform_resolution _))). by apply (bool_decide_unpack _).
  - apply (proj1 (proj2 (proj2 (platform_resolution _)))).
    by apply (bool_decide_unpack _).
  - apply (proj1 (proj2 (proj2 (proj2 (platform_resolution _))))); reflexivity.
Defined.

(** C5, as the specification states it, fails: the machine string [AARCH64] is none
    of the four names and is not mapped to [(linux, amd64)]. *)
Lemma other_machine_string_not_amd64 :
  ¬ (∀ w : world,
       platform_machine w ∉ ["x86_64"; "amd64"; "aarch64"; "xarm64"] →
       get_platform w = ("linux", "amd64")).
Proof.
  intros H.
  specialize (H {| platform_machine := "AARCH64"; http := λ _ _, None;
                   fs_fault := λ _ _, false |}).
  discriminate H. by apply (bool_decide_unpack _).
Qed.

(** ** Running statements *)

Section MonadFacts.
Context {A B : Type}.
Implicit Types (m : M A) (k : A → M B).

Lemma bind_Val m k st a st1 : m st = (Val a, st1) → bind m k st = k a st1.
Proof. unfold bind. by intros ->. Qed.

Lemma bind_Return m k st b st1 :
  m st = (Return b, st1) → bind m k st = (Return b, st1).
Proof. unfold bind. by intros ->. Qed.

Lemma bind_Raise m k st e st1 :
  m st = (Raise e, st1) → bind m k st = (Raise e, st1).
Proof. unfold bind. by intros ->. Qed.

Lemma bind_inv m k st r st' :
  bind m k st = (r, st') →
  (∃ a st1, m st = (Val a, st1) ∧ k a st1 = (r, st'))
  ∨ (∃ b, r = Return b ∧ m st = (Return b, st'))
  ∨ (∃ e, r = Raise e ∧ m st = (Raise e, st')).
Proof.
  unfold bind. destruct (m st) as [[a|b|e] st1]; intros H.
  - left. eauto.
  - right. left. injection H as <- <-. eauto.
  - right. right. injection H as <- <-. eauto.
Qed.

Lemma try_except_inv (body : M A) (handler : exn → M A) st r st' :
  try_except body handler st = (r, st') →
  (∃ e st1, body st = (Raise e, st1) ∧ handler e st1 = (r, st'))
  ∨ (body st = (r, st') ∧ ∀ e, r ≠ Raise e).
Proof.
  unfold try_except. destruct (body st) as [[a|b|e] st1]; intros H.
  - right. by injection H as <- <-.
  - right. by injection H as <- <-.
  - left. eauto.
Qed.

Lemma try_except_Val (body : M A) (handler : exn → M A) st a st1 :
  body st = (Val a, st1) → try_except body handler st = (Val a, st1).
Proof. unfold try_except. by intros ->. Qed.

End MonadFacts.

(** ** The explicit platform string *)

(** C10, as the code has it: an explicit platform string that is not empty
    and does not hold exactly one separator makes [download_image] raise
    [ValueError] at line 30, before anything else is done. *)
Theorem malformed_platform_raises (w : world) (image_name tag tp : string)
    (st : state) :
  tp ≠ "" → Py.count "/" tp ≠ 1 →
  download_image w image_name tag (Some tp) st = (Raises ValueError, st).
Proof.
  intros Hne Hcount.
  unfold download_image, download_image_body, select_platform.
  rewrite bool_decide_eq_false_2 by done. simpl negb. cbv iota.
  pose proof (split_length "/" tp) as Hlen.
  destruct (Py.split "/" tp) as [|a [|b [|c l]]] eqn:Hsplit; simpl in Hlen;
    try reflexivity.
  lia.
Qed.

Lemma malformed_platform_raises_witness :
  download_image offline "redis" "latest" (Some "linux/arm64/v8") empty_disk
  = (Raises ValueError, empty_disk).
Proof. apply malformed_platform_raises; [done | vm_compute; lia]. Defined.

(** C10, as the specification states it, fails: the empty string holds no separator,
    yet the call does not raise; line 29 takes it as no platform at all. *)
Lemma empty_platform_string_does_not_raise :
  Py.count "/" "" ≠ 1
  ∧ download_image offline "redis" "latest" (Some "") empty_disk
    = (Returns false, tick empty_disk).
Proof. split; [done | reflexivity]. Qed.

(** ** Selection of the manifest for the platform *)

Lemma select_manifest_match os_name arch m rest :
  entry_matches os_name arch m = true →
  select_manifest (m :: rest) os_name arch = Ok m.
Proof.
  destruct m as [| | | |?|es]; try done. simpl.
  destruct (dict_get es "platform") as [[| | | |?|ps]|]; try done. simpl.
  destruct (dict_get ps "os") as [[| | |o|?|?]|]; try done.
  destruct (dict_get ps "architecture") as [[| | |a|?|?]|]; try done.
  intros [Ho Ha]%andb_prop. simpl. rewrite Ho. simpl. by rewrite Ha.
Qed.

Lemma select_manifest_skip os_name arch m rest :
  other_entry os_name arch m →
  select_manifest (m :: rest) os_name arch = select_manifest rest os_name arch.
Proof.
  intros [Hwf Hno]. destruct m as [| | | |?|es]; try done. simpl in *.
  destruct (dict_get es "platform") as [[| | | |?|ps]|]; try done. simpl.
  destruct (dict_get ps "os") as [[| | |o|?|?]|]; try done. simpl.
  destruct (bool_decide (o = os_name)); [|done]. simpl in *.
  destruct (dict_get ps "architecture") as [[| | |a|?|?]|]; try done.
  simpl. by rewrite Hno.
Qed.

Lemma entry_matches_truthy os_name arch m :
  entry_matches os_name arch m = true → py_bool m = true.
Proof.
  destruct m as [| | | |?|es]; try done. by destruct es.
Qed.

Lemma select_manifest_first os_name arch pre m post :
  Forall (other_entry os_name arch) pre →
  entry_matches os_name arch m = true →
  select_manifest (pre ++ m :: post) os_name arch = Ok m.
Proof.
  intros Hpre Hm. induction Hpre as [|e pre He _ IH].
  - by apply select_manifest_match.
  - rewrite <- app_comm_cons, select_manifest_skip by done. exact IH.
Qed.

Lemma select_manifest_none os_name arch entries :
  Forall (other_entry os_name arch) entries →
  select_manifest entries os_name arch = Ok JNull.
Proof.
  induction 1 as [|e l He _ IH]; [done|]. by rewrite select_manifest_skip.
Qed.

Lemma resolve_index_not_found w repo os_name arch hdrs manifest media_type entries st :
  py_get manifest "mediaType" (JStr "") = Ok media_type →
  is_index media_type = Ok true →
  py_get manifest "manifests" (JList []) = Ok (JList entries) →
  Forall (other_entry os_name arch) entries →
  resolve_index w repo os_name arch hdrs manifest st = (Return false, st).
Proof.
  intros Hmt Hidx Hms Hnone. unfold resolve_index, bind, lift.
  rewrite Hmt, Hidx, Hms. simpl py_iter. cbv beta iota.
  by rewrite select_manifest_none.
Qed.

(** C4. The entries of an index are scanned in their order: the first entry
    whose platform has the [os] and the [architecture] asked for, compared
    as strings, is selected, whatever follows it; when no entry matches,
    nothing is selected and [download_image] returns [False]. *)
Theorem manifest_selection (os_name arch : string) :
  (∀ pre m post,
     Forall (other_entry os_name arch) pre →
     entry_matches os_name arch m = true →
     select_manifest (pre ++ m :: post) os_name arch = Ok m)
  ∧ (∀ entries,
       Forall (other_entry os_name arch) entries →
       select_manifest entries os_name arch = Ok JNull)
  ∧ (∀ w image_name tag tp st token st1 manifest st2 media_type entries,
       select_platform w tp = Ok (os_name, arch) →
       get_token w (normalize image_name) st = (Val token, st1) →
       get_manifest w (normalize image_name) tag (auth_headers token) st1
         = (Val manifest, st2) →
       py_get manifest "mediaType" (JStr "") = Ok media_type →
       is_index media_type = Ok true →
       py_get manifest "manifests" (JList []) = Ok (JList entries) →
       Forall (other_entry os_name arch) entries →
       download_image w image_name tag tp st = (Returns false, st2)).
Proof.
  split; [|split].
  - intros pre m post. apply select_manifest_first.
  - intros entries. apply select_manifest_none.
  - intros w image_name tag tp st token st1 manifest st2 media_type entries
      Hplat Htoken Hmanifest Hmt Hidx Hms Hnone.
    unfold download_image, download_image_body.
    unfold bind at 1. unfold lift. rewrite Hplat.
    unfold bind at 1. unfold fetch_manifest.
    unfold bind at 1. rewrite Htoken.
    unfold bind at 1. rewrite Hmanifest.
    unfold bind at 1.
    by rewrite (resolve_index_not_found _ _ _ _ _ _ _ _ _ Hmt Hidx Hms Hnone).
Qed.

Lemma manifest_selection_witness :
  select_manifest ([index_entry "linux" "amd64" "sha256:amd"]
                   ++ index_entry "linux" "arm64" "sha256:arm" :: []) "linux" "arm64"
  = Ok (index_entry "linux" "arm64" "sha256:arm")
  ∧ select_manifest ubuntu_entries "linux" "riscv64" = Ok JNull
  ∧ download_image (serving ubuntu_routes no_fault) "ubuntu" "latest"
      (Some "linux/riscv64") empty_disk
    = (Returns false, tick (tick empty_disk)).
Proof.
  split; [|split].
  - apply (proj1 (manifest_selection "linux" "arm64")); [|reflexivity].
    repeat constructor.
  - apply (proj1 (proj2 (manifest_selection "linux" "riscv64"))).
    repeat constructor.
  - apply (proj2 (proj2 (manifest_selection "linux" "riscv64"))
             (serving ubuntu_routes no_fault) "ubuntu" "latest" (Some "linux/riscv64")
             empty_disk (JStr "t") (tick empty_disk) ubuntu_index (tick (tick empty_disk))
             (JStr "application/vnd.oci.image.index.v1+json") ubuntu_entries);
      try reflexivity.
    repeat constructor.
Defined.

(** ** What the statements of the script can do *)

Create HintDb run discriminated.

#[local] Instance dirs_kept_along : Along dirs_kept.
Proof. split; [split|]; unfold dirs_kept; [by intros ?|by intros ???; etrans|done]. Qed.

#[local] Instance file_kept_along path : Along (file_kept path).
Proof.
  split; [split|]; unfold file_kept; [done| |done].
  intros x y z Hxy Hyz. by rewrite Hyz.
Qed.

#[local] Instance disk_kept_along : Along disk_kept.
Proof.
  split; [split|]; unfold disk_kept; [done| |done].
  intros x y z [-> ->] [-> ->]. done.
Qed.

Section RunFacts.
Context {A B : Type} (w : world) (R : relation state) `{!Along R}.

Lemma rfo_ret (a : A) : returns_false_only (ret a).
Proof. by intros st b st' [=]. Qed.

Lemma rfo_raise (e : exn) : returns_false_only (raise (A:=A) e).
Proof. by intros st b st' [=]. Qed.

Lemma rfo_return_false : returns_false_only (return_ (A:=A) false).
Proof. by intros st b st' [= <- _]. Qed.

Lemma rfo_lift (v : value A) : returns_false_only (lift v).
Proof. intros st b st'. unfold lift. by destruct v. Qed.

Lemma rfo_bind (m : M A) (k : A → M B) :
  returns_false_only m → (∀ a, returns_false_only (k a)) →
  returns_false_only (bind m k).
Proof.
  intros Hm Hk st b st' H. apply bind_inv in H as [(a & st1 & _ & H)|[H|H]].
  - by eapply Hk.
  - destruct H as (b' & [= <-] & H). by eapply Hm.
  - by destruct H as (e & ? & _).
Qed.

Lemma rfo_try (body : M A) (handler : exn → M A) :
  returns_false_only body → (∀ e, returns_false_only (handler e)) →
  returns_false_only (try_except body handler).
Proof.
  intros Hb Hh st b st' H. apply try_except_inv in H as [(e & st1 & _ & H)|[H _]].
  - by eapply Hh.
  - by eapply Hb.
Qed.

Lemma steps_ret (a : A) : steps R (ret a).
Proof. by intros st r st' [= _ <-]. Qed.

Lemma steps_raise (e : exn) : steps R (raise (A:=A) e).
Proof. by intros st r st' [= _ <-]. Qed.

Lemma steps_return (b : bool) : steps R (return_ (A:=A) b).
Proof. by intros st r st' [= _ <-]. Qed.

Lemma steps_lift (v : value A) : steps R (lift v).
Proof. by intros st r st' [= _ <-]. Qed.

Lemma steps_bind (m : M A) (k : A → M B) :
  steps R m → (∀ a, steps R (k a)) → steps R (bind m k).
Proof.
  intros Hm Hk st r st' H. apply bind_inv in H as [(a & st1 & H1 & H)|[H|H]].
  - etrans; [by eapply Hm | by eapply Hk].
  - destruct H as (b' & _ & H). by eapply Hm.
  - destruct H as (e & _ & H). by eapply Hm.
Qed.

Lemma steps_bind_lift (v : value A) (k : A → M B) :
  (∀ a, v = Ok a → steps R (k a)) → steps R (bind (lift v) k).
Proof.
  intros Hk st r st' H. unfold bind, lift in H. destruct v as [a|e].
  - by eapply Hk.
  - by injection H as _ <-.
Qed.

Lemma steps_try (body : M A) (handler : exn → M A) :
  steps R body → (∀ e, steps R (handler e)) → steps R (try_except body handler).
Proof.
  intros Hb Hh st r st' H. apply try_except_inv in H as [(e & st1 & H1 & H)|[H _]].
  - etrans; [by eapply Hb | by eapply Hh].
  - by eapply Hb.
Qed.

Lemma fs_call_inv op st r st' :
  fs_call w op st = (r, st') →
  (fs_fault w (clock st) op = true ∧ r = Raise OSError ∧ st' = tick st)
  ∨ (fs_fault w (clock st) op = false ∧ r = Val tt ∧ st' = fs_effect op (tick st)).
Proof. unfold fs_call. destruct (fs_fault _ _ _); intros [= <- <-]; auto. Qed.

Lemma rfo_fs_call op : returns_false_only (fs_call w op).
Proof. intros st b st' H. apply fs_call_inv in H. naive_solver. Qed.

Lemma steps_fs_call op :
  (∀ st, R st (fs_effect op st)) → steps R (fs_call w op).
Proof.
  intros Hop st r st' H. apply fs_call_inv in H as [(_ & _ & ->)|(_ & _ & ->)].
  - apply along_tick.
  - etrans; [apply along_tick|apply Hop].
Qed.

Lemma requests_get_inv req st r st' :
  requests_get w req st = (r, st') →
  st' = tick st
  ∧ ((∃ resp, http w (clock st) req = Some resp ∧ r = Val resp)
     ∨ (http w (clock st) req = None ∧ r = Raise RequestException)).
Proof. unfold requests_get. destruct (http _ _ _); intros [= <- <-]; eauto. Qed.

Lemma rfo_requests_get req : returns_false_only (requests_get w req).
Proof. intros st b st' H. apply requests_get_inv in H. naive_solver. Qed.

Lemma steps_requests_get req : steps R (requests_get w req).
Proof.
  intros st r st' H. apply requests_get_inv in H as [-> _]. apply along_tick.
Qed.

Lemma rfo_raise_for_status resp : returns_false_only (raise_for_status resp).
Proof. intros st b st'. unfold raise_for_status. by case_match. Qed.

Lemma steps_raise_for_status resp : steps R (raise_for_status resp).
Proof. intros st r st'. unfold raise_for_status. by case_match; intros [= _ <-]. Qed.

Lemma rfo_response_json resp : returns_false_only (response_json resp).
Proof. intros st b st'. unfold response_json. by case_match. Qed.

Lemma steps_response_json resp : steps R (response_json resp).
Proof. intros st r st'. unfold response_json. by case_match; intros [= _ <-]. Qed.

End RunFacts.

#[local] Hint Resolve rfo_ret rfo_raise rfo_return_false rfo_lift rfo_fs_call
  rfo_requests_get rfo_raise_for_status rfo_response_json : run.

(** Goes through the statements of a definition that is already unfolded;
    [side] proves that the effect of a filesystem operation is in the
    relation. *)
Tactic Notation "run_steps_with" tactic3(side) :=
  repeat first
    [ solve [auto with run]
    | apply rfo_bind; [|intros ?]
    | apply rfo_try; [|intros ?]
    | match goal with
      | |- steps ?R (bind (lift _) _) => apply (steps_bind_lift R); intros ? ?
      | |- steps ?R (bind _ _) => apply (steps_bind R); [|intros ?]
      | |- steps ?R (try_except _ _) => apply (steps_try R); [|intros ?]
      | |- steps ?R (fs_call _ _) => apply (steps_fs_call _ R); solve [side]
      | |- steps ?R (ret _) => apply (steps_ret R)
      | |- steps ?R (raise _) => apply (steps_raise R)
      | |- steps ?R (return_ _) => apply (steps_return R)
      | |- steps ?R (lift _) => apply (steps_lift R)
      | |- steps ?R (requests_get _ _) => apply (steps_requests_get _ R)
      | |- steps ?R (raise_for_status _) => apply (steps_raise_for_status R)
      | |- steps ?R (response_json _) => apply (steps_response_json R)
      end
    | progress cbv zeta
    | case_match ].

Ltac dirs_side := intros ?; unfold dirs_kept; simpl; set_solver.

Ltac run_steps := run_steps_with dirs_side.

Section PhaseFacts.
Context (w : world).

Lemma rfo_write_chunks path cs : returns_false_only (write_chunks w path cs).
Proof. induction cs; simpl; unfold f_write; run_steps. Qed.

Lemma rfo_save_body path resp : returns_false_only (save_body w path resp).
Proof.
  unfold save_body, open_w. pose proof (rfo_write_chunks path (chunks resp)).
  run_steps.
Qed.

Lemma rfo_fetch_manifest repo tag os_name arch :
  returns_false_only (fetch_manifest w repo tag os_name arch).
Proof. unfold fetch_manifest, get_token, get_manifest, resolve_index. run_steps. Qed.

Lemma rfo_download_config repo dir hdrs manifest :
  returns_false_only (download_config w repo dir hdrs manifest).
Proof. unfold download_config. pose proof (rfo_save_body). run_steps. Qed.

Lemma rfo_download_layers repo dir hdrs layers idx layer_files :
  returns_false_only (download_layers w repo dir hdrs layers idx layer_files).
Proof.
  revert idx layer_files. pose proof (rfo_save_body).
  induction layers; intros; simpl; run_steps.
Qed.

Lemma rfo_build_layout image_name tag arch hdrs manifest :
  returns_false_only (build_layout w image_name tag arch hdrs manifest).
Proof.
  unfold build_layout, write_layout_manifest, makedirs, open_w, json_dump.
  pose proof rfo_download_config. pose proof rfo_download_layers. run_steps.
Qed.

(** Fetching the manifest does not touch the disk. *)
Lemma fetch_manifest_disk_kept repo tag os_name arch :
  steps disk_kept (fetch_manifest w repo tag os_name arch).
Proof. unfold fetch_manifest, get_token, get_manifest, resolve_index. run_steps. Qed.

(** Nothing before the removal at line 180 removes a directory. *)
Lemma write_chunks_dirs_kept path cs : steps dirs_kept (write_chunks w path cs).
Proof. induction cs; simpl; unfold f_write; run_steps. Qed.

Lemma save_body_dirs_kept path resp : steps dirs_kept (save_body w path resp).
Proof.
  unfold save_body, open_w. pose proof (write_chunks_dirs_kept path (chunks resp)).
  run_steps.
Qed.

Lemma download_config_dirs_kept repo dir hdrs manifest :
  steps dirs_kept (download_config w repo dir hdrs manifest).
Proof. unfold download_config. pose proof (save_body_dirs_kept). run_steps. Qed.

Lemma download_layers_dirs_kept repo dir hdrs layers idx layer_files :
  steps dirs_kept (download_layers w repo dir hdrs layers idx layer_files).
Proof.
  revert idx layer_files. pose proof (save_body_dirs_kept).
  induction layers; intros; simpl; run_steps.
Qed.

Lemma build_layout_dirs_kept image_name tag arch hdrs manifest :
  steps dirs_kept (build_layout w image_name tag arch hdrs manifest).
Proof.
  unfold build_layout, write_layout_manifest, makedirs, open_w, json_dump.
  pose proof download_config_dirs_kept. pose proof download_layers_dirs_kept.
  run_steps.
Qed.

End PhaseFacts.

(** ** What is written where *)

Lemma file_kept_effect p op :
  match op with
  | Makedirs _ => True
  | OpenW q | FWrite q _ | JsonDump q _ | TarOpen q | TarAdd q _ => q ≠ p
  | Rmtree q => below q p = false
  end →
  ∀ st, file_kept p st (fs_effect op st).
Proof.
  unfold file_kept. intros Hop st. destruct op; simpl; try done;
    try by rewrite lookup_insert_ne.
  destruct (files st !! p) as [d|] eqn:Hp.
  - apply map_lookup_filter_Some_2; [done|]. simpl. by rewrite Hop.
  - apply map_lookup_filter_None. by left.
Qed.

Lemma scratch_file_ne n t a f g :
  Py.startswith f "/" = false → f ≠ g →
  Py.path_join (output_dir n t a) f ≠ output_dir n t a +:+ "/" +:+ g.
Proof.
  intros Hf Hne. rewrite scratch_file_eq by done.
  intros H. apply String.app_inj in H. by apply String.app_inj in H.
Qed.

Ltac file_side :=
  apply file_kept_effect; simpl; try done;
  first [ apply scratch_file_ne; done | auto ].

Section Written.
Context (w : world).

Lemma write_chunks_file_kept path p cs :
  path ≠ p → steps (file_kept p) (write_chunks w path cs).
Proof. intros Hne. induction cs; simpl; unfold f_write; run_steps_with file_side. Qed.

Lemma save_body_file_kept path p resp :
  path ≠ p → steps (file_kept p) (save_body w path resp).
Proof.
  intros Hne. pose proof (write_chunks_file_kept path p (chunks resp) Hne).
  unfold save_body, open_w. run_steps_with file_side.
Qed.

(** The loop over the layers writes to the files of the layers only. *)
Lemma download_layers_file_kept repo dir hdrs p layers idx layer_files :
  (∀ j, idx ≤ j → Py.path_join dir (layer_filename j) ≠ p) →
  steps (file_kept p) (download_layers w repo dir hdrs layers idx layer_files).
Proof.
  revert idx layer_files. induction layers as [|layer rest IH];
    intros idx layer_files Hp; simpl.
  - run_steps.
  - assert (∀ lf, steps (file_kept p)
                    (download_layers w repo dir hdrs rest (S idx) lf)).
    { intros lf. apply IH. intros j Hj. apply Hp. lia. }
    pose proof (λ resp, save_body_file_kept _ p resp (Hp idx (le_n _))).
    run_steps_with file_side.
Qed.

Lemma write_chunks_content path cs st st' b :
  files st !! path = Some (Bytes b) →
  write_chunks w path cs st = (Val tt, st') →
  files st' !! path = Some (Bytes (b +:+ foldr String.append "" cs)).
Proof.
  revert st b. induction cs as [|c cs IH]; intros st b Hb H; simpl in *.
  - injection H as <-. by rewrite sapp_nil_r.
  - unfold f_write in H.
    apply bind_inv in H as [([] & st1 & H1 & H)|[(? & [=] & _)|(? & [=] & _)]].
    apply fs_call_inv in H1 as [(_ & [=] & _)|(_ & _ & ->)].
    rewrite <- sapp_assoc. eapply IH; [|exact H].
    simpl. rewrite Hb. apply lookup_insert_eq.
Qed.

Lemma save_body_content path resp st st' :
  save_body w path resp st = (Val tt, st') →
  files st' !! path = Some (Bytes (blob_bytes resp)).
Proof.
  unfold save_body, open_w. intros H.
  apply bind_inv in H as [([] & st1 & H1 & H)|[(? & [=] & _)|(? & [=] & _)]].
  apply fs_call_inv in H1 as [(_ & [=] & _)|(_ & _ & ->)].
  apply bind_inv in H as [([] & st2 & H2 & H)|[(? & [=] & _)|(? & [=] & _)]].
  destruct (truncated resp); [done|]. injection H as <-.
  apply (write_chunks_content _ _ _ _ "") in H2; [done|].
  simpl. apply lookup_insert_eq.
Qed.

Lemma raise_for_status_inv resp st st' :
  raise_for_status resp st = (Val tt, st') → accepted resp ∧ st' = st.
Proof.
  unfold raise_for_status, accepted. destruct (_ && _); [done|].
  by intros [= <-].
Qed.

(** After the loop, the file of each layer holds the bytes the registry
    served for the digest of that layer. *)
Lemma download_layers_content repo dir hdrs layers idx layer_files st lf st' :
  download_layers w repo dir hdrs layers idx layer_files st = (Val lf, st') →
  ∀ i layer, layers !! i = Some layer →
    ∃ digest k resp,
      py_getitem layer "digest" = Ok digest
      ∧ http w k {| url := blob_url repo (py_str digest); headers := hdrs;
                    timeout := Some 300; stream := true |} = Some resp
      ∧ accepted resp
      ∧ files st' !! Py.path_join dir (layer_filename (idx + i))
        = Some (Bytes (blob_bytes resp)).
Proof.
  revert idx layer_files st. induction layers as [|layer rest IH];
    intros idx layer_files st H i l Hi; [done|]. simpl in H.
  apply bind_inv in H as [(dg & st1 & Hd & H)|[(b & [=] & _)|(e & [=] & _)]].
  apply bind_inv in H as [(sz & st2 & _ & H)|[(b & [=] & _)|(e & [=] & _)]].
  apply bind_inv in H as [([] & st3 & _ & H)|[(b & [=] & _)|(e & [=] & _)]].
  apply bind_inv in H as [(lf1 & st4 & H1 & H)|[(b & [=] & _)|(e & [=] & _)]].
  destruct i as [|i]; simpl in Hi.
  - injection Hi as <-.
    apply try_except_inv in H1 as [(e & st5 & _ & [=])|[H1 _]].
    apply bind_inv in H1 as [(resp & st5 & Hget & H1)|[(b & [=] & _)|(e & [=] & _)]].
    apply bind_inv in H1 as [([] & st6 & Hst & H1)|[(b & [=] & _)|(e & [=] & _)]].
    cbv zeta in H1.
    apply bind_inv in H1 as [([] & st7 & Hsave & H1)|[(b & [=] & _)|(e & [=] & _)]].
    injection H1 as _ <-.
    apply requests_get_inv in Hget as [_ [(resp' & Hhttp & [= <-])|[_ [=]]]].
    apply raise_for_status_inv in Hst as [Hacc _].
    apply save_body_content in Hsave.
    apply (download_layers_file_kept repo dir hdrs
             (Py.path_join dir (layer_filename idx))) in H;
      [|intros j Hj; apply layer_paths_differ; lia].
    exists dg, (clock st3), resp. rewrite Nat.add_0_r. unfold file_kept in H.
    rewrite H. repeat split; try done.
    unfold lift in Hd. destruct (py_getitem layer "digest"); [|done].
    by injection Hd as ->.
  - rewrite <- Nat.add_succ_comm. by eapply IH.
Qed.

Lemma write_layout_manifest_file_kept repo tag dir layer_files p :
  Py.path_join dir "manifest.json" ≠ p →
  steps (file_kept p) (write_layout_manifest w repo tag dir layer_files).
Proof.
  intros Hne. unfold write_layout_manifest, open_w, json_dump.
  run_steps_with file_side.
Qed.

End Written.

(** ** The archive and the removal of the scratch directory *)

Lemma elem_of_tar_members (f : gmap string fdata) dir name d :
  (name, d) ∈ tar_members f dir
  ↔ ∃ rel, name = "./" +:+ rel ∧ f !! (dir +:+ "/" +:+ rel) = Some d.
Proof.
  unfold tar_members. rewrite list_elem_of_omap. split.
  - intros ([p d'] & Hin & Hsome). apply elem_of_map_to_list in Hin.
    simpl in Hsome. destruct (strip_prefix _ p) as [rel|] eqn:Hrel; [|done].
    injection Hsome as <- <-. apply strip_prefix_Some in Hrel as ->.
    exists rel. by rewrite <- sapp_assoc.
  - intros (rel & -> & Hf). exists (dir +:+ "/" +:+ rel, d). split.
    + by apply elem_of_map_to_list.
    + simpl. rewrite <- sapp_assoc.
      by rewrite (proj2 (strip_prefix_Some _ _ rel) eq_refl).
Qed.

Section ArchiveFacts.
Context (w : world) (n t a : string).

Lemma archive_and_cleanup_inv st r st' :
  archive_and_cleanup w n t a st = (r, st') →
  (r = Return true
   ∧ st' = fs_effect (Rmtree (output_dir n t a))
             (tick (fs_effect (TarAdd (tar_filename n t a) (output_dir n t a))
                      (tick (fs_effect (TarOpen (tar_filename n t a)) (tick st))))))
  ∨ (∃ e, r = Raise e ∧ dirs st' = dirs st
       ∧ ∀ p, below (output_dir n t a) p = true → files st' !! p = files st !! p).
Proof.
  unfold archive_and_cleanup, tar_create, rmtree. intros H.
  apply bind_inv in H as [([] & st2 & H1 & H)|[(b & _ & H1)|(e & -> & H1)]].
  - apply bind_inv in H1 as [([] & st1 & H0 & H1)|[(b & [=] & _)|(e & [=] & _)]].
    apply fs_call_inv in H0 as [(_ & [=] & _)|(_ & _ & ->)].
    apply fs_call_inv in H1 as [(_ & [=] & _)|(_ & _ & ->)].
    apply bind_inv in H as [([] & st3 & H2 & H)|[(b & _ & H2)|(e & -> & H2)]].
    + apply fs_call_inv in H2 as [(_ & [=] & _)|(_ & _ & ->)].
      injection H as <- <-. by left.
    + apply fs_call_inv in H2 as [(_ & [=] & _)|(_ & [=] & _)].
    + apply fs_call_inv in H2 as [(_ & _ & ->)|(_ & [=] & _)].
      right. exists e. split; [done|]. split; [done|]. intros p Hp. simpl.
      rewrite !lookup_insert_ne; [done| |]; intros <-;
        by rewrite tar_not_below in Hp.
  - apply bind_inv in H1 as [([] & st1 & H0 & H1)|[(b' & _ & H0)|(e & [=] & _)]].
    + apply fs_call_inv in H1 as [(_ & [=] & _)|(_ & [=] & _)].
    + apply fs_call_inv in H0 as [(_ & [=] & _)|(_ & [=] & _)].
  - right. exists e. split; [done|].
    apply bind_inv in H1 as [([] & st1 & H0 & H1)|[(b' & [=] & _)|(e' & _ & H0)]].
    + apply fs_call_inv in H0 as [(_ & [=] & _)|(_ & _ & ->)].
      apply fs_call_inv in H1 as [(_ & _ & ->)|(_ & [=] & _)].
      split; [done|]. intros p Hp. simpl.
      rewrite lookup_insert_ne; [done|]. intros <-.
      by rewrite tar_not_below in Hp.
    + apply fs_call_inv in H0 as [(_ & _ & ->)|(_ & [=] & _)]. by split.
Qed.

Lemma archive_success st st' :
  archive_and_cleanup w n t a st = (Return true, st') →
  (output_dir n t a ∉ dirs st')
  ∧ (∀ p, below (output_dir n t a) p = true → (p ∉ dirs st') ∧ files st' !! p = None)
  ∧ ∃ members,
      files st' !! tar_filename n t a = Some (TarFile members)
      ∧ ∀ name d, (name, d) ∈ members
          ↔ (∃ rel, name = "./" +:+ rel
                    ∧ files st !! (output_dir n t a +:+ "/" +:+ rel) = Some d).
Proof.
  intros H. apply archive_and_cleanup_inv in H as [[_ ->]|(e & [=] & _)].
  simpl. split; [|split].
  - rewrite elem_of_filter. naive_solver.
  - intros p Hp. split.
    + rewrite elem_of_filter. rewrite Hp. naive_solver.
    + apply map_lookup_filter_None. right. intros d _. cbn [fst].
      rewrite Hp. by intros [].
  - eexists. split.
    + apply map_lookup_filter_Some. split; [apply lookup_insert_eq|].
      simpl. by rewrite tar_not_below.
    + intros name d. rewrite elem_of_tar_members.
      split; intros (rel & -> & Hrel); exists rel; (split; [done|]).
      * rewrite lookup_insert_ne in Hrel; [done|]. apply tar_not_scratch_file.
      * rewrite lookup_insert_ne; [done|]. apply tar_not_scratch_file.
Qed.

End ArchiveFacts.

(** ** A successful run *)

Section SuccessfulRun.
Context (w : world).

Lemma download_layers_names repo dir hdrs layers idx layer_files st lf st' :
  download_layers w repo dir hdrs layers idx layer_files st = (Val lf, st') →
  lf = layer_files ++ map layer_filename (seq idx (length layers)).
Proof.
  revert idx layer_files st. induction layers as [|layer rest IH];
    intros idx layer_files st H; simpl in H.
  - injection H as <- _. by rewrite app_nil_r.
  - apply bind_inv in H as [(dg & st1 & _ & H)|[(b & [=] & _)|(e & [=] & _)]].
    apply bind_inv in H as [(sz & st2 & _ & H)|[(b & [=] & _)|(e & [=] & _)]].
    apply bind_inv in H as [([] & st3 & _ & H)|[(b & [=] & _)|(e & [=] & _)]].
    apply bind_inv in H as [(lf1 & st4 & H1 & H)|[(b & [=] & _)|(e & [=] & _)]].
    apply IH in H as ->.
    apply try_except_inv in H1 as [(e & st5 & _ & [=])|[H1 _]].
    apply bind_inv in H1 as [(resp & st5 & _ & H1)|[(b & [=] & _)|(e & [=] & _)]].
    apply bind_inv in H1 as [([] & st6 & _ & H1)|[(b & [=] & _)|(e & [=] & _)]].
    cbv zeta in H1.
    apply bind_inv in H1 as [([] & st7 & _ & H1)|[(b & [=] & _)|(e & [=] & _)]].
    injection H1 as <- _. simpl. by rewrite <- app_assoc.
Qed.

Lemma write_layout_manifest_inv repo tag dir layer_files st r st' :
  write_layout_manifest w repo tag dir layer_files st = (r, st') →
  dirs st' = dirs st
  ∧ (r = Val tt →
     files st' !! Py.path_join dir "manifest.json"
     = Some (JsonText (podman_manifest repo tag layer_files))).
Proof.
  unfold write_layout_manifest, open_w, json_dump. cbv zeta. intros H.
  apply bind_inv in H as [([] & st1 & H1 & H)|[(b & _ & H1)|(e & -> & H1)]];
    apply fs_call_inv in H1 as [(_ & ? & ->)|(_ & ? & ->)]; try done.
  apply fs_call_inv in H as [(_ & -> & ->)|(_ & -> & ->)]; [done|].
  split; [done|]. intros _. simpl. apply lookup_insert_eq.
Qed.

Lemma build_layout_inv n t a hdrs manifest st st1 :
  build_layout w n t a hdrs manifest st = (Val tt, st1) →
  ∃ layers items,
    py_get manifest "layers" (JList []) = Ok layers
    ∧ py_iter layers = Ok items
    ∧ files st1 !! (output_dir n t a +:+ "/" +:+ "manifest.json")
      = Some (JsonText (podman_manifest n t
                          (map layer_filename (seq 1 (length items)))))
    ∧ ∀ i layer, items !! i = Some layer →
        ∃ digest k resp,
          py_getitem layer "digest" = Ok digest
          ∧ http w k {| url := blob_url n (py_str digest); headers := hdrs;
                        timeout := Some 300; stream := true |} = Some resp
          ∧ accepted resp
          ∧ files st1 !! (output_dir n t a +:+ "/" +:+ layer_filename (S i))
            = Some (Bytes (blob_bytes resp)).
Proof.
  unfold build_layout. cbv zeta. intros H.
  apply bind_inv in H as [([] & s1 & _ & H)|[(b & [=] & _)|(e & [=] & _)]].
  apply bind_inv in H as [([] & s2 & _ & H)|[(b & [=] & _)|(e & [=] & _)]].
  apply bind_inv in H as [([] & s3 & _ & H)|[(b & [=] & _)|(e & [=] & _)]].
  apply bind_inv in H as [(layers & s4 & Hl & H)|[(b & [=] & _)|(e & [=] & _)]].
  apply bind_inv in H as [(len & s5 & _ & H)|[(b & [=] & _)|(e & [=] & _)]].
  apply bind_inv in H as [(items & s6 & Hi & H)|[(b & [=] & _)|(e & [=] & _)]].
  apply bind_inv in H as [(lf & s7 & Hlf & H)|[(b & [=] & _)|(e & [=] & _)]].
  pose proof (download_layers_content w _ _ _ _ _ _ _ _ _ Hlf) as Hcontent.
  apply download_layers_names in Hlf as ->.
  pose proof (write_layout_manifest_inv _ _ _ _ _ _ _ H) as [_ Hfile].
  specialize (Hfile eq_refl). rewrite scratch_file_eq in Hfile by done.
  exists layers, items. unfold lift in Hl, Hi.
  destruct (py_get _ _ _) as [?|?]; [|done]. destruct (py_iter _) as [?|?]; [|done].
  injection Hl as <-; injection Hi as <-. repeat (split; [done|]).
  intros i layer Hlayer.
  destruct (Hcontent i layer Hlayer) as (digest & k & resp & Hd & Hget & Hacc & Hbytes).
  exists digest, k, resp. repeat (split; [done|]).
  rewrite scratch_file_eq in Hbytes by done.
  apply (write_layout_manifest_file_kept w _ _ _ _
           (output_dir n t a +:+ "/" +:+ layer_filename (S i))) in H.
  - unfold file_kept in H. by rewrite H.
  - by apply scratch_file_ne.
Qed.

Lemma download_image_success image_name tag tp st st' :
  download_image w image_name tag tp st = (Returns true, st') →
  ∃ os_name arch hdrs manifest st1 st2,
    select_platform w tp = Ok (os_name, arch)
    ∧ fetch_manifest w (normalize image_name) tag os_name arch st
      = (Val (hdrs, manifest), st1)
    ∧ build_layout w (normalize image_name) tag arch hdrs manifest st1 = (Val tt, st2)
    ∧ archive_and_cleanup w (normalize image_name) tag arch st2 = (Return true, st').
Proof.
  unfold download_image. destruct (download_image_body _ _ _ _ _) as [[[]|b|e] s] eqn:H;
    intros [= -> ->].
  unfold download_image_body in H. cbv zeta in H.
  apply bind_inv in H as [([os_name arch] & s1 & Hp & H)|[(b & [= <-] & Hp)|(e & [=] & _)]];
    [|by apply rfo_lift in Hp].
  apply bind_inv in H as [([hdrs manifest] & s2 & Hm & H)|[(b & [= <-] & Hm)|(e & [=] & _)]];
    [|by apply rfo_fetch_manifest in Hm].
  unfold assemble in H.
  apply bind_inv in H as [([] & s3 & Hb & H)|[(b & [= <-] & Hb)|(e & [=] & _)]];
    [|by apply rfo_build_layout in Hb].
  exists os_name, arch, hdrs, manifest, s2, s3. unfold lift in Hp.
  destruct (select_platform w tp) as [?|?]; [|done]. by injection Hp as -> ->.
Qed.

End SuccessfulRun.

(** C7. After a successful [download_image], the archive holds a
    [manifest.json] whose only entry has [RepoTags] equal to the one-element
    list [<repository>:<tag>] for the normalised repository, and whose
    [Layers] are [layer-1.tar.gz] to [layer-N.tar.gz] in this order, where N
    is the number of layers of the manifest the assembly worked on; and the
    file named at position i holds the bytes the registry served for the
    digest of the i-th layer of that manifest. *)
Theorem layout_manifest_lists_layers (w : world) (image_name tag : string)
    (tp : option string) (st st' : state) :
  download_image w image_name tag tp st = (Returns true, st') →
  ∃ os_name arch hdrs manifest st1 layers items members,
    select_platform w tp = Ok (os_name, arch)
    ∧ fetch_manifest w (normalize image_name) tag os_name arch st
      = (Val (hdrs, manifest), st1)
    ∧ py_get manifest "layers" (JList []) = Ok layers
    ∧ py_iter layers = Ok items
    ∧ files st' !! tar_filename (normalize image_name) tag arch = Some (TarFile members)
    ∧ (∀ d, ("./manifest.json", d) ∈ members
          ↔ d = JsonText
                  (JList [ JDict
                    [ ("Config", JStr "config.json");
                      ("RepoTags", JList [JStr (normalize image_name +:+ ":" +:+ tag)]);
                      ("Layers",
                       JList (map (λ i, JStr ("layer-" +:+ pretty i +:+ ".tar.gz"))
                                (seq 1 (length items)))) ] ]))
    ∧ ∀ i layer, items !! i = Some layer →
        ∃ digest k resp,
          py_getitem layer "digest" = Ok digest
          ∧ http w k {| url := blob_url (normalize image_name) (py_str digest);
                        headers := hdrs; timeout := Some 300; stream := true |}
            = Some resp
          ∧ accepted resp
          ∧ ("./" +:+ "layer-" +:+ pretty (S i) +:+ ".tar.gz", Bytes (blob_bytes resp))
            ∈ members.
Proof.
  intros H.
  apply download_image_success in H
    as (os_name & arch & hdrs & manifest & st1 & st2 & Hp & Hm & Hb & Ha).
  apply build_layout_inv in Hb as (layers & items & Hl & Hi & Hfile & Hlayers).
  apply archive_success in Ha as (_ & _ & members & Htar & Hmem).
  exists os_name, arch, hdrs, manifest, st1, layers, items, members.
  repeat (split; [done|]). split.
  - intros d. rewrite Hmem. split.
    + intros (rel & Hrel & Hd).
      change ("./" +:+ rel) with (String "." (String "/" rel)) in Hrel.
      injection Hrel as <-.
      rewrite Hfile in Hd. injection Hd as <-.
      unfold podman_manifest. by rewrite map_map.
    + intros ->. exists "manifest.json". split; [done|]. rewrite Hfile.
      unfold podman_manifest. by rewrite map_map.
  - intros i layer Hlayer.
    destruct (Hlayers i layer Hlayer) as (digest & k & resp & Hd & Hget & Hacc & Hbytes).
    exists digest, k, resp. repeat (split; [done|]).
    apply Hmem. by exists (layer_filename (S i)).
Qed.

Lemma layout_manifest_lists_layers_witness :
  ∃ os_name arch hdrs manifest st1 layers items members,
    select_platform (serving redis_routes no_fault) None = Ok (os_name, arch)
    ∧ fetch_manifest (serving redis_routes no_fault) (normalize "redis") "latest"
        os_name arch empty_disk
      = (Val (hdrs, manifest), st1)
    ∧ py_get manifest "layers" (JList []) = Ok layers
    ∧ py_iter layers = Ok items
    ∧ files (download_image (serving redis_routes no_fault) "redis" "latest" None
               empty_disk).2
        !! tar_filename (normalize "redis") "latest" arch = Some (TarFile members)
    ∧ (∀ d, ("./manifest.json", d) ∈ members
          ↔ d = JsonText
                  (JList [ JDict
                    [ ("Config", JStr "config.json");
                      ("RepoTags", JList [JStr (normalize "redis" +:+ ":" +:+ "latest")]);
                      ("Layers",
                       JList (map (λ i, JStr ("layer-" +:+ pretty i +:+ ".tar.gz"))
                                (seq 1 (length items)))) ] ]))
    ∧ ∀ i layer, items !! i = Some layer →
        ∃ digest k resp,
          py_getitem layer "digest" = Ok digest
          ∧ http (serving redis_routes no_fault) k
              {| url := blob_url (normalize "redis") (py_str digest);
                 headers := hdrs; timeout := Some 300; stream := true |}
            = Some resp
          ∧ accepted resp
          ∧ ("./" +:+ "layer-" +:+ pretty (S i) +:+ ".tar.gz", Bytes (blob_bytes resp))
            ∈ members.
Proof.
  apply (layout_manifest_lists_layers (serving redis_routes no_fault) "redis" "latest"
           None empty_disk).
  vm_compute. reflexivity.
Defined.

(** C8. After a successful [download_image], the scratch directory of the
    image and everything below it is gone from the disk, and the archive of
    the image is there. *)
Theorem scratch_removed_archive_present (w : world) (image_name tag : string)
    (tp : option string) (st st' : state) :
  download_image w image_name tag tp st = (Returns true, st') →
  ∃ os_name arch,
    select_platform w tp = Ok (os_name, arch)
    ∧ (output_dir (normalize image_name) tag arch ∉ dirs st')
    ∧ (∀ p, below (output_dir (normalize image_name) tag arch) p = true →
            (p ∉ dirs st') ∧ files st' !! p = None)
    ∧ ∃ members,
        files st' !! tar_filename (normalize image_name) tag arch
        = Some (TarFile members).
Proof.
  intros H.
  apply download_image_success in H
    as (os_name & arch & hdrs & manifest & st1 & st2 & Hp & Hm & Hb & Ha).
  apply archive_success in Ha as (Hdir & Hbelow & members & Htar & _).
  exists os_name, arch. eauto.
Qed.

Lemma scratch_removed_archive_present_witness :
  ∃ os_name arch,
    select_platform (serving redis_routes no_fault) None = Ok (os_name, arch)
    ∧ (output_dir (normalize "redis") "latest" arch
       ∉ dirs (download_image (serving redis_routes no_fault) "redis" "latest" None
                 empty_disk).2)
    ∧ (∀ p, below (output_dir (normalize "redis") "latest" arch) p = true →
            (p ∉ dirs (download_image (serving redis_routes no_fault) "redis" "latest"
                         None empty_disk).2)
            ∧ files (download_image (serving redis_routes no_fault) "redis" "latest"
                       None empty_disk).2 !! p = None)
    ∧ ∃ members,
        files (download_image (serving redis_routes no_fault) "redis" "latest" None
                 empty_disk).2
          !! tar_filename (normalize "redis") "latest" arch
        = Some (TarFile members).
Proof.
  apply (scratch_removed_archive_present (serving redis_routes no_fault) "redis"
           "latest" None empty_disk).
  vm_compute. reflexivity.
Defined.

(** ** Failures *)

Section Failures.
Context (w : world) (n t a : string).

Lemma build_layout_return_false hdrs manifest st st' :
  build_layout w n t a hdrs manifest st = (Return false, st') →
  output_dir n t a ∈ dirs st'.
Proof.
  unfold build_layout, makedirs. cbv zeta. intros H.
  apply bind_inv in H as [([] & s1 & H1 & H)|[(b & _ & H1)|(e & [=] & _)]];
    [|by apply fs_call_inv in H1 as [(_ & ? & _)|(_ & ? & _)]].
  apply bind_inv in H as [([] & s2 & H2 & H)|[(b & _ & H2)|(e & [=] & _)]];
    [|by apply fs_call_inv in H2 as [(_ & ? & _)|(_ & ? & _)]].
  apply fs_call_inv in H2 as [(_ & [=] & _)|(_ & _ & ->)].
  revert H. match goal with |- ?m _ = _ → _ => assert (steps dirs_kept m) as Hk end.
  { unfold write_layout_manifest, open_w, json_dump.
    pose proof (download_config_dirs_kept w).
    pose proof (download_layers_dirs_kept w). run_steps. }
  intros H. apply Hk in H. apply H. simpl. set_solver.
Qed.

(** C3, as the code has it: when the archiving step returns, the scratch
    directory and everything below it has been removed; when writing the
    archive raises, the removal is not attempted, the exception propagates
    and the scratch directory and its files are left as they were; building
    the layout removes no directory, and an assembly that returns [False]
    leaves the scratch directory on the disk. *)
Theorem scratch_directory_removed_on_success_only :
  (∀ st st',
     archive_and_cleanup w n t a st = (Return true, st') →
     (output_dir n t a ∉ dirs st')
     ∧ ∀ p, below (output_dir n t a) p = true → files st' !! p = None)
  ∧ (∀ st e st',
       tar_create w (tar_filename n t a) (output_dir n t a) st = (Raise e, st') →
       archive_and_cleanup w n t a st = (Raise e, st')
       ∧ dirs st' = dirs st
       ∧ ∀ p, below (output_dir n t a) p = true → files st' !! p = files st !! p)
  ∧ (∀ hdrs manifest st r st',
       build_layout w n t a hdrs manifest st = (r, st') → dirs st ⊆ dirs st')
  ∧ (∀ hdrs manifest st st',
       assemble w n t a hdrs manifest st = (Return false, st') →
       output_dir n t a ∈ dirs st' ∧ dirs st ⊆ dirs st').
Proof.
  split; [|split; [|split]].
  - intros st st' H. apply archive_success in H as (? & Hbelow & _).
    split; [done|]. intros p Hp. by apply Hbelow.
  - intros st e st' H. split.
    { unfold archive_and_cleanup. by rewrite (bind_Raise _ _ _ _ _ H). }
    unfold tar_create in H.
    apply bind_inv in H as [([] & st1 & H0 & H1)|[(b & [=] & _)|(e' & _ & H0)]].
    + apply fs_call_inv in H0 as [(_ & [=] & _)|(_ & _ & ->)].
      apply fs_call_inv in H1 as [(_ & _ & ->)|(_ & [=] & _)].
      split; [done|]. intros p Hp. simpl.
      rewrite lookup_insert_ne; [done|]. intros <-.
      by rewrite tar_not_below in Hp.
    + apply fs_call_inv in H0 as [(_ & _ & ->)|(_ & [=] & _)]. by split.
  - intros hdrs manifest st r st' H. by apply build_layout_dirs_kept in H.
  - intros hdrs manifest st st' H. unfold assemble in H.
    apply bind_inv in H as [([] & s1 & Hb & H)|[(b & [= <-] & Hb)|(e & [=] & _)]].
    + by apply archive_and_cleanup_inv in H as [[[=] _]|(e & [=] & _)].
    + split; [by apply build_layout_return_false in Hb|].
      by apply build_layout_dirs_kept in Hb.
Qed.

End Failures.

Lemma scratch_directory_removed_on_success_only_witness :
  "images/library_redis_latest_amd64_temp"
  ∈ dirs (assemble (serving redis_routes_without_layer no_fault) "library/redis"
            "latest" "amd64" (auth_headers (JStr "t")) redis_manifest empty_disk).2.
Proof.
  assert (assemble (serving redis_routes_without_layer no_fault) "library/redis"
            "latest" "amd64" (auth_headers (JStr "t")) redis_manifest empty_disk
          = (Return false,
             (assemble (serving redis_routes_without_layer no_fault) "library/redis"
                "latest" "amd64" (auth_headers (JStr "t")) redis_manifest
                empty_disk).2)) as H
    by (vm_compute; reflexivity).
  exact (proj1 (proj2 (proj2 (proj2 (scratch_directory_removed_on_success_only
                                       (serving redis_routes_without_layer no_fault)
                                       "library/redis" "latest" "amd64")))
                  _ _ _ _ H)).
Defined.

(** C3, as the specification states it, fails: when writing the archive fails, the
    call raises and the scratch directory with its [manifest.json] is still
    on the disk; when a layer cannot be fetched, the call returns [False]
    and the scratch directory is still on the disk. *)
Lemma scratch_directory_left_behind :
  (let r := download_image (serving redis_routes archive_fails) "redis" "latest" None
              empty_disk in
   r.1 = Raises OSError
   ∧ "images/library_redis_latest_amd64_temp" ∈ dirs r.2
   ∧ files r.2 !! "images/library_redis_latest_amd64_temp/manifest.json"
     = Some (JsonText (podman_manifest "library/redis" "latest"
                         ["layer-1.tar.gz"; "layer-2.tar.gz"])))
  ∧ (let r := download_image (serving redis_routes_without_layer no_fault) "redis"
                "latest" None empty_disk in
     r.1 = Returns false
     ∧ "images/library_redis_latest_amd64_temp" ∈ dirs r.2).
Proof.
  repeat split;
    first [ vm_compute; reflexivity
          | apply (bool_decide_unpack _); vm_compute; reflexivity ].
Qed.

(** C1 does not hold of the code.  The manifest of the selected index entry
    is fetched outside any [try] (lines 86-92): when the registry answers
    404 there, [download_image] raises, the batch loop is left at its first
    entry, nothing is recorded as failed and the second entry, which would
    have succeeded, is never processed.  A failing [os.makedirs] (line 96)
    escapes in the same way. *)
Theorem platform_manifest_error_ends_batch :
  download_image (serving (ubuntu_routes ++ redis_routes) no_fault) "ubuntu" "latest"
    None empty_disk
  = (Raises (HTTPError 404), tick (tick (tick empty_disk)))
  ∧ batch (serving (ubuntu_routes ++ redis_routes) no_fault)
      ["ubuntu:latest" +:+ newline; "redis:latest" +:+ newline] empty_disk
    = (Traceback (HTTPError 404), [], tick (tick (tick empty_disk)))
  ∧ (batch (serving (ubuntu_routes ++ redis_routes) no_fault)
       ["redis:latest" +:+ newline] empty_disk).1
    = (Exit 0, [])
  ∧ (download_image (serving redis_routes (λ _, true)) "redis" "latest" None
       empty_disk).1
    = Raises OSError.
Proof. repeat split; vm_compute; reflexivity. Qed.

(** C2 does not hold of the code.  The config blob is fetched without
    [raise_for_status] (lines 108-114): when the registry answers 404, the
    body of the error response is written to [config.json], the call
    returns [True] and the archive holds that body as the config. *)
Theorem config_error_body_is_archived :
  http (serving redis_routes_without_config no_fault) 0
    {| url := blob_url "library/redis" "sha256:c0";
       headers := auth_headers (JStr "t"); timeout := None; stream := true |}
  = Some not_found
  ∧ (download_image (serving redis_routes_without_config no_fault) "redis" "latest"
       None empty_disk).1
    = Returns true
  ∧ ∃ members,
      files (download_image (serving redis_routes_without_config no_fault) "redis"
               "latest" None empty_disk).2
        !! "images/library_redis_latest_amd64.tar"
      = Some (TarFile members)
      ∧ ("./config.json", Bytes "{errors}") ∈ members.
Proof.
  split; [reflexivity|]. split; [vm_compute; reflexivity|].
  eexists. split; [vm_compute; reflexivity|]. repeat constructor.
Qed.

(** ** A manifest without config *)

Section NoConfig.
Context (w : world) (n t a : string) (hdrs : list (string * string)).

(** When the manifest has no config, nothing is written to [config.json]
    while the layout is built. *)
Lemma build_layout_config_kept manifest config :
  py_get manifest "config" (JDict []) = Ok config →
  py_bool config = false →
  steps (file_kept (output_dir n t a +:+ "/" +:+ "config.json"))
    (build_layout w n t a hdrs manifest).
Proof.
  intros Hc Hfalse.
  assert (∀ layers idx lf,
            steps (file_kept (output_dir n t a +:+ "/" +:+ "config.json"))
              (download_layers w n (output_dir n t a) hdrs layers idx lf)).
  { intros. apply download_layers_file_kept. intros j _.
    by apply scratch_file_ne. }
  unfold build_layout, download_config, write_layout_manifest, makedirs, open_w,
    json_dump.
  run_steps_with file_side; congruence.
Qed.

End NoConfig.

Section HealthyRun.
Context (w : world).
Hypothesis Hfs : ∀ n op, fs_fault w n op = false.

Lemma lift_Ok {A} (v : value A) a st : v = Ok a → lift v st = (Val a, st).
Proof. by intros ->. Qed.

Lemma fs_call_ok op st : fs_call w op st = (Val tt, fs_effect op (tick st)).
Proof. unfold fs_call. by rewrite Hfs. Qed.

Lemma requests_get_ok req resp st :
  http w (clock st) req = Some resp → requests_get w req st = (Val resp, tick st).
Proof. unfold requests_get. by intros ->. Qed.

Lemma raise_for_status_ok resp st :
  accepted resp → raise_for_status resp st = (Val tt, st).
Proof. unfold accepted, raise_for_status. by intros ->. Qed.

Lemma write_chunks_ok path cs st :
  ∃ st', write_chunks w path cs st = (Val tt, st').
Proof.
  revert st. induction cs as [|c cs IH]; intros st; simpl; [by eexists|].
  unfold f_write. rewrite (bind_Val _ _ _ _ _ (fs_call_ok _ _)). apply IH.
Qed.

Lemma save_body_ok path resp st :
  truncated resp = false → ∃ st', save_body w path resp st = (Val tt, st').
Proof.
  intros Ht. unfold save_body, open_w.
  rewrite (bind_Val _ _ _ _ _ (fs_call_ok _ _)).
  destruct (write_chunks_ok path (chunks resp) (fs_effect (OpenW path) (tick st)))
    as [st' H].
  rewrite (bind_Val _ _ _ _ _ H), Ht. by eexists.
Qed.

Lemma download_layers_ok repo dir hdrs layers idx layer_files st :
  Forall (layer_served w repo hdrs) layers →
  ∃ lf st', download_layers w repo dir hdrs layers idx layer_files st = (Val lf, st').
Proof.
  intros Hl. revert idx layer_files st.
  induction Hl as [|layer rest (digest & size & Hd & Hs & Hmb & Hresp) _ IH];
    intros idx layer_files st; simpl; [by do 2 eexists|].
  rewrite (bind_Val _ _ _ _ _ (lift_Ok _ _ _ Hd)).
  rewrite (bind_Val _ _ _ _ _ (lift_Ok _ _ _ Hs)).
  rewrite (bind_Val _ _ _ _ _ (lift_Ok _ _ _ Hmb)).
  destruct (Hresp (clock st)) as (resp & Hget & Hacc & Htr).
  destruct (save_body_ok (Py.path_join dir (layer_filename idx)) resp (tick st) Htr)
    as [st1 Hsave].
  erewrite bind_Val; [apply IH|].
  apply try_except_Val.
  rewrite (bind_Val _ _ _ _ _ (requests_get_ok _ _ _ Hget)).
  rewrite (bind_Val _ _ _ _ _ (raise_for_status_ok _ _ Hacc)). cbv zeta.
  by rewrite (bind_Val _ _ _ _ _ Hsave).
Qed.

Lemma build_layout_ok n t a hdrs manifest config layers items st :
  py_get manifest "config" (JDict []) = Ok config →
  py_bool config = false →
  py_get manifest "layers" (JList []) = Ok layers →
  py_iter layers = Ok items →
  Forall (layer_served w n hdrs) items →
  ∃ st', build_layout w n t a hdrs manifest st = (Val tt, st').
Proof.
  intros Hc Hfalse Hl Hi Hserved. unfold build_layout, makedirs. cbv zeta.
  rewrite (bind_Val _ _ _ _ _ (fs_call_ok _ _)).
  rewrite (bind_Val _ _ _ _ _ (fs_call_ok _ _)).
  erewrite bind_Val; cycle 1.
  { unfold download_config. rewrite (bind_Val _ _ _ _ _ (lift_Ok _ _ _ Hc)).
    by rewrite Hfalse. }
  rewrite (bind_Val _ _ _ _ _ (lift_Ok _ _ _ Hl)).
  assert (py_len layers = Ok (length items)) as Hlen by (unfold py_len; by rewrite Hi).
  rewrite (bind_Val _ _ _ _ _ (lift_Ok _ _ _ Hlen)).
  rewrite (bind_Val _ _ _ _ _ (lift_Ok _ _ _ Hi)).
  edestruct download_layers_ok as (lf & st1 & Hlayers); [exact Hserved|].
  rewrite (bind_Val _ _ _ _ _ Hlayers).
  unfold write_layout_manifest, open_w, json_dump. cbv zeta.
  rewrite (bind_Val _ _ _ _ _ (fs_call_ok _ _)). rewrite fs_call_ok. by eexists.
Qed.

Lemma archive_and_cleanup_ok n t a st :
  ∃ st', archive_and_cleanup w n t a st = (Return true, st').
Proof.
  unfold archive_and_cleanup, tar_create, rmtree.
  erewrite bind_Val; cycle 1.
  { rewrite (bind_Val _ _ _ _ _ (fs_call_ok _ _)). apply fs_call_ok. }
  rewrite (bind_Val _ _ _ _ _ (fs_call_ok _ _)). by eexists.
Qed.

End HealthyRun.

(** C9, as the code has it: when the manifest the assembly works on has no
    config (the key is absent, or its value is empty), the layers are served
    and the disk does not fail, [download_image] returns [True]; the
    [manifest.json] in the archive names [config.json] as its [Config]; and
    nothing was written to [config.json]: the archive has such a member
    exactly when that file was already lying in the scratch directory before
    the call, so that on a fresh scratch directory the archive has no
    [config.json] at all. *)
Theorem missing_config_still_named (w : world) (image_name tag : string)
    (tp : option string) (st st1 : state) (os_name arch : string)
    (hdrs : list (string * string)) (manifest config layers : json)
    (items : list json) :
  select_platform w tp = Ok (os_name, arch) →
  fetch_manifest w (normalize image_name) tag os_name arch st
  = (Val (hdrs, manifest), st1) →
  py_get manifest "config" (JDict []) = Ok config →
  py_bool config = false →
  py_get manifest "layers" (JList []) = Ok layers →
  py_iter layers = Ok items →
  Forall (layer_served w (normalize image_name) hdrs) items →
  (∀ n op, fs_fault w n op = false) →
  ∃ st' members,
    download_image w image_name tag tp st = (Returns true, st')
    ∧ files st' !! tar_filename (normalize image_name) tag arch = Some (TarFile members)
    ∧ (∀ d, ("./manifest.json", d) ∈ members
          ↔ d = JsonText
                  (JList [ JDict
                    [ ("Config", JStr "config.json");
                      ("RepoTags", JList [JStr (normalize image_name +:+ ":" +:+ tag)]);
                      ("Layers",
                       JList (map (λ i, JStr ("layer-" +:+ pretty i +:+ ".tar.gz"))
                                (seq 1 (length items)))) ] ]))
    ∧ (∀ d, ("./config.json", d) ∈ members
          ↔ files st !! (output_dir (normalize image_name) tag arch
                         +:+ "/" +:+ "config.json") = Some d)
    ∧ (files st !! (output_dir (normalize image_name) tag arch
                    +:+ "/" +:+ "config.json") = None →
       ∀ d, ("./config.json", d) ∉ members).
Proof.
  intros Hp Hm Hc Hfalse Hl Hi Hserved Hfs.
  destruct (build_layout_ok w Hfs (normalize image_name) tag arch hdrs manifest
              config layers items st1 Hc Hfalse Hl Hi Hserved) as [s2 Hb].
  destruct (archive_and_cleanup_ok w Hfs (normalize image_name) tag arch s2)
    as [st' Ha].
  assert (download_image w image_name tag tp st = (Returns true, st')) as Hrun.
  { unfold download_image, download_image_body. cbv zeta.
    rewrite (bind_Val _ _ _ _ _ (lift_Ok _ _ _ Hp)).
    rewrite (bind_Val _ _ _ _ _ Hm). unfold assemble.
    by rewrite (bind_Val _ _ _ _ _ Hb), Ha. }
  pose proof (build_layout_config_kept w _ _ _ _ _ _ Hc Hfalse _ _ _ Hb) as Hkept.
  pose proof (fetch_manifest_disk_kept w _ _ _ _ _ _ _ Hm) as [_ Hdisk].
  unfold file_kept in Hkept. rewrite Hdisk in Hkept.
  apply build_layout_inv in Hb as (layers' & items' & Hl' & Hi' & Hfile & _).
  assert (items' = items) as -> by congruence.
  apply archive_success in Ha as (_ & _ & members & Htar & Hmem).
  assert (∀ d, ("./config.json", d) ∈ members
             ↔ files st !! (output_dir (normalize image_name) tag arch
                            +:+ "/" +:+ "config.json") = Some d) as Hconfig.
  { intros d. rewrite Hmem, <- Hkept. split.
    - intros (rel & Hrel & Hd).
      change ("./" +:+ rel) with (String "." (String "/" rel)) in Hrel.
      by injection Hrel as <-.
    - intros Hd. by exists "config.json". }
  exists st', members. repeat (split; [done|]). split; [|split; [done|]].
  - intros d. rewrite Hmem. split.
    + intros (rel & Hrel & Hd).
      change ("./" +:+ rel) with (String "." (String "/" rel)) in Hrel.
      injection Hrel as <-. rewrite Hfile in Hd. injection Hd as <-.
      unfold podman_manifest. by rewrite map_map.
    + intros ->. exists "manifest.json". split; [done|]. rewrite Hfile.
      unfold podman_manifest. by rewrite map_map.
  - intros Hnone d Hd. apply Hconfig in Hd. congruence.
Qed.

Lemma missing_config_still_named_witness :
  ∃ st' members,
    download_image (serving nginx_routes no_fault) "nginx" "latest" None empty_disk
    = (Returns true, st')
    ∧ files st' !! tar_filename (normalize "nginx") "latest" "amd64"
      = Some (TarFile members)
    ∧ (∀ d, ("./manifest.json", d) ∈ members
          ↔ d = JsonText
                  (JList [ JDict
                    [ ("Config", JStr "config.json");
                      ("RepoTags", JList [JStr (normalize "nginx" +:+ ":" +:+ "latest")]);
                      ("Layers",
                       JList (map (λ i, JStr ("layer-" +:+ pretty i +:+ ".tar.gz"))
                                (seq 1 (length [JDict [("digest", JStr "sha256:n1");
                                                       ("size", JInt 2)]])))) ] ]))
    ∧ (∀ d, ("./config.json", d) ∈ members
          ↔ files empty_disk !! (output_dir (normalize "nginx") "latest" "amd64"
                                 +:+ "/" +:+ "config.json") = Some d)
    ∧ (files empty_disk !! (output_dir (normalize "nginx") "latest" "amd64"
                            +:+ "/" +:+ "config.json") = None →
       ∀ d, ("./config.json", d) ∉ members).
Proof.
  apply (missing_config_still_named (serving nginx_routes no_fault) "nginx" "latest"
           None empty_disk (tick (tick empty_disk)) "linux" "amd64"
           (auth_headers (JStr "t")) nginx_manifest (JDict [])
           (JList [JDict [("digest", JStr "sha256:n1"); ("size", JInt 2)]])
           [JDict [("digest", JStr "sha256:n1"); ("size", JInt 2)]]);
    try reflexivity.
  constructor; [|constructor].
  exists (JStr "sha256:n1"), (JInt 2). repeat split; try reflexivity.
  intros n. eexists. repeat split; reflexivity.
Defined.

(** C9, as the specification states it, fails: the file that [manifest.json]
    names need not be absent from the archive.  A first call for [redis], on
    a manifest with a config, writes [config.json] and returns [False] at its
    second layer, leaving the scratch directory (line 101 takes it as it is
    on the next call).  The tag is then published without config: the second
    call works on a manifest without config, writes no [config.json],
    returns [True], and its archive holds the [config.json] of the first
    call beside the [manifest.json] that names it. *)
Lemma stale_config_is_archived :
  (let first := download_image republishing "redis" "latest" None empty_disk in
   first.1 = Returns false
   ∧ files first.2 !! "images/library_redis_latest_amd64_temp/config.json"
     = Some (Bytes "{cfg}"))
  ∧ (let first := download_image republishing "redis" "latest" None empty_disk in
     (fetch_manifest republishing (normalize "redis") "latest" "linux" "amd64"
        first.2).1
     = Val (auth_headers (JStr "t"), redis_manifest_without_config)
     ∧ py_get redis_manifest_without_config "config" (JDict []) = Ok (JDict [])
     ∧ py_bool (JDict []) = false)
  ∧ (let first := download_image republishing "redis" "latest" None empty_disk in
     let second := download_image republishing "redis" "latest" None first.2 in
     second.1 = Returns true
     ∧ ∃ members,
         files second.2 !! "images/library_redis_latest_amd64.tar"
         = Some (TarFile members)
         ∧ ("./manifest.json",
            JsonText (podman_manifest "library/redis" "latest" ["layer-1.tar.gz"]))
           ∈ members
         ∧ ("./config.json", Bytes "{cfg}") ∈ members).
Proof.
  split; [|split].
  - split; vm_compute; reflexivity.
  - repeat split; vm_compute; reflexivity.
  - split; [vm_compute; reflexivity|].
    eexists. split; [vm_compute; reflexivity|]. split; repeat constructor.
Qed.

(** * Further properties *)

(** ** More on strings *)

Section MoreStringFacts.

Lemma startswith_nil s : Py.startswith s "" = true.
Proof. by destruct s. Qed.

Lemma count_app c s t : Py.count c (s +:+ t) = Py.count c s + Py.count c t.
Proof.
  induction s as [|a s IH]; [done|]. rewrite sapp_cons. simpl. rewrite IH. lia.
Qed.

Lemma contains_char c s : Py.contains s (String c "") = true ↔ 0 < Py.count c s.
Proof.
  induction s as [|a s IH]; simpl; [split; [done|lia]|].
  destruct (decide (c = a)) as [->|Hne].
  - rewrite startswith_nil, decide_True by done. simpl. split; [lia|done].
  - rewrite decide_False by done. simpl. exact IH.
Qed.

Lemma split_two_inv c s a b :
  Py.split c s = [a; b] → s = a +:+ String c b ∧ Py.count c a = 0 ∧ Py.count c b = 0.
Proof.
  revert a. induction s as [|x s IH]; intros a H; simpl in H; [done|].
  destruct (decide (x = c)) as [->|Hne].
  - injection H as <- H.
    assert (Py.count c s = 0) as Hc.
    { pose proof (split_length c s) as Hl. rewrite H in Hl. simpl in Hl. lia. }
    rewrite split_no_sep in H by done. by injection H as <-.
  - destruct (Py.split c s) as [|h t] eqn:Hs; [done|].
    injection H as <- ->. destruct (IH h eq_refl) as (-> & Hh & Hb).
    split; [done|]. split; [|done]. simpl. by rewrite decide_False.
Qed.

Lemma rsplit1_None c s : Py.rsplit1 c s = None ↔ Py.count c s = 0.
Proof.
  induction s as [|a s IH]; simpl; [done|].
  destruct (Py.rsplit1 c s) as [[h t]|].
  - split; [done|]. intros H. assert (Py.count c s = 0) as Hs by lia.
    by apply IH in Hs.
  - destruct (decide (a = c)); [split; [done|lia]|].
    split; [|done]. intros _. by apply IH.
Qed.

Lemma rsplit1_Some c s h t :
  Py.rsplit1 c s = Some (h, t) → s = h +:+ String c t ∧ Py.count c t = 0.
Proof.
  revert h. induction s as [|a s IH]; intros h H; simpl in H; [done|].
  destruct (Py.rsplit1 c s) as [[h' t']|] eqn:Hs.
  - injection H as <- <-. destruct (IH h' eq_refl) as [-> Ht]. done.
  - destruct (decide (a = c)) as [->|]; [|done]. injection H as <- <-.
    split; [done|]. by apply rsplit1_None.
Qed.

Lemma count_replace c d s : c ≠ d → Py.count c (Py.replace c d s) = 0.
Proof.
  intros Hne. induction s as [|a s IH]; [done|]. simpl. rewrite IH.
  destruct (decide (a = c)); by rewrite decide_False.
Qed.

Lemma replace_absent c d s : Py.count c s = 0 → Py.replace c d s = s.
Proof.
  induction s as [|a s IH]; [done|]. simpl.
  destruct (decide (a = c)); [done|]. intros H. by rewrite IH.
Qed.

End MoreStringFacts.

(** ** Normalisation, platform and names *)

(** X1. Normalising a name twice is the same as normalising it once: the
    name [download_image] asks the registry for is left as it is when it is
    passed in again. *)
Theorem normalize_idempotent (name : string) :
  normalize (normalize name) = normalize name.
Proof.
  destruct (Py.contains name "/") eqn:Hc.
  - assert (normalize name = name) as H by (unfold normalize; by rewrite Hc).
    by rewrite !H.
  - destruct (decide (name ∈ official_images)) as [Hin|Hin].
    + assert (normalize name = "library/" +:+ name) as ->.
      { unfold normalize. rewrite Hc. simpl. by rewrite bool_decide_eq_true_2. }
      unfold normalize.
      assert (Py.contains ("library/" +:+ name) "/" = true) as ->; [|done].
      apply contains_char.
      change ("library/" +:+ name) with ("library" +:+ String "/" name).
      rewrite count_app. simpl. lia.
    + assert (normalize name = name) as H.
      { unfold normalize. rewrite Hc. simpl. by rewrite bool_decide_eq_false_2. }
      by rewrite !H.
Qed.

(** X2. An explicit platform string that is not empty is accepted exactly
    when it is [<os>/<architecture>] with no further separator, and the two
    names used are the two parts: joining them with the separator gives the
    string back. *)
Theorem explicit_platform_parts (w : world) (tp os_name arch : string) :
  tp ≠ "" →
  select_platform w (Some tp) = Ok (os_name, arch)
  ↔ tp = os_name +:+ "/" +:+ arch
    ∧ Py.count "/" os_name = 0 ∧ Py.count "/" arch = 0.
Proof.
  intros Hne. unfold select_platform. rewrite bool_decide_eq_false_2 by done.
  simpl negb. cbv iota. split.
  - destruct (Py.split "/" tp) as [|a [|b [|c l]]] eqn:Hs; try done.
    intros [= <- <-]. by apply split_two_inv in Hs.
  - intros (-> & Ho & Ha).
    change (os_name +:+ "/" +:+ arch) with (os_name +:+ String "/" arch).
    by rewrite split_one_sep.
Qed.

Lemma explicit_platform_parts_witness :
  select_platform offline (Some "linux/arm64") = Ok ("linux", "arm64")
  ↔ "linux/arm64" = "linux" +:+ "/" +:+ "arm64"
    ∧ Py.count "/" "linux" = 0 ∧ Py.count "/" "arm64" = 0.
Proof. apply (explicit_platform_parts offline "linux/arm64" "linux" "arm64"). done. Defined.

(** X3. When neither the tag nor the architecture holds a separator, the
    scratch directory and the archive lie directly in [images]: the
    separators of the repository name are replaced, so that no directory is
    nested below [images] for the namespace of the repository.  The two names
    only depend on the repository name up to that replacement. *)
Theorem names_lie_in_images (image_name tag arch : string) :
  Py.count "/" tag = 0 → Py.count "/" arch = 0 →
  ∃ d f,
    output_dir image_name tag arch = "images/" +:+ d
    ∧ tar_filename image_name tag arch = "images/" +:+ f
    ∧ Py.count "/" d = 0 ∧ Py.count "/" f = 0
    ∧ output_dir (Py.replace "/" "_" image_name) tag arch
      = output_dir image_name tag arch
    ∧ tar_filename (Py.replace "/" "_" image_name) tag arch
      = tar_filename image_name tag arch.
Proof.
  intros Ht Ha.
  exists (Py.replace "/" "_" image_name +:+ "_" +:+ tag +:+ "_" +:+ arch +:+ "_temp"),
         (Py.replace "/" "_" image_name +:+ "_" +:+ tag +:+ "_" +:+ arch +:+ ".tar").
  rewrite !output_dir_eq, !tar_filename_eq. unfold image_base.
  rewrite (replace_absent "/" "_" (Py.replace _ _ _)) by (by apply count_replace).
  rewrite !sapp_assoc, !count_app, count_replace, Ht, Ha by done.
  repeat split; reflexivity.
Qed.

Lemma names_lie_in_images_witness :
  ∃ d f,
    output_dir "bitnami/redis" "7" "amd64" = "images/" +:+ d
    ∧ tar_filename "bitnami/redis" "7" "amd64" = "images/" +:+ f
    ∧ Py.count "/" d = 0 ∧ Py.count "/" f = 0
    ∧ output_dir (Py.replace "/" "_" "bitnami/redis") "7" "amd64"
      = output_dir "bitnami/redis" "7" "amd64"
    ∧ tar_filename (Py.replace "/" "_" "bitnami/redis") "7" "amd64"
      = tar_filename "bitnami/redis" "7" "amd64".
Proof. apply (names_lie_in_images "bitnami/redis" "7" "amd64"); reflexivity. Defined.

(** ** The scan of an index, in full *)

Lemma select_manifest_cons os_name arch m rest :
  select_manifest (m :: rest) os_name arch
  = if is_index_entry m then
      if entry_matches os_name arch m then Ok m
      else select_manifest rest os_name arch
    else Err AttributeError.
Proof.
  destruct m as [| | | |?|es]; try done. simpl.
  destruct (dict_get es "platform") as [[| | | |?|ps]|]; try done. simpl.
  destruct (dict_get ps "os") as [[| | |o|?|?]|]; try done. simpl.
  destruct (dict_get ps "architecture") as [[| | |a|?|?]|];
    destruct (bool_decide (o = os_name)); try done.
Qed.

(** X4. Whatever the entries of an index are, what the scan selects is an
    entry of the index that names the platform, with no such entry before
    it; and when it selects nothing, no entry names the platform. *)
Theorem select_manifest_selects_first_match (entries : list json)
    (os_name arch : string) (m : json) :
  select_manifest entries os_name arch = Ok m →
  (m = JNull ∧ Forall (other_entry os_name arch) entries)
  ∨ (∃ pre post,
       entries = pre ++ m :: post
       ∧ Forall (other_entry os_name arch) pre
       ∧ entry_matches os_name arch m = true).
Proof.
  induction entries as [|e rest IH]; [intros [= <-]; by left|].
  rewrite select_manifest_cons.
  destruct (is_index_entry e) eqn:Hwf; [|done].
  destruct (entry_matches os_name arch e) eqn:He.
  - intros [= <-]. right. by exists [], rest.
  - intros [[-> Hall]|(pre & post & -> & Hpre & Hm)]%IH.
    + left. split; [done|]. by constructor.
    + right. exists (e :: pre), post. split; [done|]. split; [|done].
      by constructor.
Qed.

Lemma select_manifest_selects_first_match_witness :
  (index_entry "linux" "arm64" "sha256:arm" = JNull
   ∧ Forall (other_entry "linux" "arm64") ubuntu_entries)
  ∨ (∃ pre post,
       ubuntu_entries = pre ++ index_entry "linux" "arm64" "sha256:arm" :: post
       ∧ Forall (other_entry "linux" "arm64") pre
       ∧ entry_matches "linux" "arm64" (index_entry "linux" "arm64" "sha256:arm") = true).
Proof.
  apply (select_manifest_selects_first_match ubuntu_entries "linux" "arm64").
  reflexivity.
Defined.

(** X5. The scan of an index raises only [AttributeError], and exactly when
    an entry that is not an object, or whose [platform] is not an object, is
    met before any entry that names the platform; entries after the selected
    one are not looked at. *)
Theorem select_manifest_raises (entries : list json) (os_name arch : string)
    (e : exn) :
  select_manifest entries os_name arch = Err e
  ↔ e = AttributeError
    ∧ ∃ pre bad post,
        entries = pre ++ bad :: post
        ∧ Forall (other_entry os_name arch) pre
        ∧ is_index_entry bad = false.
Proof.
  split.
  - induction entries as [|x rest IH]; [done|]. rewrite select_manifest_cons.
    destruct (is_index_entry x) eqn:Hwf.
    + destruct (entry_matches os_name arch x) eqn:Hx; [done|].
      intros (-> & pre & bad & post & -> & Hpre & Hbad)%IH. split; [done|].
      exists (x :: pre), bad, post. split; [done|]. split; [|done].
      by constructor.
    + intros [= <-]. split; [done|]. by exists [], x, rest.
  - intros (-> & pre & bad & post & -> & Hpre & Hbad).
    induction Hpre as [|x pre Hx _ IH]; simpl app.
    + by rewrite select_manifest_cons, Hbad.
    + by rewrite select_manifest_skip.
Qed.

(** ** Batch mode *)

Lemma batch_loop_cons w line rest failed st :
  batch_loop w (line :: rest) failed st
  = match batch_entry line with
    | Some (name, tag) =>
        match download_image w name tag None st with
        | (Returns ok, st') =>
            batch_loop w rest
              (if ok then failed else failed ++ [name +:+ ":" +:+ tag]) st'
        | (Raises e, st') => (inl e, st')
        end
    | None => batch_loop w rest failed st
    end.
Proof.
  simpl. unfold batch_entry. destruct (_ && _); [|done].
  by destruct (default _ _).
Qed.

(** The entries recorded before the loop starts stay in front. *)
Lemma batch_loop_failed w lines failed st :
  batch_loop w lines failed st
  = match batch_loop w lines [] st with
    | (inr more, st') => (inr (failed ++ more), st')
    | (inl e, st') => (inl e, st')
    end.
Proof.
  revert failed st. induction lines as [|line rest IH]; intros failed st.
  - simpl. by rewrite app_nil_r.
  - rewrite !batch_loop_cons. destruct (batch_entry line) as [[name tag]|]; [|apply IH].
    destruct (download_image w name tag None st) as [[[]|e] st1]; [| |done].
    + apply IH.
    + rewrite IH. rewrite (IH ([] ++ [_])).
      destruct (batch_loop w rest [] st1) as [[e|more] st2]; [done|].
      by rewrite <- app_assoc.
Qed.

Lemma batch_loop_app w l1 l2 failed st :
  batch_loop w (l1 ++ l2) failed st
  = match batch_loop w l1 failed st with
    | (inr failed1, st1) => batch_loop w l2 failed1 st1
    | (inl e, st1) => (inl e, st1)
    end.
Proof.
  revert failed st. induction l1 as [|line rest IH]; intros failed st; [done|].
  rewrite <- app_comm_cons, !batch_loop_cons.
  destruct (batch_entry line) as [[name tag]|]; [|apply IH].
  destruct (download_image w name tag None st) as [[ok|e] st1]; [apply IH|done].
Qed.

Lemma batch_loop_calls w lines failed st :
  match batch_loop w lines failed st with
  | (inr failed', _) =>
      Forall (λ c, raised c = false) (batch_calls w lines st)
      ∧ failed' = failed ++ map failed_key
                             (List.filter returned_false (batch_calls w lines st))
  | (inl e, _) =>
      ∃ name tag, last (batch_calls w lines st) = Some (name, tag, Raises e)
  end.
Proof.
  revert failed st. induction lines as [|line rest IH]; intros failed st.
  - simpl. by rewrite app_nil_r.
  - rewrite batch_loop_cons. simpl batch_calls.
    destruct (batch_entry line) as [[name tag]|]; [|apply IH].
    destruct (download_image w name tag None st) as [[ok|e] st1]; [|by exists name, tag].
    specialize (IH (if ok then failed else failed ++ [name +:+ ":" +:+ tag]) st1).
    destruct (batch_loop w rest _ st1) as [[e|failed'] st2].
    + destruct IH as (name' & tag' & IH). exists name', tag'.
      rewrite last_cons, IH. done.
    + destruct IH as [Hall ->]. split; [by constructor|].
      destruct ok; simpl; [done|]. by rewrite <- app_assoc.
Qed.

Lemma last_call_raises (calls : list (string * string * outcome)) name tag e :
  last calls = Some (name, tag, Raises e) →
  ¬ Forall (λ c, raised c = false) calls.
Proof.
  intros [l' ->]%last_Some [_ Hall]%Forall_app.
  rewrite Forall_singleton in Hall. discriminate Hall.
Qed.

(** X6. A batch file that holds only blank lines and comment lines is gone
    through without any call: the run exits with code 0 and neither the
    registry nor the disk is touched. *)
Theorem comment_lines_are_skipped (w : world) (lines : list string) (st : state) :
  Forall (λ line, Py.strip line = "" ∨ Py.startswith (Py.strip line) "#" = true) lines →
  batch w lines st = (Exit 0, [], st).
Proof.
  intros Hall. unfold batch.
  assert (batch_loop w lines [] st = (inr [], st)) as ->; [|done].
  induction Hall as [|line rest Hline _ IH]; [done|].
  rewrite batch_loop_cons. unfold batch_entry.
  destruct Hline as [->| ->]; [done|]. by rewrite andb_false_r.
Qed.

Lemma comment_lines_are_skipped_witness :
  batch offline ["# images to mirror" +:+ newline; newline; "   " +:+ newline]
    empty_disk
  = (Exit 0, [], empty_disk).
Proof.
  apply comment_lines_are_skipped.
  constructor; [right; reflexivity|].
  constructor; [left; reflexivity|].
  constructor; [left; reflexivity|]. constructor.
Defined.

(** X7. What a batch run reports, in terms of the calls it makes: it ends
    with a traceback exactly when its last call raises; otherwise the
    entries it lists as failed are those of the calls that returned [False],
    as [<name>:<tag>] and in the order of the file, and the exit code is 0
    exactly when every call returned [True], and 1 otherwise. *)
Theorem batch_reports_false_returns (w : world) (lines : list string) (st : state) :
  let calls := batch_calls w lines st in
  (∀ e, (batch w lines st).1.1 = Traceback e
        ↔ ∃ name tag, last calls = Some (name, tag, Raises e))
  ∧ (Forall (λ c, raised c = false) calls →
     (batch w lines st).1.2 = map failed_key (List.filter returned_false calls)
     ∧ (batch w lines st).1.1
       = if existsb returned_false calls then Exit 1 else Exit 0)
  ∧ ((batch w lines st).1.1 = Exit 0 ↔ Forall (λ c, c.2 = Returns true) calls).
Proof.
  intros calls. unfold batch. pose proof (batch_loop_calls w lines [] st) as H.
  fold calls in H. destruct (batch_loop w lines [] st) as [[e|failed] st1].
  - destruct H as (name & tag & Hlast). simpl. split; [|split].
    + intros e'. split.
      * intros [= <-]. by exists name, tag.
      * intros (name' & tag' & H'). congruence.
    + intros Hall. by apply last_call_raises in Hlast.
    + split; [done|]. intros Hall. apply last_call_raises in Hlast.
      destruct Hlast. eapply Forall_impl; [exact Hall|].
      intros c Hc. unfold raised. by rewrite Hc.
  - destruct H as [Hall ->]. simpl.
    assert (∀ l : list (string * string * outcome),
              bool_decide (map failed_key (List.filter returned_false l) = [])
              = negb (existsb returned_false l)) as Hempty.
    { induction l as [|c l IHl]; [done|]. simpl.
      destruct (returned_false c); [done|]. exact IHl. }
    rewrite !Hempty, !negb_involutive.
    split; [|split].
    + intros e. split; [by case_match|]. intros (name & tag & Hlast).
      by apply last_call_raises in Hlast.
    + intros _. split; [done|]. by destruct (existsb returned_false calls).
    + destruct (existsb returned_false calls) eqn:Hex.
      * split; [done|]. intros Htrue. apply existsb_exists in Hex as (c & Hc & Hf).
        apply list_elem_of_In in Hc.
        rewrite Forall_forall in Htrue. specialize (Htrue c Hc).
        unfold returned_false in Hf. by rewrite Htrue in Hf.
      * split; [|done]. intros _. apply Forall_forall. intros c Hc.
        rewrite Forall_forall in Hall. specialize (Hall c Hc).
        assert (returned_false c = false) as Hf.
        { apply not_true_is_false. intros Hf.
          assert (existsb returned_false calls = true); [|congruence].
          apply existsb_exists. exists c. split; [|done].
          by apply list_elem_of_In. }
        unfold raised in Hall. unfold returned_false in Hf.
        by destruct (c.2) as [[]|].
Qed.

(** X8. A batch file gone through in two parts, one run after the other,
    gives what one run over the whole file gives: the failed entries of the
    first part followed by those of the second, the state the second run
    ends in, and exit code 1 as soon as one of the two runs exits with 1; a
    traceback in the first part is the end of the whole run. *)
Theorem batch_in_two_parts (w : world) (l1 l2 : list string) (st : state) :
  batch w (l1 ++ l2) st
  = match batch w l1 st with
    | (Exit c1, failed1, st1) =>
        match batch w l2 st1 with
        | (Exit c2, failed2, st2) => (Exit (Z.max c1 c2), failed1 ++ failed2, st2)
        | (Traceback e, _, st2) => (Traceback e, [], st2)
        end
    | (Traceback e, _, st1) => (Traceback e, [], st1)
    end.
Proof.
  unfold batch. rewrite batch_loop_app.
  destruct (batch_loop w l1 [] st) as [[e|failed1] st1]; [done|].
  rewrite batch_loop_failed.
  destruct (batch_loop w l2 [] st1) as [[e|failed2] st2].
  - by destruct failed1.
  - by destruct failed1, failed2.
Qed.

(** X9. The image and the tag a line of the batch file stands for: the line
    without the white space around it is split at its last colon, so the tag
    holds no colon and [<name>:<tag>], the text recorded for a failure, is
    that line again; a line without a colon stands for the tag [latest]. *)
Theorem batch_entry_parts (line name tag : string) :
  batch_entry line = Some (name, tag) →
  Py.strip line ≠ ""
  ∧ Py.startswith (Py.strip line) "#" = false
  ∧ Py.count ":" tag = 0
  ∧ (if decide (Py.count ":" (Py.strip line) = 0)
     then name = Py.strip line ∧ tag = "latest"
     else name +:+ ":" +:+ tag = Py.strip line).
Proof.
  unfold batch_entry. cbv zeta.
  case_bool_decide as Hne; [done|]. simpl.
  destruct (Py.startswith (Py.strip line) "#") eqn:Hc; [done|]. simpl.
  intros [= H]. split; [done|]. split; [done|].
  destruct (Py.rsplit1 ":" (Py.strip line)) as [[h t]|] eqn:Hr; simpl in H.
  - injection H as -> ->. apply rsplit1_Some in Hr as [Hr Ht]. split; [done|].
    rewrite decide_False; [done|]. rewrite Hr at 1. rewrite count_app. simpl. lia.
  - injection H as <- <-. apply rsplit1_None in Hr. split; [done|].
    by rewrite decide_True.
Qed.

Lemma batch_entry_parts_witness :
  Py.strip ("  localhost:5000/redis:7 " +:+ newline) ≠ ""
  ∧ Py.startswith (Py.strip ("  localhost:5000/redis:7 " +:+ newline)) "#" = false
  ∧ Py.count ":" "7" = 0
  ∧ (if decide (Py.count ":" (Py.strip ("  localhost:5000/redis:7 " +:+ newline)) = 0)
     then "localhost:5000/redis" = Py.strip ("  localhost:5000/redis:7 " +:+ newline)
          ∧ "7" = "latest"
     else "localhost:5000/redis" +:+ ":" +:+ "7"
          = Py.strip ("  localhost:5000/redis:7 " +:+ newline)).
Proof.
  apply (batch_entry_parts ("  localhost:5000/redis:7 " +:+ newline)
           "localhost:5000/redis" "7").
  reflexivity.
Defined.

(** ** The token and the manifest *)

(** X10. The token is asked for once, whatever the answer.  The step never
    raises: it yields the [token] field of the answer when the request gets
    through, the status is accepted and the body is a JSON object with that
    field, and leaves [download_image] by [return False] in every other
    case. *)
Theorem token_request_outcome (w : world) (repo : string) (st : state) :
  ∃ r, get_token w repo st = (r, tick st)
       ∧ match r with
         | Val token =>
             ∃ resp body,
               http w (clock st) (token_request repo) = Some resp
               ∧ accepted resp ∧ json_body resp = Some body
               ∧ py_getitem body "token" = Ok token
         | Return b =>
             b = false
             ∧ ¬ ∃ resp body token,
                   http w (clock st) (token_request repo) = Some resp
                   ∧ accepted resp ∧ json_body resp = Some body
                   ∧ py_getitem body "token" = Ok token
         | Raise _ => False
         end.
Proof.
  unfold get_token, try_except, bind, requests_get, raise_for_status, response_json,
    lift, accepted, token_request, ret, raise, return_.
  destruct (http w (clock st) _) as [resp|] eqn:Hget.
  - destruct ((400 <=? status_code resp)%Z && (status_code resp <? 600)%Z) eqn:Hst.
    { eexists. split; [reflexivity|]. split; [done|].
      intros (resp' & body & token & [= <-] & Hacc & _). congruence. }
    destruct (json_body resp) as [body|] eqn:Hbody.
    + destruct (py_getitem body "token") as [token|e] eqn:Htoken.
      * eexists. split; [reflexivity|]. by exists resp, body.
      * eexists. split; [reflexivity|]. split; [done|].
        intros (resp' & body' & token & [= <-] & _ & Hb & Ht). congruence.
    + eexists. split; [reflexivity|]. split; [done|].
      intros (resp' & body' & token & [= <-] & _ & Hb & _). congruence.
  - eexists. split; [reflexivity|]. split; [done|].
    intros (resp' & body' & token & [=] & _).
Qed.

(** X11. The manifest of the tag is asked for once, with the headers that
    carry the token.  The step never raises: it yields the decoded body when
    the request gets through, the status is accepted and the body is JSON,
    and leaves [download_image] by [return False] in every other case. *)
Theorem manifest_request_outcome (w : world) (repo tag : string)
    (hdrs : list (string * string)) (st : state) :
  ∃ r, get_manifest w repo tag hdrs st = (r, tick st)
       ∧ match r with
         | Val manifest =>
             ∃ resp,
               http w (clock st) (manifest_request repo tag hdrs) = Some resp
               ∧ accepted resp ∧ json_body resp = Some manifest
         | Return b =>
             b = false
             ∧ ¬ ∃ resp manifest,
                   http w (clock st) (manifest_request repo tag hdrs) = Some resp
                   ∧ accepted resp ∧ json_body resp = Some manifest
         | Raise _ => False
         end.
Proof.
  unfold get_manifest, try_except, bind, requests_get, raise_for_status,
    response_json, accepted, manifest_request, ret, raise, return_.
  destruct (http w (clock st) _) as [resp|] eqn:Hget.
  - destruct ((400 <=? status_code resp)%Z && (status_code resp <? 600)%Z) eqn:Hst.
    { eexists. split; [reflexivity|]. split; [done|].
      intros (resp' & body & [= <-] & Hacc & _). congruence. }
    destruct (json_body resp) as [body|] eqn:Hbody.
    + eexists. split; [reflexivity|]. by exists resp.
    + eexists. split; [reflexivity|]. split; [done|].
      intros (resp' & body' & [= <-] & _ & Hb). congruence.
  - eexists. split; [reflexivity|]. split; [done|].
    intros (resp' & body' & [=] & _).
Qed.

(** ** Before the assembly *)

(** X12. Nothing is written before the manifest the assembly works on is
    known: a call that ends without that manifest (the platform string is
    malformed, the token or the manifest cannot be had, the index has no
    entry for the platform, or the manifest of the entry cannot be had)
    does not return [True] and leaves every file and directory as it was. *)
Theorem nothing_written_before_assembly (w : world) (image_name tag : string)
    (tp : option string) (st st' : state) (o : outcome) :
  download_image w image_name tag tp st = (o, st') →
  (∀ os_name arch hdrs manifest st1,
     select_platform w tp = Ok (os_name, arch) →
     fetch_manifest w (normalize image_name) tag os_name arch st
     ≠ (Val (hdrs, manifest), st1)) →
  o ≠ Returns true ∧ dirs st' = dirs st ∧ files st' = files st.
Proof.
  intros H Hno. split.
  - intros ->. apply download_image_success in H
      as (os_name & arch & hdrs & manifest & st1 & _ & Hp & Hm & _).
    by eapply Hno.
  - unfold download_image in H.
    destruct (download_image_body _ _ _ _ _) as [[[]|b|e] s] eqn:Hb;
      injection H as _ <-; unfold download_image_body in Hb; cbv zeta in Hb.
    + apply bind_inv in Hb as [([os_name arch] & s1 & Hp & Hb)|[(b' & _ & Hp)|(e & [=] & _)]].
      * unfold lift in Hp. destruct (select_platform w tp) as [[??]|] eqn:Hsel; [|done].
        injection Hp as -> -> <-.
        apply bind_inv in Hb as [([hdrs manifest] & s2 & Hm & Hb)|[(b' & _ & Hm)|(e & [=] & _)]].
        -- by eapply Hno in Hm.
        -- by apply fetch_manifest_disk_kept in Hm.
      * unfold lift in Hp. by destruct (select_platform w tp).
    + apply bind_inv in Hb as [([os_name arch] & s1 & Hp & Hb)|[(b' & [=] & _)|(e' & _ & Hp)]].
      * unfold lift in Hp. destruct (select_platform w tp) as [[??]|] eqn:Hsel; [|done].
        injection Hp as -> -> <-.
        apply bind_inv in Hb as [([hdrs manifest] & s2 & Hm & Hb)|[(b' & [=] & _)|(e' & _ & Hm)]].
        -- by eapply Hno in Hm.
        -- by apply fetch_manifest_disk_kept in Hm.
      * unfold lift in Hp. destruct (select_platform w tp); [done|].
        by injection Hp as _ <-.
Qed.

Lemma nothing_written_before_assembly_witness :
  Returns false ≠ Returns true
  ∧ dirs (tick empty_disk) = dirs empty_disk
  ∧ files (tick empty_disk) = files empty_disk.
Proof.
  apply (nothing_written_before_assembly (serving redis_routes no_fault)
           "nonexistent/image" "latest" None empty_disk (tick empty_disk)
           (Returns false)).
  - reflexivity.
  - intros os_name arch hdrs manifest st1 [= <- <-]. vm_compute. discriminate.
Defined.

(** ** The manifest of the platform *)

(** X13. For an index with an entry for the platform, resolving the index
    is one request for the manifest named by the [digest] of the first such
    entry, with the headers of the manifest request; nothing of it is
    caught: a missing [digest], a transport error, a refused status and a
    body that is not JSON all propagate out of [download_image]. *)
Theorem index_entry_manifest_is_fetched (w : world) (repo os_name arch : string)
    (hdrs : list (string * string)) (manifest media_type manifests m : json)
    (pre post : list json) (st : state) :
  py_get manifest "mediaType" (JStr "") = Ok media_type →
  is_index media_type = Ok true →
  py_get manifest "manifests" (JList []) = Ok manifests →
  py_iter manifests = Ok (pre ++ m :: post) →
  Forall (other_entry os_name arch) pre →
  entry_matches os_name arch m = true →
  resolve_index w repo os_name arch hdrs manifest st
  = match py_getitem m "digest" with
    | Err e => (Raise e, st)
    | Ok digest =>
        (match http w (clock st) (manifest_request repo (py_str digest) hdrs) with
         | None => Raise RequestException
         | Some resp =>
             if (400 <=? status_code resp)%Z && (status_code resp <? 600)%Z
             then Raise (HTTPError (status_code resp))
             else match json_body resp with
                  | Some doc => Val doc
                  | None => Raise JSONDecodeError
                  end
         end, tick st)
    end
  ∧ (∀ e, py_getitem m "digest" = Err e → e = KeyError "digest").
Proof.
  intros Hmt Hidx Hms Hit Hpre Hm. split.
  - unfold resolve_index, bind, lift. rewrite Hmt, Hidx, Hms, Hit.
    rewrite (select_manifest_first _ _ _ _ _ Hpre Hm).
    rewrite (entry_matches_truthy _ _ _ Hm).
    destruct (py_getitem m "digest") as [digest|e]; [|done].
    cbv beta iota delta [negb].
    unfold requests_get, manifest_request.
    destruct (http w (clock st) _) as [resp|]; [|done].
    unfold raise_for_status, response_json, raise, ret.
    destruct (_ && _); [done|]. by destruct (json_body resp).
  - intros e. destruct m as [| | | |?|es]; try done. simpl.
    by destruct (dict_get es "digest"); intros [= <-].
Qed.

Lemma index_entry_manifest_is_fetched_witness :
  resolve_index (serving ubuntu_routes no_fault) "library/ubuntu" "linux" "arm64"
    (auth_headers (JStr "t")) ubuntu_index empty_disk
  = match py_getitem (index_entry "linux" "arm64" "sha256:arm") "digest" with
    | Err e => (Raise e, empty_disk)
    | Ok digest =>
        (match http (serving ubuntu_routes no_fault) (clock empty_disk)
                 (manifest_request "library/ubuntu" (py_str digest)
                    (auth_headers (JStr "t"))) with
         | None => Raise RequestException
         | Some resp =>
             if (400 <=? status_code resp)%Z && (status_code resp <? 600)%Z
             then Raise (HTTPError (status_code resp))
             else match json_body resp with
                  | Some doc => Val doc
                  | None => Raise JSONDecodeError
                  end
         end, tick empty_disk)
    end
  ∧ (∀ e, py_getitem (index_entry "linux" "arm64" "sha256:arm") "digest" = Err e →
          e = KeyError "digest").
Proof.
  apply (index_entry_manifest_is_fetched (serving ubuntu_routes no_fault)
           "library/ubuntu" "linux" "arm64" (auth_headers (JStr "t")) ubuntu_index
           (JStr "application/vnd.oci.image.index.v1+json") (JList ubuntu_entries)
           (index_entry "linux" "arm64" "sha256:arm")
           [index_entry "linux" "amd64" "sha256:amd"] []); try reflexivity.
  repeat constructor.
Defined.

(** X14. What the answer to the manifest request must look like, short of
    which [download_image] raises before it asks for anything else: a body
    that is not a JSON object gives [AttributeError] (line 68); a
    [mediaType] that is null, a boolean or a number gives [TypeError]
    (line 71); the [manifests] of an index that are null, a boolean or a
    number give [TypeError] (line 76).  A manifest object without
    [mediaType] is taken as the manifest of an image and used as it is. *)
Theorem manifest_shape_errors (w : world) (repo os_name arch : string)
    (hdrs : list (string * string)) (manifest : json) (st : state) :
  (py_get manifest "mediaType" (JStr "") = Err AttributeError →
   resolve_index w repo os_name arch hdrs manifest st = (Raise AttributeError, st))
  ∧ (∀ media_type,
       py_get manifest "mediaType" (JStr "") = Ok media_type →
       py_in "index" media_type = Err TypeError →
       resolve_index w repo os_name arch hdrs manifest st = (Raise TypeError, st))
  ∧ (∀ media_type manifests,
       py_get manifest "mediaType" (JStr "") = Ok media_type →
       is_index media_type = Ok true →
       py_get manifest "manifests" (JList []) = Ok manifests →
       py_iter manifests = Err TypeError →
       resolve_index w repo os_name arch hdrs manifest st = (Raise TypeError, st))
  ∧ (∀ entries,
       manifest = JDict entries → dict_get entries "mediaType" = None →
       resolve_index w repo os_name arch hdrs manifest st = (Val manifest, st))
  ∧ (py_get manifest "mediaType" (JStr "") = Err AttributeError
     ↔ ∀ entries, manifest ≠ JDict entries)
  ∧ (∀ v, py_in "index" v = Err TypeError
          ↔ v = JNull ∨ (∃ b, v = JBool b) ∨ ∃ n, v = JInt n)
  ∧ (∀ v, py_iter v = Err TypeError
          ↔ v = JNull ∨ (∃ b, v = JBool b) ∨ ∃ n, v = JInt n).
Proof.
  repeat split.
  - intros H. unfold resolve_index, bind, lift. by rewrite H.
  - intros mt Hmt Hin. unfold resolve_index, bind, lift, is_index. rewrite Hmt.
    by rewrite Hin.
  - intros mt ms Hmt Hidx Hms Hit. unfold resolve_index, bind, lift.
    by rewrite Hmt, Hidx, Hms, Hit.
  - intros entries -> Hnone. unfold resolve_index, bind, lift. simpl.
    by rewrite Hnone.
  - by intros H entries ->.
  - intros H. destruct manifest; try done. by destruct (H entries).
  - destruct v; try done; eauto.
  - intros [->|[[b ->]|[n ->]]]; done.
  - destruct v; try done; eauto.
  - intros [->|[[b ->]|[n ->]]]; done.
Qed.

Lemma manifest_shape_errors_witness :
  resolve_index offline "library/redis" "linux" "amd64" [] (JList []) empty_disk
  = (Raise AttributeError, empty_disk)
  ∧ resolve_index offline "library/redis" "linux" "amd64" []
      (JDict [("mediaType", JNull)]) empty_disk
    = (Raise TypeError, empty_disk)
  ∧ resolve_index offline "library/redis" "linux" "amd64" []
      (JDict [("manifests", JList ubuntu_entries)]) empty_disk
    = (Val (JDict [("manifests", JList ubuntu_entries)]), empty_disk).
Proof.
  split; [|split].
  - apply (proj1 (manifest_shape_errors offline "library/redis" "linux" "amd64" []
                    (JList []) empty_disk)).
    reflexivity.
  - apply (proj1 (proj2 (manifest_shape_errors offline "library/redis" "linux" "amd64"
                           [] (JDict [("mediaType", JNull)]) empty_disk)) JNull);
      reflexivity.
  - apply (proj1 (proj2 (proj2 (proj2
             (manifest_shape_errors offline "library/redis" "linux" "amd64" []
                (JDict [("manifests", JList ubuntu_entries)]) empty_disk))))
             [("manifests", JList ubuntu_entries)]); reflexivity.
Defined.

(** ** The loop over the layers *)

Lemma lift_inv {A} (v : value A) st r st' :
  lift v st = (r, st') →
  st' = st ∧ match v with Ok a => r = Val a | Err e => r = Raise e end.
Proof. unfold lift. intros [= <- <-]. by destruct v. Qed.

(** X15. The loop over the layers lets no error of the network or of the
    disk out: it raises only for a layer entry it cannot announce (a missing
    [digest], an entry that is not an object, a [size] that is not a number
    or too large to be shown), and then [KeyError], [TypeError] or
    [OverflowError]; when it leaves [download_image] it is by
    [return False]; and it gets through only when every entry can be
    announced. *)
Theorem layer_loop_raises_for_bad_entries_only (w : world) (repo dir : string)
    (hdrs : list (string * string)) (layers : list json) (idx : nat)
    (layer_files : list string) (st st' : state) (r : result (list string)) :
  download_layers w repo dir hdrs layers idx layer_files st = (r, st') →
  match r with
  | Raise e =>
      (e = KeyError "digest" ∨ e = TypeError ∨ e = OverflowError)
      ∧ ∃ layer, layer ∈ layers ∧ ¬ layer_described layer
  | Return b => b = false
  | Val _ => Forall layer_described layers
  end.
Proof.
  revert idx layer_files st. induction layers as [|layer rest IH];
    intros idx layer_files st H.
  { simpl in H. injection H as <- _. constructor. }
  pose proof H as H0. simpl in H.
  assert (∀ l, l ∈ rest → l ∈ layer :: rest) as Hin by (intros; by right).
  apply bind_inv in H as [(dg & s1 & Hd & H)|[(b & -> & _)|(e & -> & Hd)]];
    [|by apply rfo_download_layers in H0|]; apply lift_inv in Hd as [-> Hd].
  2:{ destruct layer as [| | | |?|es]; simpl in Hd; try injection Hd as <-;
        try (split; [auto|]; eexists; split; [by left|];
             by intros (? & ? & [=] & _)).
      destruct (dict_get es "digest") eqn:Hdg; [done|]. injection Hd as <-.
      split; [auto|]. eexists. split; [by left|].
      intros (? & ? & Hd' & _). simpl in Hd'. by rewrite Hdg in Hd'. }
  destruct (py_getitem layer "digest") as [dg'|] eqn:Hdg; [|done].
  injection Hd as ->.
  apply bind_inv in H as [(sz & s2 & Hs & H)|[(b & -> & _)|(e & -> & Hs)]];
    [|by apply rfo_download_layers in H0|]; apply lift_inv in Hs as [-> Hs].
  2:{ by destruct layer. }
  destruct (py_get layer "size" (JInt 0)) as [sz'|] eqn:Hsz; [|done].
  injection Hs as ->.
  apply bind_inv in H as [([] & s3 & Hmb & H)|[(b & -> & _)|(e & -> & Hmb)]];
    [|by apply rfo_download_layers in H0|]; apply lift_inv in Hmb as [-> Hmb].
  2:{ destruct (py_size_in_mb sz') as [|e'] eqn:Hm; [done|]. injection Hmb as <-.
      split.
      - destruct sz'; simpl in Hm; try (injection Hm as <-; auto).
        + done.
        + destruct (_ <? _)%Z; [done|]. injection Hm as <-. auto.
      - exists layer. split; [by left|].
        intros (? & size & _ & Hs' & Hm'). congruence. }
  destruct (py_size_in_mb sz') as [[]|] eqn:Hm; [|done].
  assert (layer_described layer) as Hgood by (by exists dg', sz').
  apply bind_inv in H as [(lf & s4 & Htry & H)|[(b & -> & _)|(e & -> & Htry)]];
    [|by apply rfo_download_layers in H0|].
  - apply IH in H. destruct r as [?|?|e].
    + by constructor.
    + done.
    + destruct H as [He (l & Hl & Hbad)]. split; [done|]. exists l. auto.
  - apply try_except_inv in Htry as [(e' & s4 & _ & [=])|[_ Hne]].
    by destruct (Hne e).
Qed.

Lemma layer_loop_raises_for_bad_entries_only_witness :
  (KeyError "digest" = KeyError "digest" ∨ KeyError "digest" = TypeError
   ∨ KeyError "digest" = OverflowError)
  ∧ ∃ layer, layer ∈ [JDict [("size", JInt 3)]] ∧ ¬ layer_described layer.
Proof.
  apply (layer_loop_raises_for_bad_entries_only offline "library/redis" "images/x" []
           [JDict [("size", JInt 3)]] 1 [] empty_disk empty_disk
           (Raise (KeyError "digest"))).
  reflexivity.
Defined.

Lemma download_layers_described w repo dir hdrs layers idx layer_files st e st' :
  Forall layer_described layers →
  download_layers w repo dir hdrs layers idx layer_files st ≠ (Raise e, st').
Proof.
  intros Hgood. revert idx layer_files st.
  induction Hgood as [|layer rest (dg & sz & Hd & Hs & Hm) _ IH];
    intros idx layer_files st; simpl; [done|].
  rewrite (bind_Val _ _ _ _ _ (lift_Ok _ _ _ Hd)).
  rewrite (bind_Val _ _ _ _ _ (lift_Ok _ _ _ Hs)).
  rewrite (bind_Val _ _ _ _ _ (lift_Ok _ _ _ Hm)).
  intros H. apply bind_inv in H as [(lf1 & s1 & _ & H)|[(b & [=] & _)|(e' & _ & Htry)]].
  - by apply IH in H.
  - apply try_except_inv in Htry as [(e'' & s4 & _ & [=])|[_ Hne]].
    by destruct (Hne e').
Qed.

(** X16. A layer the registry does not serve ends the assembly by
    [return False]: when the layer entries can all be announced and the
    request for the blob of one of them is never answered with an accepted
    status, the loop over the layers leaves [download_image] by
    [return False], whatever else the registry and the disk do. *)
Theorem unserved_layer_returns_false (w : world) (repo dir : string)
    (hdrs : list (string * string)) (layers : list json) (idx : nat)
    (layer_files : list string) (st : state) (layer digest : json) :
  Forall layer_described layers →
  layer ∈ layers →
  py_getitem layer "digest" = Ok digest →
  (∀ k resp, http w k (layer_request repo (py_str digest) hdrs) = Some resp →
             ¬ accepted resp) →
  ∃ st', download_layers w repo dir hdrs layers idx layer_files st
         = (Return false, st').
Proof.
  intros Hgood Hin Hd Hno.
  destruct (download_layers w repo dir hdrs layers idx layer_files st)
    as [[lf|b|e] st'] eqn:H.
  - apply list_elem_of_lookup in Hin as [i Hi].
    destruct (download_layers_content w _ _ _ _ _ _ _ _ _ H i layer Hi)
      as (digest' & k & resp & Hd' & Hget & Hacc & _).
    assert (digest' = digest) as -> by congruence.
    by destruct (Hno k resp Hget).
  - apply rfo_download_layers in H as ->. by exists st'.
  - by apply download_layers_described in H.
Qed.

Lemma unserved_layer_returns_false_witness :
  ∃ st', download_layers (serving redis_routes_without_layer no_fault) "library/redis"
           "images/library_redis_latest_amd64_temp" (auth_headers (JStr "t"))
           [ JDict [("digest", JStr "sha256:l1"); ("size", JInt 4)];
             JDict [("digest", JStr "sha256:l2")] ] 1 [] empty_disk
         = (Return false, st').
Proof.
  apply (unserved_layer_returns_false (serving redis_routes_without_layer no_fault)
           "library/redis" "images/library_redis_latest_amd64_temp"
           (auth_headers (JStr "t")) _ 1 [] empty_disk
           (JDict [("digest", JStr "sha256:l2")]) (JStr "sha256:l2")).
  - constructor; [by exists (JStr "sha256:l1"), (JInt 4)|].
    constructor; [by exists (JStr "sha256:l2"), (JInt 0)|]. constructor.
  - right. left.
  - reflexivity.
  - intros k resp [= <-]. vm_compute. discriminate.
Defined.

(** ** The filesystem operations of a call *)

#[local] Instance dirs_bounded_along dir : Along (dirs_bounded dir).
Proof.
  split; [split|]; unfold dirs_bounded.
  - intros st. split; auto.
  - intros x y z [Hxy Hxy'] [Hyz Hyz']. split; intros q Hq.
    + apply Hyz in Hq as [Hq|Hq]; [|auto]. apply Hxy in Hq. tauto.
    + auto.
  - intros st. split; auto.
Qed.

Section Operations.
Context (w : world) (R : relation state) `{!Along R}.

Lemma write_chunks_steps path cs :
  (∀ c st, R st (fs_effect (FWrite path c) st)) →
  steps R (write_chunks w path cs).
Proof.
  intros Hw. induction cs; simpl; unfold f_write; run_steps_with (apply Hw).
Qed.

Lemma save_body_steps path resp :
  (∀ st, R st (fs_effect (OpenW path) st)) →
  (∀ c st, R st (fs_effect (FWrite path c) st)) →
  steps R (save_body w path resp).
Proof.
  intros Ho Hw. pose proof (write_chunks_steps path (chunks resp) Hw).
  unfold save_body, open_w. run_steps_with (apply Ho).
Qed.

Lemma fetch_manifest_steps repo tag os_name arch :
  steps R (fetch_manifest w repo tag os_name arch).
Proof.
  unfold fetch_manifest, get_token, get_manifest, resolve_index.
  run_steps_with idtac.
Qed.

Context (n t a : string).
Hypothesis Hlayout :
  ∀ op, layout_op (output_dir n t a) op → ∀ st, R st (fs_effect op st).

Lemma download_config_steps hdrs manifest :
  steps R (download_config w n (output_dir n t a) hdrs manifest).
Proof.
  assert (∀ resp, steps R (save_body w (Py.path_join (output_dir n t a) "config.json")
                             resp)).
  { intros resp. apply save_body_steps; intros; apply Hlayout; simpl; by left. }
  unfold download_config. run_steps_with idtac.
Qed.

Lemma download_layers_steps hdrs layers idx layer_files :
  steps R (download_layers w n (output_dir n t a) hdrs layers idx layer_files).
Proof.
  assert (∀ j resp,
            steps R (save_body w (Py.path_join (output_dir n t a) (layer_filename j))
                       resp)).
  { intros j resp. apply save_body_steps; intros; apply Hlayout; simpl;
      right; right; by exists j. }
  revert idx layer_files. induction layers; intros; simpl; run_steps_with idtac.
Qed.

Lemma build_layout_steps hdrs manifest :
  steps R (build_layout w n t a hdrs manifest).
Proof.
  pose proof download_config_steps. pose proof download_layers_steps.
  unfold build_layout, write_layout_manifest, makedirs, open_w, json_dump.
  run_steps_with (apply Hlayout; simpl; unfold scratch_path; auto).
Qed.

Hypothesis Harchive :
  ∀ op, archive_op (output_dir n t a) (tar_filename n t a) op →
        ∀ st, R st (fs_effect op st).

Lemma archive_and_cleanup_steps : steps R (archive_and_cleanup w n t a).
Proof.
  unfold archive_and_cleanup, tar_create, rmtree.
  run_steps_with (apply Harchive; simpl; auto).
Qed.

Lemma assemble_steps hdrs manifest : steps R (assemble w n t a hdrs manifest).
Proof.
  pose proof build_layout_steps. pose proof archive_and_cleanup_steps.
  unfold assemble. run_steps_with idtac.
Qed.

End Operations.

Lemma scratch_path_below n t a p :
  scratch_path (output_dir n t a) p → below (output_dir n t a) p = true.
Proof.
  intros [->|[->|[j ->]]]; rewrite scratch_file_eq by done;
    apply scratch_file_below.
Qed.


Lemma download_image_steps (w : world) (R : relation state) `{!Along R}
    image_name tag tp os_name arch st o st' :
  select_platform w tp = Ok (os_name, arch) →
  (∀ op, layout_op (output_dir (normalize image_name) tag arch) op
         ∨ archive_op (output_dir (normalize image_name) tag arch)
             (tar_filename (normalize image_name) tag arch) op →
         ∀ st, R st (fs_effect op st)) →
  download_image w image_name tag tp st = (o, st') → R st st'.
Proof.
  intros Hp Hops. unfold download_image.
  destruct (download_image_body _ _ _ _ _) as [r s] eqn:Hb.
  assert (R st s) as HR.
  { unfold download_image_body in Hb. cbv zeta in Hb.
    rewrite (bind_Val _ _ _ _ _ (lift_Ok _ _ _ Hp)) in Hb.
    revert Hb. apply (steps_bind R); [apply fetch_manifest_steps, _|].
    intros [hdrs manifest]. apply assemble_steps; [done|auto..]. }
  by destruct r as [[]|b|e]; intros [= _ <-].
Qed.

Lemma download_image_file_kept w image_name tag tp os_name arch st o st' p :
  select_platform w tp = Ok (os_name, arch) →
  p ≠ tar_filename (normalize image_name) tag arch →
  below (output_dir (normalize image_name) tag arch) p = false →
  download_image w image_name tag tp st = (o, st') →
  files st' !! p = files st !! p.
Proof.
  intros Hp Htar Hout H.
  eapply (download_image_steps w (file_kept p)); [exact Hp| |exact H].
  intros op Hop. apply file_kept_effect.
  destruct op; simpl in *; try done;
    try (destruct Hop as [Hop|Hop]; [|done];
         apply scratch_path_below in Hop; congruence).
  - by destruct Hop as [[]| ->].
  - destruct Hop as [[]|[-> _]]. done.
  - by destruct Hop as [[]| ->].
Qed.



Lemma path_join_ne a f g :
  Py.startswith f "/" = false → Py.startswith g "/" = false → f ≠ g →
  Py.path_join a f ≠ Py.path_join a g.
Proof. intros Hf Hg Hne H. by apply path_join_inj in H. Qed.

(** ** What the archive holds besides the layers *)

Lemma build_layout_config_content w n t a hdrs manifest st st1 config :
  build_layout w n t a hdrs manifest st = (Val tt, st1) →
  py_get manifest "config" (JDict []) = Ok config →
  py_bool config = true →
  ∃ digest resp,
    py_getitem config "digest" = Ok digest
    ∧ http w (S (S (clock st))) (config_request n (py_str digest) hdrs) = Some resp
    ∧ files st1 !! (output_dir n t a +:+ "/" +:+ "config.json")
      = Some (Bytes (blob_bytes resp)).
Proof.
  unfold build_layout, makedirs. cbv zeta. intros H Hc Htrue.
  apply bind_inv in H as [([] & s1 & H1 & H)|[(b & [=] & _)|(e & [=] & _)]].
  apply fs_call_inv in H1 as [(_ & [=] & _)|(_ & _ & ->)].
  apply bind_inv in H as [([] & s2 & H2 & H)|[(b & [=] & _)|(e & [=] & _)]].
  apply fs_call_inv in H2 as [(_ & [=] & _)|(_ & _ & ->)].
  apply bind_inv in H as [([] & s3 & Hcfg & H)|[(b & [=] & _)|(e & [=] & _)]].
  apply bind_inv in H as [(layers & s4 & Hl & H)|[(b & [=] & _)|(e & [=] & _)]].
  apply lift_inv in Hl as [-> _].
  apply bind_inv in H as [(len & s5 & Hlen & H)|[(b & [=] & _)|(e & [=] & _)]].
  apply lift_inv in Hlen as [-> _].
  apply bind_inv in H as [(items & s6 & Hi & H)|[(b & [=] & _)|(e & [=] & _)]].
  apply lift_inv in Hi as [-> _].
  apply bind_inv in H as [(lf & s7 & Hlf & H)|[(b & [=] & _)|(e & [=] & _)]].
  apply (download_layers_file_kept w n _ hdrs
           (Py.path_join (output_dir n t a) "config.json")) in Hlf;
    [|intros j _; by apply path_join_ne].
  apply (write_layout_manifest_file_kept w _ _ _ _
           (Py.path_join (output_dir n t a) "config.json")) in H;
    [|by apply path_join_ne].
  unfold file_kept in H, Hlf. rewrite scratch_file_eq in H, Hlf by done.
  rewrite H, Hlf. clear H Hlf.
  unfold download_config in Hcfg. rewrite (bind_Val _ _ _ _ _ (lift_Ok _ _ _ Hc)) in Hcfg.
  rewrite Htrue in Hcfg.
  apply bind_inv in Hcfg as [(dg & s4 & Hd & H)|[(b & [=] & _)|(e & [=] & _)]].
  apply lift_inv in Hd as [-> Hd].
  destruct (py_getitem config "digest") as [dg'|] eqn:Hdg; [|done]. injection Hd as ->.
  apply bind_inv in H as [(resp & s5 & Hget & H)|[(b & [=] & _)|(e & [=] & _)]].
  apply requests_get_inv in Hget as [-> [(resp' & Hhttp & [= <-])|[_ [=]]]].
  cbv zeta in H. apply save_body_content in H. rewrite scratch_file_eq in H by done.
  exists dg', resp. done.
Qed.

Example stale_file_is_archived :
  ∃ members,
    files (download_image (serving redis_routes no_fault) "redis" "latest" None
             stale_disk).2 !! "images/library_redis_latest_amd64.tar"
    = Some (TarFile members)
    ∧ ("./layer-3.tar.gz.part", Bytes "stale") ∈ members.
Proof.
  eexists. split; [vm_compute; reflexivity|]. repeat constructor.
Qed.

(** X18. After a successful [download_image] on a manifest with a config,
    the [config.json] of the archive holds the bytes of the answer to the
    request for the blob named by the [digest] of the config, made right
    after the two directories are created; the status of that answer plays
    no part. *)
Theorem config_blob_is_archived (w : world) (image_name tag : string)
    (tp : option string) (st st' : state) :
  download_image w image_name tag tp st = (Returns true, st') →
  ∃ os_name arch hdrs manifest st1 members,
    select_platform w tp = Ok (os_name, arch)
    ∧ fetch_manifest w (normalize image_name) tag os_name arch st
      = (Val (hdrs, manifest), st1)
    ∧ files st' !! tar_filename (normalize image_name) tag arch = Some (TarFile members)
    ∧ ∀ config,
        py_get manifest "config" (JDict []) = Ok config →
        py_bool config = true →
        ∃ digest resp,
          py_getitem config "digest" = Ok digest
          ∧ http w (S (S (clock st1)))
              (config_request (normalize image_name) (py_str digest) hdrs)
            = Some resp
          ∧ ∀ d, ("./config.json", d) ∈ members ↔ d = Bytes (blob_bytes resp).
Proof.
  intros H.
  apply download_image_success in H
    as (os_name & arch & hdrs & manifest & st1 & st2 & Hp & Hm & Hb & Ha).
  apply archive_success in Ha as (_ & _ & members & Htar & Hmem).
  exists os_name, arch, hdrs, manifest, st1, members. repeat (split; [done|]).
  intros config Hc Htrue.
  destruct (build_layout_config_content _ _ _ _ _ _ _ _ _ Hb Hc Htrue)
    as (digest & resp & Hd & Hget & Hfile).
  exists digest, resp. repeat (split; [done|]).
  intros d. rewrite Hmem. split.
  - intros (rel & Hrel & Hrd).
    change ("./" +:+ rel) with (String "." (String "/" rel)) in Hrel.
    injection Hrel as <-. congruence.
  - intros ->. by exists "config.json".
Qed.

Lemma config_blob_is_archived_witness :
  ∃ os_name arch hdrs manifest st1 members,
    select_platform (serving redis_routes no_fault) None = Ok (os_name, arch)
    ∧ fetch_manifest (serving redis_routes no_fault) (normalize "redis") "latest"
        os_name arch empty_disk
      = (Val (hdrs, manifest), st1)
    ∧ files (download_image (serving redis_routes no_fault) "redis" "latest" None
               empty_disk).2
        !! tar_filename (normalize "redis") "latest" arch = Some (TarFile members)
    ∧ ∀ config,
        py_get manifest "config" (JDict []) = Ok config →
        py_bool config = true →
        ∃ digest resp,
          py_getitem config "digest" = Ok digest
          ∧ http (serving redis_routes no_fault) (S (S (clock st1)))
              (config_request (normalize "redis") (py_str digest) hdrs)
            = Some resp
          ∧ ∀ d, ("./config.json", d) ∈ members ↔ d = Bytes (blob_bytes resp).
Proof.
  apply (config_blob_is_archived (serving redis_routes no_fault) "redis" "latest"
           None empty_disk).
  vm_compute. reflexivity.
Defined.

(** X19. The scratch directory is not emptied before it is filled (line
    101 accepts a directory that exists): after a successful
    [download_image], every file that was lying below the scratch directory
    before the call, other than [config.json], [manifest.json] and the
    layer files, is a member of the archive, with what it held. *)
Theorem stale_scratch_files_are_archived (w : world) (image_name tag : string)
    (tp : option string) (st st' : state) :
  download_image w image_name tag tp st = (Returns true, st') →
  ∃ os_name arch members,
    select_platform w tp = Ok (os_name, arch)
    ∧ files st' !! tar_filename (normalize image_name) tag arch = Some (TarFile members)
    ∧ ∀ rel d,
        files st !! (output_dir (normalize image_name) tag arch +:+ "/" +:+ rel)
        = Some d →
        rel ≠ "config.json" → rel ≠ "manifest.json" →
        (∀ idx, rel ≠ layer_filename idx) →
        ("./" +:+ rel, d) ∈ members.
Proof.
  intros H.
  apply download_image_success in H
    as (os_name & arch & hdrs & manifest & st1 & st2 & Hp & Hm & Hb & Ha).
  apply archive_success in Ha as (_ & _ & members & Htar & Hmem).
  exists os_name, arch, members. repeat (split; [done|]).
  intros rel d Hd Hc Hmf Hl. apply Hmem. exists rel. split; [done|].
  apply fetch_manifest_disk_kept in Hm as [_ Hfiles].
  apply (build_layout_steps w (file_kept (output_dir (normalize image_name) tag arch
                                           +:+ "/" +:+ rel))) in Hb.
  - unfold file_kept in Hb. by rewrite Hb, Hfiles.
  - intros op Hop. apply file_kept_effect.
    destruct op; simpl in *; try done;
      destruct Hop as [->|[->|[j ->]]]; apply scratch_file_ne; auto.
Qed.

Lemma stale_scratch_files_are_archived_witness :
  ∃ os_name arch members,
    select_platform (serving redis_routes no_fault) None = Ok (os_name, arch)
    ∧ files (download_image (serving redis_routes no_fault) "redis" "latest" None
               stale_disk).2
        !! tar_filename (normalize "redis") "latest" arch = Some (TarFile members)
    ∧ ∀ rel d,
        files stale_disk !! (output_dir (normalize "redis") "latest" arch
                             +:+ "/" +:+ rel)
        = Some d →
        rel ≠ "config.json" → rel ≠ "manifest.json" →
        (∀ idx, rel ≠ layer_filename idx) →
        ("./" +:+ rel, d) ∈ members.
Proof.
  apply (stale_scratch_files_are_archived (serving redis_routes no_fault) "redis"
           "latest" None stale_disk).
  vm_compute. reflexivity.
Defined.

(** ** Single-image mode *)

(** X20. In single-image mode, exit code 0 means that the archive of the
    image for the platform of the host is on the disk and its scratch
    directory is gone; the only other ways the run ends are exit code 1,
    when [download_image] returns [False], and a traceback, when it
    raises. *)
Theorem single_exit_zero_means_archived (w : world) (image tag : string)
    (st st' : state) (x : exit) :
  single w image tag st = (x, st') →
  match x with
  | Exit code =>
      (code = 0%Z
       ∧ download_image w image tag None st = (Returns true, st')
       ∧ (∃ members,
            files st' !! tar_filename (normalize image) tag (get_platform w).2
            = Some (TarFile members))
       ∧ output_dir (normalize image) tag (get_platform w).2 ∉ dirs st')
      ∨ (code = 1%Z ∧ download_image w image tag None st = (Returns false, st'))
  | Traceback e => download_image w image tag None st = (Raises e, st')
  end.
Proof.
  unfold single. destruct (download_image w image tag None st) as [[[]|e] s] eqn:H;
    intros [= <- <-]; [|by right|done].
  left. split; [done|]. split; [done|].
  apply download_image_success in H
    as (os_name & arch & hdrs & manifest & st1 & st2 & Hp & _ & _ & Ha).
  injection Hp as Hp. rewrite Hp. simpl.
  apply archive_success in Ha as (Hdir & _ & members & Htar & _).
  split; [by exists members|done].
Qed.

Lemma single_exit_zero_means_archived_witness :
  (0%Z = 0%Z
   ∧ download_image (serving redis_routes no_fault) "redis" "latest" None empty_disk
     = (Returns true,
        (single (serving redis_routes no_fault) "redis" "latest" empty_disk).2)
   ∧ (∃ members,
        files (single (serving redis_routes no_fault) "redis" "latest" empty_disk).2
          !! tar_filename (normalize "redis") "latest"
               (get_platform (serving redis_routes no_fault)).2
        = Some (TarFile members))
   ∧ output_dir (normalize "redis") "latest"
       (get_platform (serving redis_routes no_fault)).2
     ∉ dirs (single (serving redis_routes no_fault) "redis" "latest" empty_disk).2)
  ∨ (0%Z = 1%Z
     ∧ download_image (serving redis_routes no_fault) "redis" "latest" None empty_disk
       = (Returns false,
          (single (serving redis_routes no_fault) "redis" "latest" empty_disk).2)).
Proof.
  apply (single_exit_zero_means_archived (serving redis_routes no_fault) "redis"
           "latest" empty_disk _ (Exit 0)).
  vm_compute. reflexivity.
Defined.

(** ** Where the manifest comes from *)

Lemma get_token_inv w repo st token st1 :
  get_token w repo st = (Val token, st1) →
  st1 = tick st
  ∧ ∃ resp body,
      http w (clock st) (token_request repo) = Some resp
      ∧ accepted resp ∧ json_body resp = Some body
      ∧ py_getitem body "token" = Ok token.
Proof.
  unfold get_token. intros H.
  apply try_except_inv in H as [(e & s & _ & [=])|[H _]].
  apply bind_inv in H as [(resp & s1 & Hget & H)|[(b & [=] & _)|(e & [=] & _)]].
  apply requests_get_inv in Hget as [-> [(resp' & Hhttp & [= <-])|[_ [=]]]].
  apply bind_inv in H as [([] & s2 & Hst & H)|[(b & [=] & _)|(e & [=] & _)]].
  apply raise_for_status_inv in Hst as [Hacc ->].
  apply bind_inv in H as [(body & s3 & Hbody & H)|[(b & [=] & _)|(e & [=] & _)]].
  unfold response_json in Hbody.
  destruct (json_body resp) as [body'|] eqn:Hb; [|done]. injection Hbody as <- <-.
  apply lift_inv in H as [-> H].
  destruct (py_getitem body' "token") as [t|] eqn:Ht; [|done]. injection H as ->.
  split; [done|]. by exists resp, body'.
Qed.

Lemma fetched_json_inv w req st doc st1 :
  (let* resp := requests_get w req in
   let* _ := raise_for_status resp in
   response_json resp) st = (Val doc, st1) →
  st1 = tick st
  ∧ ∃ resp, http w (clock st) req = Some resp ∧ accepted resp
            ∧ json_body resp = Some doc.
Proof.
  intros H.
  apply bind_inv in H as [(resp & s1 & Hget & H)|[(b & [=] & _)|(e & [=] & _)]].
  apply requests_get_inv in Hget as [-> [(resp' & Hhttp & [= <-])|[_ [=]]]].
  apply bind_inv in H as [([] & s2 & Hst & H)|[(b & [=] & _)|(e & [=] & _)]].
  apply raise_for_status_inv in Hst as [Hacc ->].
  unfold response_json in H.
  destruct (json_body resp) as [body'|] eqn:Hb; [|done]. injection H as <- <-.
  split; [done|]. by exists resp.
Qed.

Lemma get_manifest_inv w repo tag hdrs st manifest st1 :
  get_manifest w repo tag hdrs st = (Val manifest, st1) →
  st1 = tick st
  ∧ ∃ resp,
      http w (clock st) (manifest_request repo tag hdrs) = Some resp
      ∧ accepted resp ∧ json_body resp = Some manifest.
Proof.
  unfold get_manifest. intros H.
  apply try_except_inv in H as [(e & s & _ & [=])|[H _]].
  by apply fetched_json_inv in H.
Qed.

(** X21. Where the manifest the assembly works on comes from.  When the
    steps before the assembly get through, the token is the [token] field
    of the accepted answer to the first request; every later request
    carries [Authorization: Bearer <token>] and the [Accept] header with the
    four media types; the answer to the second request, for the manifest of
    the tag, is accepted and is JSON; and the manifest handed to the
    assembly is either that document, when its media type is not that of an
    index, after two requests in all, or the accepted JSON answer to a
    third request, for the manifest named by the [digest] of the index
    entry selected for the platform. *)
Theorem manifest_provenance (w : world) (repo tag os_name arch : string)
    (st st1 : state) (hdrs : list (string * string)) (manifest : json) :
  fetch_manifest w repo tag os_name arch st = (Val (hdrs, manifest), st1) →
  ∃ token token_resp token_body resp top media_type,
    http w (clock st) (token_request repo) = Some token_resp
    ∧ accepted token_resp ∧ json_body token_resp = Some token_body
    ∧ py_getitem token_body "token" = Ok token
    ∧ hdrs = [ ("Authorization", "Bearer " +:+ py_str token);
               ("Accept",
                "application/vnd.docker.distribution.manifest.v2+json, "
                +:+ "application/vnd.docker.distribution.manifest.list.v2+json, "
                +:+ "application/vnd.oci.image.manifest.v1+json, "
                +:+ "application/vnd.oci.image.index.v1+json") ]
    ∧ http w (S (clock st)) (manifest_request repo tag hdrs) = Some resp
    ∧ accepted resp ∧ json_body resp = Some top
    ∧ py_get top "mediaType" (JStr "") = Ok media_type
    ∧ ((is_index media_type = Ok false ∧ manifest = top ∧ st1 = tick (tick st))
       ∨ (is_index media_type = Ok true
          ∧ ∃ manifests entries m digest platform_resp,
              py_get top "manifests" (JList []) = Ok manifests
              ∧ py_iter manifests = Ok entries
              ∧ select_manifest entries os_name arch = Ok m
              ∧ py_bool m = true
              ∧ py_getitem m "digest" = Ok digest
              ∧ http w (S (S (clock st)))
                  (manifest_request repo (py_str digest) hdrs)
                = Some platform_resp
              ∧ accepted platform_resp
              ∧ json_body platform_resp = Some manifest
              ∧ st1 = tick (tick (tick st)))).
Proof.
  unfold fetch_manifest. cbv zeta. intros H.
  apply bind_inv in H as [(token & s1 & Ht & H)|[(b & [=] & _)|(e & [=] & _)]].
  apply get_token_inv in Ht as (-> & tresp & tbody & Hthttp & Htacc & Htbody & Htoken).
  apply bind_inv in H as [(top & s2 & Hm & H)|[(b & [=] & _)|(e & [=] & _)]].
  apply get_manifest_inv in Hm as (-> & resp & Hhttp & Hacc & Hbody).
  apply bind_inv in H as [(m' & s3 & Hr & H)|[(b & [=] & _)|(e & [=] & _)]].
  injection H as <- <- <-.
  unfold resolve_index in Hr.
  apply bind_inv in Hr as [(mt & s4 & Hmt & Hr)|[(b & [=] & _)|(e & [=] & _)]].
  apply lift_inv in Hmt as [-> Hmt].
  destruct (py_get top "mediaType" (JStr "")) as [mt'|] eqn:Hmt'; [|done].
  injection Hmt as ->.
  apply bind_inv in Hr as [(idx & s5 & Hidx & Hr)|[(b & [=] & _)|(e & [=] & _)]].
  apply lift_inv in Hidx as [-> Hidx].
  destruct (is_index mt') as [idx'|] eqn:Hidx'; [|done]. injection Hidx as ->.
  exists token, tresp, tbody, resp, top, mt'. repeat (split; [done|]).
  destruct idx'.
  - right. split; [done|].
    apply bind_inv in Hr as [(ms & s6 & Hms & Hr)|[(b & [=] & _)|(e & [=] & _)]].
    apply lift_inv in Hms as [-> Hms].
    destruct (py_get top "manifests" (JList [])) as [ms'|] eqn:Hms'; [|done].
    injection Hms as ->.
    apply bind_inv in Hr as [(es & s7 & Hes & Hr)|[(b & [=] & _)|(e & [=] & _)]].
    apply lift_inv in Hes as [-> Hes].
    destruct (py_iter ms') as [es'|] eqn:Hes'; [|done]. injection Hes as ->.
    apply bind_inv in Hr as [(m & s8 & Hsel & Hr)|[(b & [=] & _)|(e & [=] & _)]].
    apply lift_inv in Hsel as [-> Hsel].
    destruct (select_manifest es' os_name arch) as [m0|] eqn:Hsel'; [|done].
    injection Hsel as ->.
    destruct (py_bool m0) eqn:Htruthy; [|done]. simpl negb in Hr. cbv iota in Hr.
    apply bind_inv in Hr as [(dg & s9 & Hdg & Hr)|[(b & [=] & _)|(e & [=] & _)]].
    apply lift_inv in Hdg as [-> Hdg].
    destruct (py_getitem m0 "digest") as [dg'|] eqn:Hdg'; [|done].
    injection Hdg as ->.
    apply fetched_json_inv in Hr as (-> & presp & Hphttp & Hpacc & Hpbody).
    exists ms', es', m0, dg', presp. done.
  - left. by injection Hr as <- <-.
Qed.

Lemma manifest_provenance_witness :
  ∃ token token_resp token_body resp top media_type,
    http (serving ubuntu_arm_routes no_fault) (clock empty_disk)
      (token_request "library/ubuntu") = Some token_resp
    ∧ accepted token_resp ∧ json_body token_resp = Some token_body
    ∧ py_getitem token_body "token" = Ok token
    ∧ auth_headers (JStr "t")
      = [ ("Authorization", "Bearer " +:+ py_str token);
          ("Accept",
           "application/vnd.docker.distribution.manifest.v2+json, "
           +:+ "application/vnd.docker.distribution.manifest.list.v2+json, "
           +:+ "application/vnd.oci.image.manifest.v1+json, "
           +:+ "application/vnd.oci.image.index.v1+json") ]
    ∧ http (serving ubuntu_arm_routes no_fault) (S (clock empty_disk))
        (manifest_request "library/ubuntu" "latest" (auth_headers (JStr "t")))
      = Some resp
    ∧ accepted resp ∧ json_body resp = Some top
    ∧ py_get top "mediaType" (JStr "") = Ok media_type
    ∧ ((is_index media_type = Ok false ∧ ubuntu_arm_manifest = top
        ∧ tick (tick (tick empty_disk)) = tick (tick empty_disk))
       ∨ (is_index media_type = Ok true
          ∧ ∃ manifests entries m digest platform_resp,
              py_get top "manifests" (JList []) = Ok manifests
              ∧ py_iter manifests = Ok entries
              ∧ select_manifest entries "linux" "arm64" = Ok m
              ∧ py_bool m = true
              ∧ py_getitem m "digest" = Ok digest
              ∧ http (serving ubuntu_arm_routes no_fault) (S (S (clock empty_disk)))
                  (manifest_request "library/ubuntu" (py_str digest)
                     (auth_headers (JStr "t")))
                = Some platform_resp
              ∧ accepted platform_resp
              ∧ json_body platform_resp = Some ubuntu_arm_manifest
              ∧ tick (tick (tick empty_disk)) = tick (tick (tick empty_disk)))).
Proof.
  apply (manifest_provenance (serving ubuntu_arm_routes no_fault) "library/ubuntu"
           "latest" "linux" "arm64" empty_disk (tick (tick (tick empty_disk)))
           (auth_headers (JStr "t")) ubuntu_arm_manifest).
  vm_compute. reflexivity.
Defined.

(** ** Running a call again *)

Lemma agree_effect dir op st1 st2 :
  (∀ p d, op = TarAdd p d → below dir p = false) →
  agree dir st1 st2 → agree dir (fs_effect op st1) (fs_effect op st2).
Proof.
  unfold agree. intros Htar Ha p Hp. specialize (Ha p Hp) as Hsame.
  destruct op; simpl; try done;
    try (destruct (decide (path = p)) as [->|Hne];
         [by rewrite !lookup_insert_eq|by rewrite !lookup_insert_ne]).
  - destruct (decide (path = p)) as [->|Hne].
    + by rewrite !lookup_insert_eq, Hsame.
    + by rewrite !lookup_insert_ne.
  - destruct (decide (path = p)) as [->|Hne].
    + rewrite (Htar p dir0 eq_refl) in Hp. done.
    + by rewrite !lookup_insert_ne.
  - rewrite !map_lookup_filter, Hsame. done.
Qed.

Section Rerun.
Context (w : world) (dir : string).
Hypothesis Hsteady : steady w.

Lemma alike_ret {A} (a : A) : alike dir (ret a).
Proof. by intros st1 st2 Ha. Qed.

Lemma alike_raise {A} e : alike dir (raise (A:=A) e).
Proof. by intros st1 st2 Ha. Qed.

Lemma alike_return {A} b : alike dir (return_ (A:=A) b).
Proof. by intros st1 st2 Ha. Qed.

Lemma alike_lift {A} (v : value A) : alike dir (lift v).
Proof. by intros st1 st2 Ha. Qed.

Lemma alike_bind {A B} (m : M A) (k : A → M B) :
  alike dir m → (∀ a, alike dir (k a)) → alike dir (bind m k).
Proof.
  intros Hm Hk st1 st2 Ha. unfold bind. destruct (Hm st1 st2 Ha) as [Hr Hs].
  destruct (m st1) as [r1 s1], (m st2) as [r2 s2]. simpl in *. subst r2.
  destruct r1; [by apply Hk|done..].
Qed.

Lemma alike_try {A} (body : M A) (handler : exn → M A) :
  alike dir body → (∀ e, alike dir (handler e)) → alike dir (try_except body handler).
Proof.
  intros Hm Hk st1 st2 Ha. unfold try_except. destruct (Hm st1 st2 Ha) as [Hr Hs].
  destruct (body st1) as [r1 s1], (body st2) as [r2 s2]. simpl in *. subst r2.
  destruct r1; [done..|by apply Hk].
Qed.

Lemma alike_requests_get req : alike dir (requests_get w req).
Proof.
  intros st1 st2 Ha. unfold requests_get.
  rewrite (proj1 Hsteady (clock st1) (clock st2)). by destruct (http w _ _).
Qed.

Lemma alike_fs_call op :
  (∀ p d, op = TarAdd p d → below dir p = false) → alike dir (fs_call w op).
Proof.
  intros Htar st1 st2 Ha. unfold fs_call.
  rewrite (proj2 Hsteady (clock st1) (clock st2)).
  destruct (fs_fault w _ _); [done|]. split; [done|]. simpl.
  by apply (agree_effect dir op (tick st1) (tick st2)).
Qed.

Lemma alike_raise_for_status resp : alike dir (raise_for_status resp).
Proof. unfold raise_for_status. case_match; [apply alike_raise|apply alike_ret]. Qed.

Lemma alike_response_json resp : alike dir (response_json resp).
Proof. unfold response_json. case_match; [apply alike_ret|apply alike_raise]. Qed.

End Rerun.

#[local] Hint Resolve alike_ret alike_raise alike_return alike_lift
  alike_requests_get alike_raise_for_status alike_response_json : run.

Ltac alike_steps :=
  repeat first
    [ solve [auto with run]
    | apply alike_bind; [|intros ?]
    | apply alike_try; [|intros ?]
    | apply alike_fs_call; [done|]; solve [intros ? ? [=]]
    | progress cbv zeta
    | case_match ].

Section RerunPhases.
Context (w : world) (dir : string).
Hypothesis Hsteady : steady w.

Lemma alike_write_chunks path cs : alike dir (write_chunks w path cs).
Proof. induction cs; simpl; unfold f_write; alike_steps. Qed.

Lemma alike_save_body path resp : alike dir (save_body w path resp).
Proof.
  pose proof (alike_write_chunks path (chunks resp)).
  unfold save_body, open_w. alike_steps.
Qed.

Lemma alike_fetch_manifest repo tag os_name arch :
  alike dir (fetch_manifest w repo tag os_name arch).
Proof.
  unfold fetch_manifest, get_token, get_manifest, resolve_index. alike_steps.
Qed.

Lemma alike_download_config repo d hdrs manifest :
  alike dir (download_config w repo d hdrs manifest).
Proof. pose proof alike_save_body. unfold download_config. alike_steps. Qed.

Lemma alike_download_layers repo d hdrs layers idx layer_files :
  alike dir (download_layers w repo d hdrs layers idx layer_files).
Proof.
  pose proof alike_save_body. revert idx layer_files.
  induction layers; intros; simpl; alike_steps.
Qed.

Lemma alike_build_layout n t a hdrs manifest :
  alike dir (build_layout w n t a hdrs manifest).
Proof.
  pose proof alike_download_config. pose proof alike_download_layers.
  unfold build_layout, write_layout_manifest, makedirs, open_w, json_dump.
  alike_steps.
Qed.

End RerunPhases.

(** X22. Running a call again.  In a world that answers every call in the
    same way whenever it is made, after a call of [download_image] that
    returned [True] from a disk with nothing below the scratch directory,
    the same call returns [True] again; it writes the archive anew with the
    same members, each with the same content, and leaves every other file
    as the first call left it. *)
Theorem rerun_gives_same_archive (w : world) (image_name tag : string)
    (tp : option string) (os_name arch : string) (st st1 : state) :
  steady w →
  select_platform w tp = Ok (os_name, arch) →
  (∀ p, below (output_dir (normalize image_name) tag arch) p = true →
        files st !! p = None) →
  download_image w image_name tag tp st = (Returns true, st1) →
  ∃ st2 members1 members2,
    download_image w image_name tag tp st1 = (Returns true, st2)
    ∧ files st1 !! tar_filename (normalize image_name) tag arch
      = Some (TarFile members1)
    ∧ files st2 !! tar_filename (normalize image_name) tag arch
      = Some (TarFile members2)
    ∧ (∀ member, member ∈ members1 ↔ member ∈ members2)
    ∧ (∀ p, p ≠ tar_filename (normalize image_name) tag arch →
            files st2 !! p = files st1 !! p).
Proof.
  intros Hsteady Hp Hclean H.
  destruct (download_image_success _ _ _ _ _ _ H)
    as (os' & arch' & hdrs & manifest & sa & sb & Hp' & Hm & Hb & Ha).
  assert (os' = os_name ∧ arch' = arch) as [-> ->] by (split; congruence).
  clear Hp'.
  destruct (archive_success _ _ _ _ _ _ Ha) as (_ & Hgone1 & members1 & Htar1 & Hmem1).
  assert (agree (output_dir (normalize image_name) tag arch) st st1) as Hagree.
  { intros p Hbelow. rewrite (Hclean p Hbelow).
    by destruct (Hgone1 p Hbelow) as [_ ->]. }
  destruct (alike_fetch_manifest w _ Hsteady (normalize image_name) tag os_name arch
              _ _ Hagree) as [Hr1 Hagree1].
  rewrite Hm in Hr1, Hagree1. simpl in Hr1, Hagree1.
  destruct (fetch_manifest w (normalize image_name) tag os_name arch st1)
    as [r1 sa'] eqn:Hm'. simpl in Hr1, Hagree1. subst r1.
  destruct (alike_build_layout w _ Hsteady (normalize image_name) tag arch hdrs
              manifest _ _ Hagree1) as [Hr2 Hagree2].
  rewrite Hb in Hr2, Hagree2. simpl in Hr2, Hagree2.
  destruct (build_layout w (normalize image_name) tag arch hdrs manifest sa')
    as [r2 sb'] eqn:Hb'. simpl in Hr2, Hagree2. subst r2.
  assert (∃ st2, archive_and_cleanup w (normalize image_name) tag arch sb'
                 = (Return true, st2)) as [st2 Ha'].
  { revert Ha. unfold archive_and_cleanup, tar_create, rmtree, bind, fs_call.
    rewrite !(proj2 Hsteady _ (clock sb')) at 1.
    destruct (fs_fault w (clock sb') _); [done|]. simpl.
    rewrite (proj2 Hsteady (S (clock sb)) (S (clock sb'))).
    destruct (fs_fault w (S (clock sb')) _); [done|]. simpl.
    rewrite (proj2 Hsteady (S (S (clock sb))) (S (S (clock sb')))).
    destruct (fs_fault w (S (S (clock sb'))) _); [done|]. by eexists. }
  assert (download_image w image_name tag tp st1 = (Returns true, st2)) as Hrun.
  { unfold download_image, download_image_body. cbv zeta.
    rewrite (bind_Val _ _ _ _ _ (lift_Ok _ _ _ Hp)).
    rewrite (bind_Val _ _ _ _ _ Hm'). unfold assemble.
    by rewrite (bind_Val _ _ _ _ _ Hb'), Ha'. }
  destruct (archive_success _ _ _ _ _ _ Ha') as (_ & Hgone2 & members2 & Htar2 & Hmem2).
  exists st2, members1, members2. repeat (split; [done|]). split.
  - intros [name d]. rewrite Hmem1, Hmem2.
    split; intros (rel & -> & Hrel); exists rel; (split; [done|]);
      [rewrite <- Hagree2|rewrite Hagree2]; try done; apply scratch_file_below.
  - intros p Hne.
    destruct (below (output_dir (normalize image_name) tag arch) p) eqn:Hbelow.
    + destruct (Hgone1 p Hbelow) as [_ ->]. by destruct (Hgone2 p Hbelow) as [_ ->].
    + by eapply download_image_file_kept.
Qed.

Lemma rerun_gives_same_archive_witness :
  ∃ st2 members1 members2,
    download_image (serving redis_routes no_fault) "redis" "latest" None
      (download_image (serving redis_routes no_fault) "redis" "latest" None
         empty_disk).2
    = (Returns true, st2)
    ∧ files (download_image (serving redis_routes no_fault) "redis" "latest" None
               empty_disk).2
        !! tar_filename (normalize "redis") "latest" "amd64"
      = Some (TarFile members1)
    ∧ files st2 !! tar_filename (normalize "redis") "latest" "amd64"
      = Some (TarFile members2)
    ∧ (∀ member, member ∈ members1 ↔ member ∈ members2)
    ∧ (∀ p, p ≠ tar_filename (normalize "redis") "latest" "amd64" →
            files st2 !! p
            = files (download_image (serving redis_routes no_fault) "redis" "latest"
                       None empty_disk).2 !! p).
Proof.
  apply (rerun_gives_same_archive (serving redis_routes no_fault) "redis" "latest"
           None "linux" "amd64" empty_disk).
  - split; reflexivity.
  - reflexivity.
  - intros p _. apply lookup_empty.
  - vm_compute. reflexivity.
Defined.

(** ** The declared size of a layer *)

(** X23. The size a manifest declares for a layer is shown and nothing
    else: it is compared neither with the bytes received nor with anything
    on the disk.  Two lists of layer entries that name the same blobs in the
    same order, with whatever sizes that can be shown, are downloaded in the
    same way: the same requests, the same files, the same end. *)
Theorem declared_size_is_not_checked (w : world) (repo dir : string)
    (hdrs : list (string * string)) (layers1 layers2 : list json) (idx : nat)
    (layer_files : list string) (st : state) :
  Forall2 same_blob layers1 layers2 →
  download_layers w repo dir hdrs layers1 idx layer_files st
  = download_layers w repo dir hdrs layers2 idx layer_files st.
Proof.
  intros Hsame. revert idx layer_files st.
  induction Hsame as [|l1 l2 rest1 rest2 (Hd & Hl1 & Hl2) _ IH];
    intros idx layer_files st; [done|]. simpl.
  destruct Hl1 as (dg1 & sz1 & Hd1 & Hs1 & Hm1).
  destruct Hl2 as (dg2 & sz2 & Hd2 & Hs2 & Hm2).
  assert (dg2 = dg1) as -> by congruence.
  rewrite (bind_Val _ _ _ _ _ (lift_Ok _ _ _ Hd1)).
  rewrite (bind_Val _ _ _ _ _ (lift_Ok _ _ _ Hs1)).
  rewrite (bind_Val _ _ _ _ _ (lift_Ok _ _ _ Hm1)).
  rewrite (bind_Val _ _ _ _ _ (lift_Ok _ _ _ Hd2)).
  rewrite (bind_Val _ _ _ _ _ (lift_Ok _ _ _ Hs2)).
  rewrite (bind_Val _ _ _ _ _ (lift_Ok _ _ _ Hm2)).
  unfold bind at 1 5. destruct (try_except _ _ st) as [[lf|b|e] s]; [apply IH|done..].
Qed.

Lemma declared_size_is_not_checked_witness :
  download_layers (serving redis_routes no_fault) "library/redis"
    "images/library_redis_latest_amd64_temp" (auth_headers (JStr "t"))
    [JDict [("digest", JStr "sha256:l1"); ("size", JInt 4)]] 1 [] empty_disk
  = download_layers (serving redis_routes no_fault) "library/redis"
      "images/library_redis_latest_amd64_temp" (auth_headers (JStr "t"))
      [JDict [("digest", JStr "sha256:l1"); ("size", JInt 123456789)]] 1 [] empty_disk.
Proof.
  apply declared_size_is_not_checked.
  constructor; [|constructor].
  split; [reflexivity|].
  split; [by exists (JStr "sha256:l1"), (JInt 4)
         |by exists (JStr "sha256:l1"), (JInt 123456789)].
Defined.
